(** * VGA hardware emulation of the ReactOS virtual DOS machine

    A shallow embedding of [subsystems/ntvdm/vga.c]: the register file and
    the indexed-port protocol, the translation of guest addresses onto the
    four memory planes, the mode decoder and the scan-out performed by a
    display refresh.

    Conventions.
    - C integers are [Z] with the wrap-around of their type written out
      ([to_BYTE], [to_WORD], [to_SHORT], [to_DWORD]).
    - The static arrays of the register banks are lists, [VgaMemory] is a
      finite map from array index to byte (an absent key reads as the zero
      the array is initialised with).  Every array access is bounds-checked.
    - An operation returns [None] where the C program leaves defined
      behaviour (an access outside an array, a failed [ASSERT], a division by
      zero, a use of a released framebuffer) and [Some] of its result
      otherwise.
    - The calls into the Windows console API are appended to [HostCalls];
      the two calls whose failure the code tests take their outcome from a
      [host] record.  The handles themselves, the [DPRINT] logging and what
      [WriteConsoleOutputA] writes back into [UpdateRectangle] (which the
      code resets before it reads it again) are left out.
    - A [CHAR] is kept as the byte it is stored in. *)

From stdpp Require Import base numbers option list gmap.

Local Open Scope Z_scope.

(** ** The constants of [vga.h]

    [vga.h] is not part of the sources at hand.  Its constants are the
    parameters of the development: every definition below refers to them by
    their C names through the class [vga_h], and every theorem states which
    facts about them it relies on. *)

Class vga_h := {
  (* register I/O ports *)
  VGA_AC_INDEX : Z;
  VGA_AC_READ : Z;
  VGA_SEQ_INDEX : Z;
  VGA_SEQ_DATA : Z;
  VGA_DAC_READ_INDEX : Z;
  VGA_DAC_WRITE_INDEX : Z;
  VGA_DAC_DATA : Z;
  VGA_MISC_READ : Z;
  VGA_MISC_WRITE : Z;
  VGA_CRTC_INDEX : Z;
  VGA_CRTC_DATA : Z;
  VGA_GC_INDEX : Z;
  VGA_GC_DATA : Z;
  VGA_STAT_MONO : Z;
  VGA_STAT_COLOR : Z;
  (* sizes *)
  VGA_NUM_BANKS : Z;
  VGA_BANK_SIZE : Z;
  VGA_PALETTE_SIZE : Z;
  (* sequencer registers *)
  VGA_SEQ_RESET_REG : Z;
  VGA_SEQ_CLOCK_REG : Z;
  VGA_SEQ_MASK_REG : Z;
  VGA_SEQ_MEM_REG : Z;
  VGA_SEQ_MAX_REG : Z;
  (* graphics controller registers *)
  VGA_GC_RESET_REG : Z;
  VGA_GC_READ_MAP_SEL_REG : Z;
  VGA_GC_MODE_REG : Z;
  VGA_GC_MISC_REG : Z;
  VGA_GC_MAX_REG : Z;
  (* CRT controller registers *)
  VGA_CRTC_HORZ_TOTAL_REG : Z;
  VGA_CRTC_END_HORZ_DISP_REG : Z;
  VGA_CRTC_OVERFLOW_REG : Z;
  VGA_CRTC_MAX_SCAN_LINE_REG : Z;
  VGA_CRTC_CURSOR_START_REG : Z;
  VGA_CRTC_CURSOR_END_REG : Z;
  VGA_CRTC_START_ADDR_HIGH_REG : Z;
  VGA_CRTC_START_ADDR_LOW_REG : Z;
  VGA_CRTC_CURSOR_LOC_HIGH_REG : Z;
  VGA_CRTC_CURSOR_LOC_LOW_REG : Z;
  VGA_CRTC_VERT_DISP_END_REG : Z;
  VGA_CRTC_OFFSET_REG : Z;
  VGA_CRTC_UNDERLINE_REG : Z;
  VGA_CRTC_MODE_CONTROL_REG : Z;
  VGA_CRTC_MAX_REG : Z;
  (* attribute controller registers *)
  VGA_AC_PAL_0_REG : Z;
  VGA_AC_CONTROL_REG : Z;
  VGA_AC_MAX_REG : Z;
  (* register bits *)
  VGA_SEQ_CLOCK_98DM : Z;
  VGA_SEQ_MEM_C4 : Z;
  VGA_GC_MODE_OE : Z;
  VGA_GC_MODE_SHIFTREG : Z;
  VGA_GC_MODE_SHIFT256 : Z;
  VGA_GC_MISC_NOALPHA : Z;
  VGA_CRTC_OVERFLOW_VDE8 : Z;
  VGA_CRTC_OVERFLOW_VDE9 : Z;
  VGA_CRTC_UNDERLINE_DWORD : Z;
  VGA_CRTC_MODE_CONTROL_BYTE : Z;
  VGA_AC_CONTROL_8BIT : Z;
  VGA_MISC_RAM_ENABLED : Z;
  VGA_STAT_DD : Z;
  VGA_STAT_VRETRACE : Z
}.

(** ** Machine integers *)

Definition to_BYTE (z : Z) : Z := z mod 256.
Definition to_WORD (z : Z) : Z := z mod 65536.
Definition to_DWORD (z : Z) : Z := z mod 4294967296.
Definition to_SHORT (z : Z) : Z := (z + 32768) mod 65536 - 32768.
Definition LOWORD (z : Z) : Z := to_WORD z.
Definition MAKEWORD (lo hi : Z) : Z :=
  Z.lor (Z.land lo 255) (Z.shiftl (Z.land hi 255) 8).
Definition SHRT_MAX : Z := 32767.
Definition SHRT_MIN : Z := -32768.

(** The C test [if (x & MASK)]. *)
Definition bits (x mask : Z) : bool := negb (Z.land x mask =? 0).

(** ** Arrays *)

Definition array_get {A : Type} (a : list A) (i : Z) : option A :=
  if 0 <=? i then a !! Z.to_nat i else None.

Definition array_set {A : Type} (a : list A) (i : Z) (v : A) : option (list A) :=
  if (0 <=? i) && (i <? Z.of_nat (length a))
  then Some (<[Z.to_nat i := v]> a) else None.

Definition ASSERT (b : bool) : option unit := if b then Some tt else None.

(** A division is defined when the divisor is not zero. *)
Definition nonzero (d : Z) : option unit := if d =? 0 then None else Some tt.

(** [for (i = lo; i < lo + n; i++) body], the loop state threaded through. *)
Fixpoint for_loop {St : Type} (n : nat) (i : Z)
    (body : Z -> St -> option St) (st : St) : option St :=
  match n with
  | O => Some st
  | S n' => st' ← body i st; for_loop n' (i + 1) body st'
  end.

(** [switch (x) { case l: a ... default: d }] over distinct labels. *)
Fixpoint switch {A : Type} (x : Z) (cases : list (Z * A)) (default : A) : A :=
  match cases with
  | [] => default
  | (l, a) :: cs => if x =? l then a else switch x cs default
  end.

(** ** State *)

Record COORD := { X : Z; Y : Z }.
Record SMALL_RECT := { Left : Z; Top : Z; Right : Z; Bottom : Z }.
Record CHAR_INFO := { AsciiChar : Z; Attributes : Z }.

(** What [ConsoleFramebuffer] points to: nothing, the bitmap of a console
    graphics buffer that has been closed, the bitmap of the live graphics
    buffer (one byte per pixel), or the heap block of text cells. *)
Inductive framebuffer :=
| NULL
| Dangling
| GraphicsBuffer (pixels : list Z)
| CharBuffer (cells : list CHAR_INFO).

Inductive host_call :=
| CreateConsoleScreenBuffer (biWidth biHeight : Z)
| SetConsoleActiveScreenBuffer (graphics : bool)
| ReleaseMutex
| CloseHandle
| SetConsoleScreenBufferSize (Resolution : COORD)
| HeapAlloc (cells : Z)
| HeapFree
| DisplayMessage
| VdmRunning_FALSE
| SetConsoleCursorInfo (bVisible : bool) (dwSize : Z)
| SetConsoleCursorPosition (Position : COORD)
| WaitForSingleObject
| InvalidateConsoleDIBits (Region : SMALL_RECT)
| WriteConsoleOutputA (Buffer : framebuffer) (Size Origin : COORD)
    (Region : SMALL_RECT)
| ReadConsoleOutputA (Size Origin : COORD) (Region : SMALL_RECT).

(** The outcome of the two host calls whose result the code tests. *)
Record host := {
  CreateConsoleScreenBuffer_ok : bool;
  HeapAlloc_ok : bool
}.

Record vga := mk_vga {
  VgaMemory : gmap Z Z;
  VgaMiscRegister : Z;
  VgaSeqIndex : Z;
  VgaSeqRegisters : list Z;
  VgaGcIndex : Z;
  VgaGcRegisters : list Z;
  VgaCrtcIndex : Z;
  VgaCrtcRegisters : list Z;
  VgaAcIndex : Z;
  VgaAcLatch : bool;
  VgaAcRegisters : list Z;
  VgaDacIndex : Z;
  VgaDacReadWrite : bool;
  VgaDacRegisters : list Z;
  InVerticalRetrace : bool;
  InHorizontalRetrace : bool;
  ConsoleFramebuffer : framebuffer;
  NeedsUpdate : bool;
  ModeChanged : bool;
  CursorMoved : bool;
  TextMode : bool;
  UpdateRectangle : SMALL_RECT;
  HostCalls : list host_call
}.

Definition set_VgaMemory (v : gmap Z Z) (s : vga) : vga :=
  mk_vga v (VgaMiscRegister s) (VgaSeqIndex s) (VgaSeqRegisters s)
    (VgaGcIndex s) (VgaGcRegisters s) (VgaCrtcIndex s) (VgaCrtcRegisters s)
    (VgaAcIndex s) (VgaAcLatch s) (VgaAcRegisters s) (VgaDacIndex s)
    (VgaDacReadWrite s) (VgaDacRegisters s) (InVerticalRetrace s)
    (InHorizontalRetrace s) (ConsoleFramebuffer s) (NeedsUpdate s)
    (ModeChanged s) (CursorMoved s) (TextMode s) (UpdateRectangle s)
    (HostCalls s).

Definition set_VgaMiscRegister (v : Z) (s : vga) : vga :=
  mk_vga (VgaMemory s) v (VgaSeqIndex s) (VgaSeqRegisters s) (VgaGcIndex s)
    (VgaGcRegisters s) (VgaCrtcIndex s) (VgaCrtcRegisters s) (VgaAcIndex s)
    (VgaAcLatch s) (VgaAcRegisters s) (VgaDacIndex s) (VgaDacReadWrite s)
    (VgaDacRegisters s) (InVerticalRetrace s) (InHorizontalRetrace s)
    (ConsoleFramebuffer s) (NeedsUpdate s) (ModeChanged s) (CursorMoved s)
    (TextMode s) (UpdateRectangle s) (HostCalls s).

Definition set_VgaSeqIndex (v : Z) (s : vga) : vga :=
  mk_vga (VgaMemory s) (VgaMiscRegister s) v (VgaSeqRegisters s)
    (VgaGcIndex s) (VgaGcRegisters s) (VgaCrtcIndex s) (VgaCrtcRegisters s)
    (VgaAcIndex s) (VgaAcLatch s) (VgaAcRegisters s) (VgaDacIndex s)
    (VgaDacReadWrite s) (VgaDacRegisters s) (InVerticalRetrace s)
    (InHorizontalRetrace s) (ConsoleFramebuffer s) (NeedsUpdate s)
    (ModeChanged s) (CursorMoved s) (TextMode s) (UpdateRectangle s)
    (HostCalls s).

Definition set_VgaSeqRegisters (v : list Z) (s : vga) : vga :=
  mk_vga (VgaMemory s) (VgaMiscRegister s) (VgaSeqIndex s) v (VgaGcIndex s)
    (VgaGcRegisters s) (VgaCrtcIndex s) (VgaCrtcRegisters s) (VgaAcIndex s)
    (VgaAcLatch s) (VgaAcRegisters s) (VgaDacIndex s) (VgaDacReadWrite s)
    (VgaDacRegisters s) (InVerticalRetrace s) (InHorizontalRetrace s)
    (ConsoleFramebuffer s) (NeedsUpdate s) (ModeChanged s) (CursorMoved s)
    (TextMode s) (UpdateRectangle s) (HostCalls s).

Definition set_VgaGcIndex (v : Z) (s : vga) : vga :=
  mk_vga (VgaMemory s) (VgaMiscRegister s) (VgaSeqIndex s) (VgaSeqRegisters s)
    v (VgaGcRegisters s) (VgaCrtcIndex s) (VgaCrtcRegisters s) (VgaAcIndex s)
    (VgaAcLatch s) (VgaAcRegisters s) (VgaDacIndex s) (VgaDacReadWrite s)
    (VgaDacRegisters s) (InVerticalRetrace s) (InHorizontalRetrace s)
    (ConsoleFramebuffer s) (NeedsUpdate s) (ModeChanged s) (CursorMoved s)
    (TextMode s) (UpdateRectangle s) (HostCalls s).

Definition set_VgaGcRegisters (v : list Z) (s : vga) : vga :=
  mk_vga (VgaMemory s) (VgaMiscRegister s) (VgaSeqIndex s) (VgaSeqRegisters s)
    (VgaGcIndex s) v (VgaCrtcIndex s) (VgaCrtcRegisters s) (VgaAcIndex s)
    (VgaAcLatch s) (VgaAcRegisters s) (VgaDacIndex s) (VgaDacReadWrite s)
    (VgaDacRegisters s) (InVerticalRetrace s) (InHorizontalRetrace s)
    (ConsoleFramebuffer s) (NeedsUpdate s) (ModeChanged s) (CursorMoved s)
    (TextMode s) (UpdateRectangle s) (HostCalls s).

Definition set_VgaCrtcIndex (v : Z) (s : vga) : vga :=
  mk_vga (VgaMemory s) (VgaMiscRegister s) (VgaSeqIndex s) (VgaSeqRegisters s)
    (VgaGcIndex s) (VgaGcRegisters s) v (VgaCrtcRegisters s) (VgaAcIndex s)
    (VgaAcLatch s) (VgaAcRegisters s) (VgaDacIndex s) (VgaDacReadWrite s)
    (VgaDacRegisters s) (InVerticalRetrace s) (InHorizontalRetrace s)
    (ConsoleFramebuffer s) (NeedsUpdate s) (ModeChanged s) (CursorMoved s)
    (TextMode s) (UpdateRectangle s) (HostCalls s).

Definition set_VgaCrtcRegisters (v : list Z) (s : vga) : vga :=
  mk_vga (VgaMemory s) (VgaMiscRegister s) (VgaSeqIndex s) (VgaSeqRegisters s)
    (VgaGcIndex s) (VgaGcRegisters s) (VgaCrtcIndex s) v (VgaAcIndex s)
    (VgaAcLatch s) (VgaAcRegisters s) (VgaDacIndex s) (VgaDacReadWrite s)
    (VgaDacRegisters s) (InVerticalRetrace s) (InHorizontalRetrace s)
    (ConsoleFramebuffer s) (NeedsUpdate s) (ModeChanged s) (CursorMoved s)
    (TextMode s) (UpdateRectangle s) (HostCalls s).

Definition set_VgaAcIndex (v : Z) (s : vga) : vga :=
  mk_vga (VgaMemory s) (VgaMiscRegister s) (VgaSeqIndex s) (VgaSeqRegisters s)
    (VgaGcIndex s) (VgaGcRegisters s) (VgaCrtcIndex s) (VgaCrtcRegisters s) v
    (VgaAcLatch s) (VgaAcRegisters s) (VgaDacIndex s) (VgaDacReadWrite s)
    (VgaDacRegisters s) (InVerticalRetrace s) (InHorizontalRetrace s)
    (ConsoleFramebuffer s) (NeedsUpdate s) (ModeChanged s) (CursorMoved s)
    (TextMode s) (UpdateRectangle s) (HostCalls s).

Definition set_VgaAcLatch (v : bool) (s : vga) : vga :=
  mk_vga (VgaMemory s) (VgaMiscRegister s) (VgaSeqIndex s) (VgaSeqRegisters s)
    (VgaGcIndex s) (VgaGcRegisters s) (VgaCrtcIndex s) (VgaCrtcRegisters s)
    (VgaAcIndex s) v (VgaAcRegisters s) (VgaDacIndex s) (VgaDacReadWrite s)
    (VgaDacRegisters s) (InVerticalRetrace s) (InHorizontalRetrace s)
    (ConsoleFramebuffer s) (NeedsUpdate s) (ModeChanged s) (CursorMoved s)
    (TextMode s) (UpdateRectangle s) (HostCalls s).

Definition set_VgaAcRegisters (v : list Z) (s : vga) : vga :=
  mk_vga (VgaMemory s) (VgaMiscRegister s) (VgaSeqIndex s) (VgaSeqRegisters s)
    (VgaGcIndex s) (VgaGcRegisters s) (VgaCrtcIndex s) (VgaCrtcRegisters s)
    (VgaAcIndex s) (VgaAcLatch s) v (VgaDacIndex s) (VgaDacReadWrite s)
    (VgaDacRegisters s) (InVerticalRetrace s) (InHorizontalRetrace s)
    (ConsoleFramebuffer s) (NeedsUpdate s) (ModeChanged s) (CursorMoved s)
    (TextMode s) (UpdateRectangle s) (HostCalls s).

Definition set_VgaDacIndex (v : Z) (s : vga) : vga :=
  mk_vga (VgaMemory s) (VgaMiscRegister s) (VgaSeqIndex s) (VgaSeqRegisters s)
    (VgaGcIndex s) (VgaGcRegisters s) (VgaCrtcIndex s) (VgaCrtcRegisters s)
    (VgaAcIndex s) (VgaAcLatch s) (VgaAcRegisters s) v (VgaDacReadWrite s)
    (VgaDacRegisters s) (InVerticalRetrace s) (InHorizontalRetrace s)
    (ConsoleFramebuffer s) (NeedsUpdate s) (ModeChanged s) (CursorMoved s)
    (TextMode s) (UpdateRectangle s) (HostCalls s).

Definition set_VgaDacReadWrite (v : bool) (s : vga) : vga :=
  mk_vga (VgaMemory s) (VgaMiscRegister s) (VgaSeqIndex s) (VgaSeqRegisters s)
    (VgaGcIndex s) (VgaGcRegisters s) (VgaCrtcIndex s) (VgaCrtcRegisters s)
    (VgaAcIndex s) (VgaAcLatch s) (VgaAcRegisters s) (VgaDacIndex s) v
    (VgaDacRegisters s) (InVerticalRetrace s) (InHorizontalRetrace s)
    (ConsoleFramebuffer s) (NeedsUpdate s) (ModeChanged s) (CursorMoved s)
    (TextMode s) (UpdateRectangle s) (HostCalls s).

Definition set_VgaDacRegisters (v : list Z) (s : vga) : vga :=
  mk_vga (VgaMemory s) (VgaMiscRegister s) (VgaSeqIndex s) (VgaSeqRegisters s)
    (VgaGcIndex s) (VgaGcRegisters s) (VgaCrtcIndex s) (VgaCrtcRegisters s)
    (VgaAcIndex s) (VgaAcLatch s) (VgaAcRegisters s) (VgaDacIndex s)
    (VgaDacReadWrite s) v (InVerticalRetrace s) (InHorizontalRetrace s)
    (ConsoleFramebuffer s) (NeedsUpdate s) (ModeChanged s) (CursorMoved s)
    (TextMode s) (UpdateRectangle s) (HostCalls s).

Definition set_InVerticalRetrace (v : bool) (s : vga) : vga :=
  mk_vga (VgaMemory s) (VgaMiscRegister s) (VgaSeqIndex s) (VgaSeqRegisters s)
    (VgaGcIndex s) (VgaGcRegisters s) (VgaCrtcIndex s) (VgaCrtcRegisters s)
    (VgaAcIndex s) (VgaAcLatch s) (VgaAcRegisters s) (VgaDacIndex s)
    (VgaDacReadWrite s) (VgaDacRegisters s) v (InHorizontalRetrace s)
    (ConsoleFramebuffer s) (NeedsUpdate s) (ModeChanged s) (CursorMoved s)
    (TextMode s) (UpdateRectangle s) (HostCalls s).

Definition set_InHorizontalRetrace (v : bool) (s : vga) : vga :=
  mk_vga (VgaMemory s) (VgaMiscRegister s) (VgaSeqIndex s) (VgaSeqRegisters s)
    (VgaGcIndex s) (VgaGcRegisters s) (VgaCrtcIndex s) (VgaCrtcRegisters s)
    (VgaAcIndex s) (VgaAcLatch s) (VgaAcRegisters s) (VgaDacIndex s)
    (VgaDacReadWrite s) (VgaDacRegisters s) (InVerticalRetrace s) v
    (ConsoleFramebuffer s) (NeedsUpdate s) (ModeChanged s) (CursorMoved s)
    (TextMode s) (UpdateRectangle s) (HostCalls s).

Definition set_ConsoleFramebuffer (v : framebuffer) (s : vga) : vga :=
  mk_vga (VgaMemory s) (VgaMiscRegister s) (VgaSeqIndex s) (VgaSeqRegisters s)
    (VgaGcIndex s) (VgaGcRegisters s) (VgaCrtcIndex s) (VgaCrtcRegisters s)
    (VgaAcIndex s) (VgaAcLatch s) (VgaAcRegisters s) (VgaDacIndex s)
    (VgaDacReadWrite s) (VgaDacRegisters s) (InVerticalRetrace s)
    (InHorizontalRetrace s) v (NeedsUpdate s) (ModeChanged s) (CursorMoved s)
    (TextMode s) (UpdateRectangle s) (HostCalls s).

Definition set_NeedsUpdate (v : bool) (s : vga) : vga :=
  mk_vga (VgaMemory s) (VgaMiscRegister s) (VgaSeqIndex s) (VgaSeqRegisters s)
    (VgaGcIndex s) (VgaGcRegisters s) (VgaCrtcIndex s) (VgaCrtcRegisters s)
    (VgaAcIndex s) (VgaAcLatch s) (VgaAcRegisters s) (VgaDacIndex s)
    (VgaDacReadWrite s) (VgaDacRegisters s) (InVerticalRetrace s)
    (InHorizontalRetrace s) (ConsoleFramebuffer s) v (ModeChanged s)
    (CursorMoved s) (TextMode s) (UpdateRectangle s) (HostCalls s).

Definition set_ModeChanged (v : bool) (s : vga) : vga :=
  mk_vga (VgaMemory s) (VgaMiscRegister s) (VgaSeqIndex s) (VgaSeqRegisters s)
    (VgaGcIndex s) (VgaGcRegisters s) (VgaCrtcIndex s) (VgaCrtcRegisters s)
    (VgaAcIndex s) (VgaAcLatch s) (VgaAcRegisters s) (VgaDacIndex s)
    (VgaDacReadWrite s) (VgaDacRegisters s) (InVerticalRetrace s)
    (InHorizontalRetrace s) (ConsoleFramebuffer s) (NeedsUpdate s) v
    (CursorMoved s) (TextMode s) (UpdateRectangle s) (HostCalls s).

Definition set_CursorMoved (v : bool) (s : vga) : vga :=
  mk_vga (VgaMemory s) (VgaMiscRegister s) (VgaSeqIndex s) (VgaSeqRegisters s)
    (VgaGcIndex s) (VgaGcRegisters s) (VgaCrtcIndex s) (VgaCrtcRegisters s)
    (VgaAcIndex s) (VgaAcLatch s) (VgaAcRegisters s) (VgaDacIndex s)
    (VgaDacReadWrite s) (VgaDacRegisters s) (InVerticalRetrace s)
    (InHorizontalRetrace s) (ConsoleFramebuffer s) (NeedsUpdate s)
    (ModeChanged s) v (TextMode s) (UpdateRectangle s) (HostCalls s).

Definition set_TextMode (v : bool) (s : vga) : vga :=
  mk_vga (VgaMemory s) (VgaMiscRegister s) (VgaSeqIndex s) (VgaSeqRegisters s)
    (VgaGcIndex s) (VgaGcRegisters s) (VgaCrtcIndex s) (VgaCrtcRegisters s)
    (VgaAcIndex s) (VgaAcLatch s) (VgaAcRegisters s) (VgaDacIndex s)
    (VgaDacReadWrite s) (VgaDacRegisters s) (InVerticalRetrace s)
    (InHorizontalRetrace s) (ConsoleFramebuffer s) (NeedsUpdate s)
    (ModeChanged s) (CursorMoved s) v (UpdateRectangle s) (HostCalls s).

Definition set_UpdateRectangle (v : SMALL_RECT) (s : vga) : vga :=
  mk_vga (VgaMemory s) (VgaMiscRegister s) (VgaSeqIndex s) (VgaSeqRegisters s)
    (VgaGcIndex s) (VgaGcRegisters s) (VgaCrtcIndex s) (VgaCrtcRegisters s)
    (VgaAcIndex s) (VgaAcLatch s) (VgaAcRegisters s) (VgaDacIndex s)
    (VgaDacReadWrite s) (VgaDacRegisters s) (InVerticalRetrace s)
    (InHorizontalRetrace s) (ConsoleFramebuffer s) (NeedsUpdate s)
    (ModeChanged s) (CursorMoved s) (TextMode s) v (HostCalls s).

Definition set_HostCalls (v : list host_call) (s : vga) : vga :=
  mk_vga (VgaMemory s) (VgaMiscRegister s) (VgaSeqIndex s) (VgaSeqRegisters s)
    (VgaGcIndex s) (VgaGcRegisters s) (VgaCrtcIndex s) (VgaCrtcRegisters s)
    (VgaAcIndex s) (VgaAcLatch s) (VgaAcRegisters s) (VgaDacIndex s)
    (VgaDacReadWrite s) (VgaDacRegisters s) (InVerticalRetrace s)
    (InHorizontalRetrace s) (ConsoleFramebuffer s) (NeedsUpdate s)
    (ModeChanged s) (CursorMoved s) (TextMode s) (UpdateRectangle s) v.

Definition call (c : host_call) (s : vga) : vga :=
  set_HostCalls (HostCalls s ++ [c]) s.

(** ** [vga.c] *)

Section Vga.
Context `{vga_h}.

Definition MemoryBase : list Z := [0xA0000; 0xA0000; 0xB0000; 0xB8000].
Definition MemoryLimit : list Z := [0xAFFFF; 0xAFFFF; 0xB7FFF; 0xBFFFF].

(** [VgaMemory[Index]] *)
Definition VgaMemory_get (s : vga) (Index : Z) : option Z :=
  if (0 <=? Index) && (Index <? VGA_NUM_BANKS * VGA_BANK_SIZE)
  then Some (default 0 (VgaMemory s !! Index)) else None.

(** [VgaMemory[Index] = Data] *)
Definition VgaMemory_set (Index Data : Z) (s : vga) : option vga :=
  if (0 <=? Index) && (Index <? VGA_NUM_BANKS * VGA_BANK_SIZE)
  then Some (set_VgaMemory (<[Index := Data]> (VgaMemory s)) s) else None.

(** The static initialisers. *)
Definition vga_reset : vga := {|
  VgaMemory := ∅;
  VgaMiscRegister := 0;
  VgaSeqIndex := VGA_SEQ_RESET_REG;
  VgaSeqRegisters := replicate (Z.to_nat VGA_SEQ_MAX_REG) 0;
  VgaGcIndex := VGA_GC_RESET_REG;
  VgaGcRegisters := replicate (Z.to_nat VGA_GC_MAX_REG) 0;
  VgaCrtcIndex := VGA_CRTC_HORZ_TOTAL_REG;
  VgaCrtcRegisters := replicate (Z.to_nat VGA_CRTC_MAX_REG) 0;
  VgaAcIndex := VGA_AC_PAL_0_REG;
  VgaAcLatch := false;
  VgaAcRegisters := replicate (Z.to_nat VGA_AC_MAX_REG) 0;
  VgaDacIndex := 0;
  VgaDacReadWrite := false;
  VgaDacRegisters := replicate (Z.to_nat VGA_PALETTE_SIZE) 0;
  InVerticalRetrace := false;
  InHorizontalRetrace := false;
  ConsoleFramebuffer := NULL;
  NeedsUpdate := false;
  ModeChanged := true;
  CursorMoved := false;
  TextMode := true;
  UpdateRectangle := {| Left := 0; Top := 0; Right := 0; Bottom := 0 |};
  HostCalls := []
|}.

(** *** Private functions *)

Definition VgaGetAddressSize (s : vga) : option Z :=
  underline ← array_get (VgaCrtcRegisters s) VGA_CRTC_UNDERLINE_REG;
  if bits underline VGA_CRTC_UNDERLINE_DWORD then
    (* Double-word addressing *)
    Some 4
  else
    mode ← array_get (VgaCrtcRegisters s) VGA_CRTC_MODE_CONTROL_REG;
    if bits mode VGA_CRTC_MODE_CONTROL_BYTE then
      (* Byte addressing *)
      Some 1
    else
      (* Word addressing *)
      Some 2.

Definition VgaGetVideoBaseAddress (s : vga) : option Z :=
  misc ← array_get (VgaGcRegisters s) VGA_GC_MISC_REG;
  array_get MemoryBase (Z.land (Z.shiftr misc 2) 0x03).

Definition VgaGetVideoLimitAddress (s : vga) : option Z :=
  misc ← array_get (VgaGcRegisters s) VGA_GC_MISC_REG;
  array_get MemoryLimit (Z.land (Z.shiftr misc 2) 0x03).

Definition VgaTranslateReadAddress (Address : Z) (s : vga) : option Z :=
  base ← VgaGetVideoBaseAddress s;
  let Offset := to_DWORD (Address - base) in
  mem ← array_get (VgaSeqRegisters s) VGA_SEQ_MEM_REG;
  '(Plane, Offset) ←
    (if bits mem VGA_SEQ_MEM_C4 then
       (* The lowest two bits are the plane number *)
       Some (to_BYTE (Z.land Offset 3), Z.shiftr Offset 2)
     else
       mode ← array_get (VgaGcRegisters s) VGA_GC_MODE_REG;
       if bits mode VGA_GC_MODE_OE then
         (* The LSB is the plane number *)
         Some (to_BYTE (Z.land Offset 1), Z.shiftr Offset 1)
       else
         (* Use the read mode *)
         sel ← array_get (VgaGcRegisters s) VGA_GC_READ_MAP_SEL_REG;
         Some (to_BYTE (Z.land sel 0x03), Offset));
  (* Multiply the offset by the address size *)
  size ← VgaGetAddressSize s;
  let Offset := to_DWORD (Offset * size) in
  Some (to_DWORD (Offset + Plane * VGA_BANK_SIZE)).

Definition VgaTranslateWriteAddress (Address : Z) (s : vga) : option Z :=
  base ← VgaGetVideoBaseAddress s;
  let Offset := to_DWORD (Address - base) in
  mem ← array_get (VgaSeqRegisters s) VGA_SEQ_MEM_REG;
  Offset ←
    (if bits mem VGA_SEQ_MEM_C4 then
       (* Shift the offset to the right by 2 *)
       Some (Z.shiftr Offset 2)
     else
       mode ← array_get (VgaGcRegisters s) VGA_GC_MODE_REG;
       if bits mode VGA_GC_MODE_OE then
         (* Shift the offset to the right by 1 *)
         Some (Z.shiftr Offset 1)
       else Some Offset);
  (* Multiply the offset by the address size *)
  size ← VgaGetAddressSize s;
  (* Return the offset on plane 0 *)
  Some (to_DWORD (Offset * size)).

Definition VgaMarkForUpdate (Row Column : Z) (s : vga) : vga :=
  (* Check if this is the first time the rectangle is updated *)
  let r :=
    if NeedsUpdate s then UpdateRectangle s
    else {| Left := SHRT_MAX; Top := SHRT_MAX;
            Right := SHRT_MIN; Bottom := SHRT_MIN |} in
  (* Expand the rectangle to include the point *)
  let r := {| Left := Z.min (Left r) Column;
              Top := Z.min (Top r) Row;
              Right := Z.max (Right r) Column;
              Bottom := Z.max (Bottom r) Row |} in
  (* Set the update request flag *)
  set_NeedsUpdate true (set_UpdateRectangle r s).

Definition VgaWriteSequencer (Data : Z) (s : vga) : option vga :=
  _ ← ASSERT (VgaSeqIndex s <? VGA_SEQ_MAX_REG);
  (* Save the value *)
  regs ← array_set (VgaSeqRegisters s) (VgaSeqIndex s) Data;
  Some (set_VgaSeqRegisters regs s).

Definition VgaWriteGc (Data : Z) (s : vga) : option vga :=
  _ ← ASSERT (VgaGcIndex s <? VGA_GC_MAX_REG);
  (* Save the value *)
  regs ← array_set (VgaGcRegisters s) (VgaGcIndex s) Data;
  let s := set_VgaGcRegisters regs s in
  (* Check the index *)
  Some (switch (VgaGcIndex s)
          [ (* The GC misc register decides if it's text or graphics mode *)
            (VGA_GC_MISC_REG, set_ModeChanged true s) ]
          s).

Definition VgaWriteCrtc (Data : Z) (s : vga) : option vga :=
  _ ← ASSERT (VgaGcIndex s <? VGA_CRTC_MAX_REG);
  (* Save the value *)
  regs ← array_set (VgaCrtcRegisters s) (VgaCrtcIndex s) Data;
  let s := set_VgaCrtcRegisters regs s in
  (* Check the index *)
  Some (switch (VgaCrtcIndex s)
          [ (* The video mode has changed *)
            (VGA_CRTC_END_HORZ_DISP_REG, set_ModeChanged true s);
            (VGA_CRTC_VERT_DISP_END_REG, set_ModeChanged true s);
            (VGA_CRTC_OVERFLOW_REG, set_ModeChanged true s);
            (* Set the cursor moved flag *)
            (VGA_CRTC_CURSOR_LOC_LOW_REG, set_CursorMoved true s);
            (VGA_CRTC_CURSOR_LOC_HIGH_REG, set_CursorMoved true s);
            (VGA_CRTC_CURSOR_START_REG, set_CursorMoved true s);
            (VGA_CRTC_CURSOR_END_REG, set_CursorMoved true s) ]
          s).

Definition VgaWriteDac (Data : Z) (s : vga) : option vga :=
  (* Set the value *)
  regs ← array_set (VgaDacRegisters s) (VgaDacIndex s) Data;
  let s := set_VgaDacRegisters regs s in
  let s := set_VgaDacIndex (to_BYTE (VgaDacIndex s + 1)) s in
  Some (set_VgaDacIndex (to_BYTE (Z.rem (VgaDacIndex s) VGA_PALETTE_SIZE)) s).

Definition VgaWriteAc (Data : Z) (s : vga) : option vga :=
  _ ← ASSERT (VgaAcIndex s <? VGA_AC_MAX_REG);
  (* Save the value *)
  regs ← array_set (VgaAcRegisters s) (VgaAcIndex s) Data;
  Some (set_VgaAcRegisters regs s).

Definition VgaGetDisplayResolution (s : vga) : option COORD :=
  msl ← array_get (VgaCrtcRegisters s) VGA_CRTC_MAX_SCAN_LINE_REG;
  let MaximumScanLine := to_BYTE (1 + Z.land msl 0x1F) in
  (* The low 8 bits are in the display registers *)
  x ← array_get (VgaCrtcRegisters s) VGA_CRTC_END_HORZ_DISP_REG;
  y ← array_get (VgaCrtcRegisters s) VGA_CRTC_VERT_DISP_END_REG;
  (* Set the top bits from the overflow register *)
  overflow ← array_get (VgaCrtcRegisters s) VGA_CRTC_OVERFLOW_REG;
  let y := if bits overflow VGA_CRTC_OVERFLOW_VDE8
           then to_SHORT (Z.lor y (Z.shiftl 1 8)) else y in
  let y := if bits overflow VGA_CRTC_OVERFLOW_VDE9
           then to_SHORT (Z.lor y (Z.shiftl 1 9)) else y in
  (* Increase the values by 1 *)
  let x := to_SHORT (x + 1) in
  let y := to_SHORT (y + 1) in
  misc ← array_get (VgaGcRegisters s) VGA_GC_MISC_REG;
  x ← (if bits misc VGA_GC_MISC_NOALPHA then
         (* Multiply the horizontal resolution by the 9/8 dot mode *)
         clock ← array_get (VgaSeqRegisters s) VGA_SEQ_CLOCK_REG;
         let x := to_SHORT (x * (if bits clock VGA_SEQ_CLOCK_98DM
                                 then 8 else 9)) in
         (* The horizontal resolution is halved in 8-bit mode *)
         control ← array_get (VgaAcRegisters s) VGA_AC_CONTROL_REG;
         Some (if bits control VGA_AC_CONTROL_8BIT
               then to_SHORT (Z.quot x 2) else x)
       else Some x);
  (* Divide the vertical resolution by the maximum scan line *)
  let y := to_SHORT (Z.quot y MaximumScanLine) in
  (* Return the resolution *)
  Some {| X := x; Y := y |}.

(** *** Mode switching *)

(** The console hands out a bitmap of [biSizeImage] bytes, which the code
    clears. *)
Definition VgaEnterGraphicsMode (Resolution : COORD) (h : host) (s : vga)
    : bool * vga :=
  let biSizeImage := to_DWORD (X Resolution * Y Resolution) in
  (* Create the buffer *)
  let s := call (CreateConsoleScreenBuffer (X Resolution) (Y Resolution)) s in
  if negb (CreateConsoleScreenBuffer_ok h) then (false, s)
  else
    (* Save the framebuffer address and mutex; clear the framebuffer *)
    let s := set_ConsoleFramebuffer
               (GraphicsBuffer (replicate (Z.to_nat biSizeImage) 0)) s in
    (* Set the active buffer *)
    (true, call (SetConsoleActiveScreenBuffer true) s).

(** Closing the graphics buffer leaves [ConsoleFramebuffer] pointing to its
    bitmap. *)
Definition VgaLeaveGraphicsMode (s : vga) : vga :=
  (* Release the console framebuffer mutex if needed *)
  let s := call ReleaseMutex s in
  (* Switch back to the text buffer *)
  let s := call (SetConsoleActiveScreenBuffer false) s in
  (* Cleanup the video data *)
  let s := call CloseHandle s in
  let s := call CloseHandle s in
  match ConsoleFramebuffer s with
  | GraphicsBuffer _ => set_ConsoleFramebuffer Dangling s
  | _ => s
  end.

Definition VgaEnterTextMode (Resolution : COORD) (h : host) (s : vga)
    : bool * vga :=
  (* Resize the console *)
  let s := call (SetConsoleScreenBufferSize Resolution) s in
  (* Allocate a framebuffer *)
  let s := call (HeapAlloc (X Resolution * Y Resolution)) s in
  if negb (HeapAlloc_ok h) then
    let s := set_ConsoleFramebuffer NULL s in
    let s := call DisplayMessage s in
    (false, call VdmRunning_FALSE s)
  else
    (true,
     set_ConsoleFramebuffer
       (CharBuffer (replicate (Z.to_nat (X Resolution * Y Resolution))
                      {| AsciiChar := 0; Attributes := 0 |})) s).

Definition VgaLeaveTextMode (s : vga) : vga :=
  (* Free the old framebuffer *)
  let s := call HeapFree s in
  set_ConsoleFramebuffer NULL s.

Definition VgaUpdateMode (h : host) (s : vga) : option vga :=
  Resolution ← VgaGetDisplayResolution s;
  let s :=
    if negb (TextMode s) then
      (* Leave the current graphics mode *)
      VgaLeaveGraphicsMode s
    else
      (* Leave the current text mode *)
      VgaLeaveTextMode s in
  misc ← array_get (VgaGcRegisters s) VGA_GC_MISC_REG;
  '(entered, s) ←
    (* Check if the new mode is alphanumeric *)
    (if negb (bits misc VGA_GC_MISC_NOALPHA) then
       (* Enter new text mode *)
       let '(ok, s) := VgaEnterTextMode Resolution h s in
       (* Set the text mode flag *)
       Some (ok, if ok then set_TextMode true s else s)
     else
       (* Enter 8-bit graphics mode *)
       let '(ok, s) := VgaEnterGraphicsMode Resolution h s in
       (* Clear the text mode flag *)
       Some (ok, if ok then set_TextMode false s else s));
  if negb entered then Some s
  else
    (* Perform a full update *)
    let s := set_NeedsUpdate true s in
    Some (set_UpdateRectangle
            {| Left := 0; Top := 0;
               Right := X Resolution; Bottom := Y Resolution |} s).

(** *** Scan-out *)

Definition GraphicsBuffer_get (s : vga) (i : Z) : option Z :=
  match ConsoleFramebuffer s with
  | GraphicsBuffer pixels => array_get pixels i
  | _ => None
  end.

Definition GraphicsBuffer_set (i v : Z) (s : vga) : option vga :=
  match ConsoleFramebuffer s with
  | GraphicsBuffer pixels =>
      pixels ← array_set pixels i v;
      Some (set_ConsoleFramebuffer (GraphicsBuffer pixels) s)
  | _ => None
  end.

Definition CharBuffer_get (s : vga) (i : Z) : option CHAR_INFO :=
  match ConsoleFramebuffer s with
  | CharBuffer cells => array_get cells i
  | _ => None
  end.

Definition CharBuffer_set (i : Z) (v : CHAR_INFO) (s : vga) : option vga :=
  match ConsoleFramebuffer s with
  | CharBuffer cells =>
      cells ← array_set cells i v;
      Some (set_ConsoleFramebuffer (CharBuffer cells) s)
  | _ => None
  end.

(** The byte [PixelData] of column [j] of the scanline starting at
    [Address]. *)
Definition VgaPixelData (s : vga) (Address AddressSize j : Z) : option Z :=
  let plane_byte (bank column : Z) : option Z :=
    VgaMemory_get s
      (to_DWORD (bank * VGA_BANK_SIZE
                 + to_DWORD (to_DWORD (Address + column) * AddressSize))) in
  mode ← array_get (VgaGcRegisters s) VGA_GC_MODE_REG;
  (* Check the shifting mode *)
  if bits mode VGA_GC_MODE_SHIFT256 then
    (* 4 bits shifted from each plane *)
    control ← array_get (VgaAcRegisters s) VGA_AC_CONTROL_REG;
    (* Check if this is 16 or 256 color mode *)
    if bits control VGA_AC_CONTROL_8BIT then
      (* One byte per pixel *)
      plane_byte (Z.rem j VGA_NUM_BANKS) (Z.quot j VGA_NUM_BANKS)
    else
      (* 4-bits per pixel *)
      PixelData ← plane_byte (Z.rem j VGA_NUM_BANKS)
                    (Z.quot j (VGA_NUM_BANKS * 2));
      (* Check if we should use the highest 4 bits or lowest 4 *)
      if Z.rem (Z.quot j VGA_NUM_BANKS) 2 =? 0
      then Some (Z.shiftr PixelData 4)
      else Some (Z.land PixelData 0x0F)
  else if bits mode VGA_GC_MODE_SHIFTREG then
    (* Interleaved shift mode is not implemented *)
    Some 0
  else
    (* 1 bit shifted from each plane *)
    control ← array_get (VgaAcRegisters s) VGA_AC_CONTROL_REG;
    (* Check if this is 16 or 256 color mode *)
    if bits control VGA_AC_CONTROL_8BIT then
      (* 8 bits per pixel, 2 on each plane *)
      for_loop (Z.to_nat VGA_NUM_BANKS) 0
        (fun k PixelData =>
           (* The data is on plane k, 4 pixels per byte *)
           PlaneData ← plane_byte k (Z.quot j 4);
           (* The mask of the first bit in the pair *)
           let BitMask :=
             to_BYTE (Z.shiftl 1 ((3 - Z.rem j 4) * 2 + 1)) in
           (* Bits 0, 1, 2 and 3 come from the first bit of the pair *)
           let PixelData :=
             if bits PlaneData BitMask
             then to_BYTE (Z.lor PixelData (Z.shiftl 1 k))
             else PixelData in
           (* Bits 4, 5, 6 and 7 come from the second bit of the pair *)
           Some (if bits PlaneData (Z.shiftr BitMask 1)
                 then to_BYTE (Z.lor PixelData (Z.shiftl 1 (k + 4)))
                 else PixelData))
        0
    else
      (* 4 bits per pixel, 1 on each plane *)
      for_loop (Z.to_nat VGA_NUM_BANKS) 0
        (fun k PixelData =>
           PlaneData ← plane_byte k (Z.quot j 8);
           (* If the bit on that plane is set, set it *)
           Some (if bits PlaneData (Z.shiftl 1 (7 - Z.rem j 8))
                 then to_BYTE (Z.lor PixelData (Z.shiftl 1 k))
                 else PixelData))
        0.

Definition VgaUpdatePixel (Resolution : COORD) (Address AddressSize i j : Z)
    (s : vga) : option vga :=
  PixelData ← VgaPixelData s Address AddressSize j;
  (* Now check if the resulting pixel data has changed *)
  old ← GraphicsBuffer_get s (i * X Resolution + j);
  if old =? PixelData then Some s
  else
    (* Yes, write the new value *)
    s ← GraphicsBuffer_set (i * X Resolution + j) PixelData s;
    (* Mark the specified pixel as changed *)
    Some (VgaMarkForUpdate (to_SHORT i) (to_SHORT j) s).

Definition VgaUpdateCell (Resolution : COORD) (Address AddressSize i j : Z)
    (s : vga) : option vga :=
  let CurrentAddr :=
    LOWORD (to_DWORD (to_DWORD (Address + j) * AddressSize)) in
  (* Plane 0 holds the character itself *)
  char ← VgaMemory_get s CurrentAddr;
  (* Plane 1 holds the attribute *)
  attr ← VgaMemory_get s (to_DWORD (CurrentAddr + VGA_BANK_SIZE));
  (* Now check if the resulting character data has changed *)
  old ← CharBuffer_get s (i * X Resolution + j);
  if (AsciiChar old =? char) && (Attributes old =? attr) then Some s
  else
    (* Yes, write the new value *)
    s ← CharBuffer_set (i * X Resolution + j)
          {| AsciiChar := char; Attributes := attr |} s;
    (* Mark the specified pixel as changed *)
    Some (VgaMarkForUpdate (to_SHORT i) (to_SHORT j) s).

(** The two nested loops, over the scanlines and over their columns. *)
Definition VgaScan (update : Z -> Z -> Z -> vga -> option vga)
    (Resolution : COORD) (ScanlineSize Address : Z) (s : vga) : option vga :=
  snd <$>
  for_loop (Z.to_nat (Y Resolution)) 0
    (fun i '(Address, s) =>
       s ← for_loop (Z.to_nat (X Resolution)) 0 (update Address i) s;
       (* Move to the next scanline *)
       Some (to_DWORD (Address + ScanlineSize), s))
    (Address, s).

Definition VgaUpdateFramebuffer (s : vga) : option vga :=
  Resolution ← VgaGetDisplayResolution s;
  AddressSize ← VgaGetAddressSize s;
  high ← array_get (VgaCrtcRegisters s) VGA_CRTC_START_ADDR_HIGH_REG;
  low ← array_get (VgaCrtcRegisters s) VGA_CRTC_START_ADDR_LOW_REG;
  let Address := to_DWORD (Z.shiftl high 8 + low) in
  offset ← array_get (VgaCrtcRegisters s) VGA_CRTC_OFFSET_REG;
  let ScanlineSize := to_DWORD (offset * 2) in
  misc ← array_get (VgaGcRegisters s) VGA_GC_MISC_REG;
  (* Check if this is text mode or graphics mode *)
  if bits misc VGA_GC_MISC_NOALPHA then
    (* Graphics mode: synchronize with the console framebuffer mutex *)
    let s := call WaitForSingleObject s in
    s ← VgaScan (fun Address i j => VgaUpdatePixel Resolution Address AddressSize i j)
          Resolution ScanlineSize Address s;
    (* Release the console framebuffer mutex *)
    Some (call ReleaseMutex s)
  else
    (* Text mode *)
    VgaScan (fun Address i j => VgaUpdateCell Resolution Address AddressSize i j)
      Resolution ScanlineSize Address s.

Definition VgaUpdateTextCursor (s : vga) : option vga :=
  start ← array_get (VgaCrtcRegisters s) VGA_CRTC_CURSOR_START_REG;
  let CursorStart := to_BYTE (Z.land start 0x3F) in
  end_ ← array_get (VgaCrtcRegisters s) VGA_CRTC_CURSOR_END_REG;
  let CursorEnd := to_BYTE (Z.land end_ 0x1F) in
  offset ← array_get (VgaCrtcRegisters s) VGA_CRTC_OFFSET_REG;
  let ScanlineSize := to_DWORD (offset * 2) in
  msl ← array_get (VgaCrtcRegisters s) VGA_CRTC_MAX_SCAN_LINE_REG;
  let TextSize := to_BYTE (1 + Z.land msl 0x1F) in
  low ← array_get (VgaCrtcRegisters s) VGA_CRTC_CURSOR_LOC_LOW_REG;
  high ← array_get (VgaCrtcRegisters s) VGA_CRTC_CURSOR_LOC_HIGH_REG;
  let Location := MAKEWORD low high in
  let '(bVisible, dwSize) :=
    if CursorStart <? CursorEnd then
      (* Visible cursor *)
      (true, Z.quot (100 * (CursorEnd - CursorStart)) TextSize)
    else
      (* No cursor *)
      (false, 0) in
  (* Add the cursor skew to the location *)
  let Location := to_WORD (Location + Z.land (Z.shiftr end_ 5) 3) in
  (* Find the coordinates of the new position *)
  _ ← nonzero ScanlineSize;
  let Position := {| X := to_SHORT (to_WORD (Z.rem Location ScanlineSize));
                     Y := to_SHORT (to_WORD (Z.quot Location ScanlineSize)) |} in
  (* Update the physical cursor *)
  let s := call (SetConsoleCursorInfo bVisible dwSize) s in
  Some (call (SetConsoleCursorPosition Position) s).

(** *** Public functions *)

Definition VgaRefreshDisplay (h : host) (s : vga) : option vga :=
  Resolution ← VgaGetDisplayResolution s;
  s ← (if ModeChanged s then
         (* Change the display mode *)
         s ← VgaUpdateMode h s;
         (* Reset the mode change flag *)
         Some (set_ModeChanged false s)
       else Some s);
  s ← (if CursorMoved s then
         (* Change the text cursor location *)
         s ← VgaUpdateTextCursor s;
         (* Reset the cursor move flag *)
         Some (set_CursorMoved false s)
       else Some s);
  (* Update the contents of the framebuffer *)
  s ← VgaUpdateFramebuffer s;
  (* Set the vertical retrace flag *)
  let s := set_InVerticalRetrace true s in
  (* Ignore if there's nothing to update *)
  if negb (NeedsUpdate s) then Some s
  else
    misc ← array_get (VgaGcRegisters s) VGA_GC_MISC_REG;
    let s :=
      (* Check if this is text mode or graphics mode *)
      if bits misc VGA_GC_MISC_NOALPHA then
        (* Redraw the screen *)
        call (InvalidateConsoleDIBits (UpdateRectangle s)) s
      else
        let Origin := {| X := Left (UpdateRectangle s);
                         Y := Top (UpdateRectangle s) |} in
        (* Write the data to the console *)
        call (WriteConsoleOutputA (ConsoleFramebuffer s) Resolution Origin
                (UpdateRectangle s)) s in
    (* Clear the update flag *)
    Some (set_NeedsUpdate false s).

Definition VgaHorizontalRetrace (s : vga) : vga :=
  (* Set the flag *)
  set_InHorizontalRetrace true s.

Definition VgaReadMemory (Address : Z) (Buffer : list Z) (Size : Z) (s : vga)
    : option (list Z) :=
  (* Ignore if video RAM access is disabled *)
  if negb (bits (VgaMiscRegister s) VGA_MISC_RAM_ENABLED) then Some Buffer
  else
    (* Loop through each byte *)
    for_loop (Z.to_nat Size) 0
      (fun i Buffer =>
         VideoAddress ← VgaTranslateReadAddress (to_DWORD (Address + i)) s;
         (* Copy the value to the buffer *)
         Data ← VgaMemory_get s VideoAddress;
         array_set Buffer i Data)
      Buffer.

(** The body of the loop over the planes [j] for the byte [Buffer[i]]. *)
Definition VgaWritePlane (Address : Z) (Buffer : list Z) (VideoAddress i j : Z)
    (s : vga) : option vga :=
  mask ← array_get (VgaSeqRegisters s) VGA_SEQ_MASK_REG;
  (* Make sure the page is writeable *)
  if negb (bits mask (Z.shiftl 1 j)) then Some s
  else
    mem ← array_get (VgaSeqRegisters s) VGA_SEQ_MEM_REG;
    (* Check if this is chain-4 mode: this plane will not be accessed *)
    if bits mem VGA_SEQ_MEM_C4
       && negb (Z.land (to_DWORD (Address + i)) 3 =? j) then Some s
    else
      mode ← array_get (VgaGcRegisters s) VGA_GC_MODE_REG;
      (* Check if this is odd-even mode: this plane will not be accessed *)
      if bits mode VGA_GC_MODE_OE
         && negb (Z.land (to_DWORD (Address + i)) 1 =? Z.land j 1) then Some s
      else
        (* Copy the value to the VGA memory *)
        Data ← array_get Buffer i;
        VgaMemory_set (to_DWORD (VideoAddress + j * VGA_BANK_SIZE)) Data s.

Definition VgaWriteMemory (Address : Z) (Buffer : list Z) (Size : Z) (s : vga)
    : option vga :=
  (* Ignore if video RAM access is disabled *)
  if negb (bits (VgaMiscRegister s) VGA_MISC_RAM_ENABLED) then Some s
  else
    mask ← array_get (VgaSeqRegisters s) VGA_SEQ_MASK_REG;
    (* Also ignore if write access to all planes is disabled *)
    if Z.land mask 0x0F =? 0x00 then Some s
    else
      (* Loop through each byte *)
      for_loop (Z.to_nat Size) 0
        (fun i s =>
           VideoAddress ← VgaTranslateWriteAddress (to_DWORD (Address + i)) s;
           for_loop (Z.to_nat VGA_NUM_BANKS) 0
             (VgaWritePlane Address Buffer VideoAddress i) s)
        s.

Definition VgaReadPort (Port : Z) (s : vga) : option (Z * vga) :=
  let status :=
    let Result := 0 in
    (* Reset the AC latch *)
    let s' := set_VgaAcLatch false s in
    (* Set a flag if there is a vertical or horizontal retrace *)
    let Result :=
      if InVerticalRetrace s || InHorizontalRetrace s
      then to_BYTE (Z.lor Result VGA_STAT_DD) else Result in
    (* Set an additional flag if there was a vertical retrace *)
    let Result :=
      if InVerticalRetrace s
      then to_BYTE (Z.lor Result VGA_STAT_VRETRACE) else Result in
    (* Clear the flags *)
    let s' := set_InVerticalRetrace false s' in
    let s' := set_InHorizontalRetrace false s' in
    Some (Result, s') in
  switch Port
    [ (VGA_AC_INDEX, Some (VgaAcIndex s, s));
      (VGA_AC_READ,
        Data ← array_get (VgaAcRegisters s) (VgaAcIndex s); Some (Data, s));
      (VGA_SEQ_INDEX, Some (VgaSeqIndex s, s));
      (VGA_SEQ_DATA,
        Data ← array_get (VgaSeqRegisters s) (VgaSeqIndex s); Some (Data, s));
      (VGA_DAC_READ_INDEX,
        (* This returns the read/write state *)
        Some (if VgaDacReadWrite s then 0 else 3, s));
      (VGA_DAC_WRITE_INDEX, Some (VgaDacIndex s, s));
      (VGA_DAC_DATA,
        (* Ignore reads in write mode *)
        if negb (VgaDacReadWrite s) then
          Data ← array_get (VgaDacRegisters s) (VgaDacIndex s);
          let s' := set_VgaDacIndex (to_BYTE (VgaDacIndex s + 1)) s in
          let s' := set_VgaDacIndex
                      (to_BYTE (Z.rem (VgaDacIndex s') VGA_PALETTE_SIZE)) s' in
          Some (Data, s')
        else Some (0, s));
      (VGA_MISC_READ, Some (VgaMiscRegister s, s));
      (VGA_CRTC_INDEX, Some (VgaCrtcIndex s, s));
      (VGA_CRTC_DATA,
        Data ← array_get (VgaCrtcRegisters s) (VgaCrtcIndex s); Some (Data, s));
      (VGA_GC_INDEX, Some (VgaGcIndex s, s));
      (VGA_GC_DATA,
        Data ← array_get (VgaGcRegisters s) (VgaGcIndex s); Some (Data, s));
      (VGA_STAT_MONO, status);
      (VGA_STAT_COLOR, status) ]
    (Some (0, s)).

Definition VgaWritePort (Port Data : Z) (s : vga) : option vga :=
  switch Port
    [ (VGA_AC_INDEX,
        s' ← (if negb (VgaAcLatch s) then
                (* Change the index *)
                Some (if Data <? VGA_AC_MAX_REG then set_VgaAcIndex Data s
                      else s)
              else
                (* Write the data *)
                VgaWriteAc Data s);
        (* Toggle the latch *)
        Some (set_VgaAcLatch (negb (VgaAcLatch s')) s'));
      (VGA_SEQ_INDEX,
        (* Set the sequencer index register *)
        Some (if Data <? VGA_SEQ_MAX_REG then set_VgaSeqIndex Data s else s));
      (VGA_SEQ_DATA,
        (* Call the sequencer function *)
        VgaWriteSequencer Data s);
      (VGA_DAC_READ_INDEX,
        let s' := set_VgaDacReadWrite false s in
        Some (set_VgaDacIndex (to_BYTE (Z.rem Data VGA_PALETTE_SIZE)) s'));
      (VGA_DAC_WRITE_INDEX,
        let s' := set_VgaDacReadWrite true s in
        Some (set_VgaDacIndex (to_BYTE (Z.rem Data VGA_PALETTE_SIZE)) s'));
      (VGA_DAC_DATA,
        (* Ignore writes in read mode *)
        if VgaDacReadWrite s then VgaWriteDac (Z.land Data 0x3F) s
        else Some s);
      (VGA_MISC_WRITE, Some (set_VgaMiscRegister Data s));
      (VGA_CRTC_INDEX,
        (* Set the CRTC index register *)
        Some (if Data <? VGA_CRTC_MAX_REG then set_VgaCrtcIndex Data s else s));
      (VGA_CRTC_DATA,
        (* Call the CRTC function *)
        VgaWriteCrtc Data s);
      (VGA_GC_INDEX,
        (* Set the GC index register *)
        Some (if Data <? VGA_GC_MAX_REG then set_VgaGcIndex Data s else s));
      (VGA_GC_DATA,
        (* Call the GC function *)
        VgaWriteGc Data s) ]
    (Some s).

End Vga.

(** ** What the development assumes of [vga.h] *)

Section Header.
Context `{vga_h}.

(** The case labels of the three [switch] statements. *)
Definition read_labels : list Z :=
  [ VGA_AC_INDEX; VGA_AC_READ; VGA_SEQ_INDEX; VGA_SEQ_DATA;
    VGA_DAC_READ_INDEX; VGA_DAC_WRITE_INDEX; VGA_DAC_DATA; VGA_MISC_READ;
    VGA_CRTC_INDEX; VGA_CRTC_DATA; VGA_GC_INDEX; VGA_GC_DATA;
    VGA_STAT_MONO; VGA_STAT_COLOR ].

Definition write_labels : list Z :=
  [ VGA_AC_INDEX; VGA_SEQ_INDEX; VGA_SEQ_DATA; VGA_DAC_READ_INDEX;
    VGA_DAC_WRITE_INDEX; VGA_DAC_DATA; VGA_MISC_WRITE; VGA_CRTC_INDEX;
    VGA_CRTC_DATA; VGA_GC_INDEX; VGA_GC_DATA ].

Definition seq_regs : list Z :=
  [ VGA_SEQ_RESET_REG; VGA_SEQ_CLOCK_REG; VGA_SEQ_MASK_REG; VGA_SEQ_MEM_REG ].

Definition gc_regs : list Z :=
  [ VGA_GC_RESET_REG; VGA_GC_READ_MAP_SEL_REG; VGA_GC_MODE_REG;
    VGA_GC_MISC_REG ].

Definition crtc_regs : list Z :=
  [ VGA_CRTC_HORZ_TOTAL_REG; VGA_CRTC_END_HORZ_DISP_REG;
    VGA_CRTC_OVERFLOW_REG; VGA_CRTC_MAX_SCAN_LINE_REG;
    VGA_CRTC_CURSOR_START_REG; VGA_CRTC_CURSOR_END_REG;
    VGA_CRTC_START_ADDR_HIGH_REG; VGA_CRTC_START_ADDR_LOW_REG;
    VGA_CRTC_CURSOR_LOC_HIGH_REG; VGA_CRTC_CURSOR_LOC_LOW_REG;
    VGA_CRTC_VERT_DISP_END_REG; VGA_CRTC_OFFSET_REG;
    VGA_CRTC_UNDERLINE_REG; VGA_CRTC_MODE_CONTROL_REG ].

Definition ac_regs : list Z := [ VGA_AC_PAL_0_REG; VGA_AC_CONTROL_REG ].

Definition register_bits : list Z :=
  [ VGA_SEQ_CLOCK_98DM; VGA_SEQ_MEM_C4; VGA_GC_MODE_OE; VGA_GC_MODE_SHIFTREG;
    VGA_GC_MODE_SHIFT256; VGA_GC_MISC_NOALPHA; VGA_CRTC_OVERFLOW_VDE8;
    VGA_CRTC_OVERFLOW_VDE9; VGA_CRTC_UNDERLINE_DWORD;
    VGA_CRTC_MODE_CONTROL_BYTE; VGA_AC_CONTROL_8BIT; VGA_MISC_RAM_ENABLED;
    VGA_STAT_DD; VGA_STAT_VRETRACE ].

Definition in_range (bound r : Z) : Prop := 0 <= r < bound.

(** The values of a [BYTE]. *)
Definition is_BYTE (z : Z) : Prop := 0 <= z < 256.

(** - the labels of a [switch] are pairwise different, as C demands;
    - the registers of a bank are the enumerators of one [enum], different
      from each other and below the closing [..._MAX_REG];
    - a register bit is a non-zero mask of a byte;
    - the sizes are positive and the plane memory is addressed by a
      [DWORD]. *)
Class vga_h_ok : Prop := {
  read_labels_NoDup : NoDup read_labels;
  write_labels_NoDup : NoDup write_labels;
  seq_regs_NoDup : NoDup seq_regs;
  gc_regs_NoDup : NoDup gc_regs;
  crtc_regs_NoDup : NoDup crtc_regs;
  ac_regs_NoDup : NoDup ac_regs;
  seq_regs_range : Forall (in_range VGA_SEQ_MAX_REG) seq_regs;
  gc_regs_range : Forall (in_range VGA_GC_MAX_REG) gc_regs;
  crtc_regs_range : Forall (in_range VGA_CRTC_MAX_REG) crtc_regs;
  ac_regs_range : Forall (in_range VGA_AC_MAX_REG) ac_regs;
  register_bits_range : Forall (fun m => 0 < m < 256) register_bits;
  VGA_NUM_BANKS_pos : 0 < VGA_NUM_BANKS;
  VGA_BANK_SIZE_pos : 0 < VGA_BANK_SIZE;
  VGA_PALETTE_SIZE_pos : 0 < VGA_PALETTE_SIZE;
  VgaMemory_DWORD : VGA_NUM_BANKS * VGA_BANK_SIZE <= 4294967296
}.

(** The arrays of a state have the sizes they are declared with and hold
    bytes, and the bank indices lie inside their banks. *)
Record vga_ok (s : vga) : Prop := {
  VgaSeqRegisters_size :
    Z.of_nat (length (VgaSeqRegisters s)) = VGA_SEQ_MAX_REG;
  VgaGcRegisters_size :
    Z.of_nat (length (VgaGcRegisters s)) = VGA_GC_MAX_REG;
  VgaCrtcRegisters_size :
    Z.of_nat (length (VgaCrtcRegisters s)) = VGA_CRTC_MAX_REG;
  VgaAcRegisters_size :
    Z.of_nat (length (VgaAcRegisters s)) = VGA_AC_MAX_REG;
  VgaDacRegisters_size :
    Z.of_nat (length (VgaDacRegisters s)) = VGA_PALETTE_SIZE;
  VgaSeqRegisters_bytes : Forall is_BYTE (VgaSeqRegisters s);
  VgaGcRegisters_bytes : Forall is_BYTE (VgaGcRegisters s);
  VgaCrtcRegisters_bytes : Forall is_BYTE (VgaCrtcRegisters s);
  VgaAcRegisters_bytes : Forall is_BYTE (VgaAcRegisters s);
  VgaDacRegisters_bytes : Forall is_BYTE (VgaDacRegisters s);
  VgaSeqIndex_range : 0 <= VgaSeqIndex s < VGA_SEQ_MAX_REG;
  VgaGcIndex_range : 0 <= VgaGcIndex s < VGA_GC_MAX_REG;
  VgaCrtcIndex_range : 0 <= VgaCrtcIndex s < VGA_CRTC_MAX_REG;
  VgaAcIndex_range : 0 <= VgaAcIndex s < VGA_AC_MAX_REG;
  VgaDacIndex_range :
    0 <= VgaDacIndex s < 256 /\ VgaDacIndex s < VGA_PALETTE_SIZE
}.

End Header.

(** ** A header

    Modelled from the spec: [vga.h] is missing from the sources.  The spec
    fixes four planes of 64 KiB and a palette of 256 triplets, which the DAC
    register array stores as 768 bytes; the ports, the register numbers and
    the register bits are those of the VGA register set the spec describes.
    The development uses this header only to run the code on concrete
    inputs. *)
Definition vga_h_std : vga_h := {|
  VGA_AC_INDEX := 0x3C0;
  VGA_AC_READ := 0x3C1;
  VGA_SEQ_INDEX := 0x3C4;
  VGA_SEQ_DATA := 0x3C5;
  VGA_DAC_READ_INDEX := 0x3C7;
  VGA_DAC_WRITE_INDEX := 0x3C8;
  VGA_DAC_DATA := 0x3C9;
  VGA_MISC_READ := 0x3CC;
  VGA_MISC_WRITE := 0x3C2;
  VGA_CRTC_INDEX := 0x3D4;
  VGA_CRTC_DATA := 0x3D5;
  VGA_GC_INDEX := 0x3CE;
  VGA_GC_DATA := 0x3CF;
  VGA_STAT_MONO := 0x3BA;
  VGA_STAT_COLOR := 0x3DA;
  VGA_NUM_BANKS := 4;
  VGA_BANK_SIZE := 0x10000;
  VGA_PALETTE_SIZE := 768;
  VGA_SEQ_RESET_REG := 0;
  VGA_SEQ_CLOCK_REG := 1;
  VGA_SEQ_MASK_REG := 2;
  VGA_SEQ_MEM_REG := 4;
  VGA_SEQ_MAX_REG := 5;
  VGA_GC_RESET_REG := 0;
  VGA_GC_READ_MAP_SEL_REG := 4;
  VGA_GC_MODE_REG := 5;
  VGA_GC_MISC_REG := 6;
  VGA_GC_MAX_REG := 9;
  VGA_CRTC_HORZ_TOTAL_REG := 0;
  VGA_CRTC_END_HORZ_DISP_REG := 1;
  VGA_CRTC_OVERFLOW_REG := 7;
  VGA_CRTC_MAX_SCAN_LINE_REG := 9;
  VGA_CRTC_CURSOR_START_REG := 10;
  VGA_CRTC_CURSOR_END_REG := 11;
  VGA_CRTC_START_ADDR_HIGH_REG := 12;
  VGA_CRTC_START_ADDR_LOW_REG := 13;
  VGA_CRTC_CURSOR_LOC_HIGH_REG := 14;
  VGA_CRTC_CURSOR_LOC_LOW_REG := 15;
  VGA_CRTC_VERT_DISP_END_REG := 18;
  VGA_CRTC_OFFSET_REG := 19;
  VGA_CRTC_UNDERLINE_REG := 20;
  VGA_CRTC_MODE_CONTROL_REG := 23;
  VGA_CRTC_MAX_REG := 25;
  VGA_AC_PAL_0_REG := 0;
  VGA_AC_CONTROL_REG := 16;
  VGA_AC_MAX_REG := 21;
  VGA_SEQ_CLOCK_98DM := 1;
  VGA_SEQ_MEM_C4 := 8;
  VGA_GC_MODE_OE := 16;
  VGA_GC_MODE_SHIFTREG := 32;
  VGA_GC_MODE_SHIFT256 := 64;
  VGA_GC_MISC_NOALPHA := 1;
  VGA_CRTC_OVERFLOW_VDE8 := 2;
  VGA_CRTC_OVERFLOW_VDE9 := 64;
  VGA_CRTC_UNDERLINE_DWORD := 64;
  VGA_CRTC_MODE_CONTROL_BYTE := 64;
  VGA_AC_CONTROL_8BIT := 64;
  VGA_MISC_RAM_ENABLED := 2;
  VGA_STAT_DD := 1;
  VGA_STAT_VRETRACE := 8
|}.


(** ** Scenarios and vocabulary of the specification *)

(** The direction of the DAC: [VgaDacReadWrite] is cleared by a write to
    [VGA_DAC_READ_INDEX] and set by a write to [VGA_DAC_WRITE_INDEX]; the
    code calls the first "read mode" and the second "write mode". *)
Inductive dac_direction := DacRead | DacWrite.

Definition dac_mode (s : vga) : dac_direction :=
  if VgaDacReadWrite s then DacWrite else DacRead.

Section Scenarios.
Context `{vga_h}.

(** A sequence of [VgaWritePort (Port, Data)] calls. *)
Fixpoint port_writes (l : list (Z * Z)) (s : vga) : option vga :=
  match l with
  | [] => Some s
  | (Port, Data) :: l => s' ← VgaWritePort Port Data s; port_writes l s'
  end.

(** [ReadConsoleOutputA] fills the cell buffer with the cells [console] of
    the host terminal. *)
Definition VgaReadConsole (console : list CHAR_INFO) (Resolution : COORD)
    (s : vga) : option vga :=
  match ConsoleFramebuffer s with
  | CharBuffer cells =>
      let s := call (ReadConsoleOutputA Resolution {| X := 0; Y := 0 |}
                       {| Left := 0; Top := 0; Right := X Resolution;
                          Bottom := Y Resolution |}) s in
      Some (set_ConsoleFramebuffer
              (CharBuffer (take (length cells)
                             (console ++ drop (length console) cells))) s)
  | _ => None
  end.

(** The copy of one cell of the console into the planes 0 and 1. *)
Definition VgaStoreCell (Resolution : COORD) (Address AddressSize i j : Z)
    (s : vga) : option vga :=
  let CurrentAddr :=
    LOWORD (to_DWORD (to_DWORD (Address + j) * AddressSize)) in
  cell ← CharBuffer_get s (i * X Resolution + j);
  (* Store the character in plane 0 *)
  s ← VgaMemory_set CurrentAddr (AsciiChar cell) s;
  (* Store the attribute in plane 1 *)
  VgaMemory_set (to_DWORD (CurrentAddr + VGA_BANK_SIZE))
    (to_BYTE (Attributes cell)) s.

(** Modelled from the spec: [BiosSetVideoMode] is in [bios.c], which is not
    among the sources; the spec has the BIOS program the default mode
    registers, which it does here by the port writes [BiosSetVideoMode]. *)
Definition VgaInitialize (BiosSetVideoMode : list (Z * Z)) (h : host)
    (console : list CHAR_INFO) (s : vga) : option vga :=
  (* Clear the VGA memory *)
  let s := set_VgaMemory ∅ s in
  (* Set the default video mode *)
  s ← port_writes BiosSetVideoMode s;
  s ← VgaUpdateMode h s;
  let s := set_ModeChanged false s in
  (* Get the data *)
  Resolution ← VgaGetDisplayResolution s;
  AddressSize ← VgaGetAddressSize s;
  offset ← array_get (VgaCrtcRegisters s) VGA_CRTC_OFFSET_REG;
  let ScanlineSize := to_DWORD (offset * 2) in
  (* Read the data from the console into the framebuffer *)
  s ← VgaReadConsole console Resolution s;
  VgaScan (fun Address i j => VgaStoreCell Resolution Address AddressSize i j)
    Resolution ScanlineSize 0 s.

(** Setting one register of a bank through its index and data ports. *)
Definition set_gc (reg v : Z) := [(VGA_GC_INDEX, reg); (VGA_GC_DATA, v)].
Definition set_seq (reg v : Z) := [(VGA_SEQ_INDEX, reg); (VGA_SEQ_DATA, v)].
Definition set_crtc (reg v : Z) := [(VGA_CRTC_INDEX, reg); (VGA_CRTC_DATA, v)].
Definition set_ac (reg v : Z) := [(VGA_AC_INDEX, reg); (VGA_AC_INDEX, v)].

(** The register sequence of scenario S2. *)
Definition S2_sequence : list (Z * Z) :=
  set_gc VGA_GC_MISC_REG VGA_GC_MISC_NOALPHA
  ++ set_seq VGA_SEQ_CLOCK_REG VGA_SEQ_CLOCK_98DM
  ++ set_ac VGA_AC_CONTROL_REG VGA_AC_CONTROL_8BIT
  ++ set_crtc VGA_CRTC_END_HORZ_DISP_REG 39
  ++ set_crtc VGA_CRTC_VERT_DISP_END_REG 199
  ++ set_crtc VGA_CRTC_MAX_SCAN_LINE_REG 1
  ++ set_crtc VGA_CRTC_OVERFLOW_REG 0.

(** The display window of a scan-out lies inside one plane: the last
    scanline starts below [start + Y * scanline_size], and no pixel or cell
    of it is more than [X] addresses further. *)
Definition scan_window_fits (s : vga) : Prop :=
  exists Resolution AddressSize high low offset,
    VgaGetDisplayResolution s = Some Resolution
    /\ VgaGetAddressSize s = Some AddressSize
    /\ array_get (VgaCrtcRegisters s) VGA_CRTC_START_ADDR_HIGH_REG = Some high
    /\ array_get (VgaCrtcRegisters s) VGA_CRTC_START_ADDR_LOW_REG = Some low
    /\ array_get (VgaCrtcRegisters s) VGA_CRTC_OFFSET_REG = Some offset
    /\ (high * 256 + low + Y Resolution * (offset * 2) + X Resolution)
       * AddressSize <= VGA_BANK_SIZE.

(** What a read of either status port does. *)
Definition read_status (s : vga) : Z * vga :=
  (if InVerticalRetrace s then
     to_BYTE (Z.lor (to_BYTE (Z.lor 0 VGA_STAT_DD)) VGA_STAT_VRETRACE)
   else if InHorizontalRetrace s then to_BYTE (Z.lor 0 VGA_STAT_DD)
   else 0,
   set_InHorizontalRetrace false
     (set_InVerticalRetrace false (set_VgaAcLatch false s))).

(** The two meanings of a write to [VGA_AC_INDEX], as the specification
    names them. *)
Definition ac_index_set (Data : Z) (s : vga) : option vga :=
  Some (if Data <? VGA_AC_MAX_REG then set_VgaAcIndex Data s else s).

Definition ac_data_write (Data : Z) (s : vga) : option vga :=
  VgaWriteAc Data s.

(** The state after the writes [ds] to [VGA_AC_INDEX], in the words of the
    specification: the writes alternate.  A write in the index phase sets
    the AC index to the byte written, if that is the number of an AC
    register; a write in the data phase stores the byte in the AC register
    the index selects.  The latch records after each write that the next one
    is data: it is set after an index phase and clear after a data phase.
    [index_phase] is the phase of the first write. *)
Fixpoint ac_alternate (index_phase : bool) (ds : list Z) (s : vga) : vga :=
  match ds with
  | [] => s
  | Data :: ds =>
      let s' :=
        if index_phase then
          if Data <? VGA_AC_MAX_REG then set_VgaAcIndex Data s else s
        else
          set_VgaAcRegisters
            (<[Z.to_nat (VgaAcIndex s) := Data]> (VgaAcRegisters s)) s in
      ac_alternate (negb index_phase) ds (set_VgaAcLatch index_phase s')
  end.

(** The DAC index is a [BYTE]: it wraps at 256 or, if that is smaller, at
    [VGA_PALETTE_SIZE]. *)
Definition dac_period : Z := Z.min VGA_PALETTE_SIZE 256.

(** The bytes of plane [p] are [VgaMemory[p * VGA_BANK_SIZE + offset]]. *)
Definition in_plane (p Index : Z) : Prop :=
  p * VGA_BANK_SIZE <= Index < (p + 1) * VGA_BANK_SIZE.

(** One call of an entry point by the emulator, with arguments of the C
    types. *)
Inductive vga_step : vga -> vga -> Prop :=
| step_VgaReadPort Port s v s' :
    VgaReadPort Port s = Some (v, s') -> vga_step s s'
| step_VgaWritePort Port Data s s' :
    is_BYTE Data -> VgaWritePort Port Data s = Some s' -> vga_step s s'
| step_VgaWriteMemory Address Buffer Size s s' :
    Forall is_BYTE Buffer ->
    VgaWriteMemory Address Buffer Size s = Some s' -> vga_step s s'
| step_VgaHorizontalRetrace s :
    vga_step s (VgaHorizontalRetrace s)
| step_VgaRefreshDisplay h s s' :
    VgaRefreshDisplay h s = Some s' -> vga_step s s'
| step_VgaInitialize BiosSetVideoMode h console s s' :
    Forall (fun w => is_BYTE w.2) BiosSetVideoMode ->
    VgaInitialize BiosSetVideoMode h console s = Some s' -> vga_step s s'.

(** The states the emulator reaches from the static initialisers. *)
Definition reachable (s : vga) : Prop := rtc vga_step vga_reset s.

End Scenarios.

(** A host on which both fallible calls succeed. *)
Definition host_ok : host :=
  {| CreateConsoleScreenBuffer_ok := true; HeapAlloc_ok := true |}.
(** The part of the state the guest programs: video memory and the
    register file.  The display side (retrace flags, framebuffer, update
    rectangle, mode flags, host calls) is the rest. *)
Definition registers (s : vga) :=
  (VgaMemory s, VgaMiscRegister s,
   (VgaSeqIndex s, VgaSeqRegisters s),
   (VgaGcIndex s, VgaGcRegisters s),
   (VgaCrtcIndex s, VgaCrtcRegisters s),
   (VgaAcIndex s, VgaAcLatch s, VgaAcRegisters s),
   (VgaDacIndex s, VgaDacReadWrite s, VgaDacRegisters s)).

(** [n] writes of the bytes [ds] to one port. *)
Definition writes_to (Port : Z) (ds : list Z) : list (Z * Z) :=
  (fun Data => (Port, Data)) <$> ds.

(** A state over [vga_h_std] with video RAM enabled, chain-4 selected and
    the four planes writable. *)
Definition chain4_state : vga :=
  set_VgaMiscRegister 2
    (set_VgaSeqRegisters [0; 0; 15; 0; 8] (@vga_reset vga_h_std)).

Section S2.
Context `{vga_h}.

(** The state the register sequence of scenario S2 leaves. *)
Definition S2_state (s : vga) : vga :=
  let gc := <[Z.to_nat VGA_GC_MISC_REG := VGA_GC_MISC_NOALPHA]>
              (VgaGcRegisters s) in
  let seq := <[Z.to_nat VGA_SEQ_CLOCK_REG := VGA_SEQ_CLOCK_98DM]>
               (VgaSeqRegisters s) in
  let ac := <[Z.to_nat VGA_AC_CONTROL_REG := VGA_AC_CONTROL_8BIT]>
              (VgaAcRegisters s) in
  let crtc :=
    <[Z.to_nat VGA_CRTC_OVERFLOW_REG := 0]>
      (<[Z.to_nat VGA_CRTC_MAX_SCAN_LINE_REG := 1]>
         (<[Z.to_nat VGA_CRTC_VERT_DISP_END_REG := 199]>
            (<[Z.to_nat VGA_CRTC_END_HORZ_DISP_REG := 39]>
               (VgaCrtcRegisters s)))) in
  set_ModeChanged true
    (set_VgaCrtcRegisters crtc
       (set_VgaCrtcIndex VGA_CRTC_OVERFLOW_REG
          (set_VgaAcRegisters ac
             (set_VgaAcLatch false
                (set_VgaAcIndex VGA_AC_CONTROL_REG
                   (set_VgaSeqRegisters seq
                      (set_VgaSeqIndex VGA_SEQ_CLOCK_REG
                         (set_VgaGcRegisters gc
                            (set_VgaGcIndex VGA_GC_MISC_REG s))))))))).

End S2.

(** During the scan-out of a graphics mode a state [a] has the registers
    and the video memory of the state [s] the scan started in, and its
    framebuffer is a bitmap of the size of the resolution. *)
Definition scan_inv (s : vga) (Resolution : COORD) (a : vga) : Prop :=
  registers a = registers s
  /\ exists pixels,
       ConsoleFramebuffer a = GraphicsBuffer pixels
       /\ Z.of_nat (length pixels) = X Resolution * Y Resolution.

(** [s'] is [s] but for the fields a scan-out writes. *)
Definition scan_only (s s' : vga) : Prop :=
  exists fb nu ur hc,
    s' = set_HostCalls hc
           (set_UpdateRectangle ur
              (set_NeedsUpdate nu (set_ConsoleFramebuffer fb s))).

(** [s'] is [s] with other contents of the video memory. *)
Definition only_memory (s s' : vga) : Prop :=
  s' = set_VgaMemory (VgaMemory s') s.

(** ** Further vocabulary *)

Section Vocabulary.
Context `{vga_h}.

(** [n] calls of [VgaReadPort (Port)], the values in the order read. *)
Fixpoint port_reads (Port : Z) (n : nat) (s : vga) : option (list Z * vga) :=
  match n with
  | O => Some ([], s)
  | S n =>
      '(v, s) ← VgaReadPort Port s;
      '(vs, s) ← port_reads Port n s;
      Some (v :: vs, s)
  end.

(** The CRTC registers whose write [VgaWriteCrtc] takes for a change of the
    video mode, and those it takes for a move of the cursor. *)
Definition mode_registers : list Z :=
  [ VGA_CRTC_END_HORZ_DISP_REG; VGA_CRTC_VERT_DISP_END_REG;
    VGA_CRTC_OVERFLOW_REG ].

Definition cursor_registers : list Z :=
  [ VGA_CRTC_CURSOR_LOC_LOW_REG; VGA_CRTC_CURSOR_LOC_HIGH_REG;
    VGA_CRTC_CURSOR_START_REG; VGA_CRTC_CURSOR_END_REG ].

End Vocabulary.

Section PlaneVocabulary.
Context `{vga_h}.

(** Whether the loop of [VgaWriteMemory] stores the byte written at
    [Address] in plane [j]: the plane mask [mask] enables the plane, in
    chain-4 mode the plane is [Address & 3], and in odd-even mode it has
    the parity of [Address]. *)
Definition plane_written (mask mem mode Address j : Z) : bool :=
  bits mask (Z.shiftl 1 j)
  && negb (bits mem VGA_SEQ_MEM_C4 && negb (Z.land Address 3 =? j))
  && negb (bits mode VGA_GC_MODE_OE
           && negb (Z.land Address 1 =? Z.land j 1)).

(** The bits by which the two translations shift the offset. *)
Definition plane_shift (mem mode : Z) : Z :=
  if bits mem VGA_SEQ_MEM_C4 then 2
  else if bits mode VGA_GC_MODE_OE then 1 else 0.

(** The plane [VgaTranslateReadAddress] reads. *)
Definition plane_read (mem mode sel Address : Z) : Z :=
  if bits mem VGA_SEQ_MEM_C4 then Z.land Address 3
  else if bits mode VGA_GC_MODE_OE then Z.land Address 1
  else Z.land sel 3.

End PlaneVocabulary.

(** A state over [vga_h_std] with video RAM enabled, odd-even addressing
    selected, chain-4 off and the four planes writable. *)
Definition odd_even_state : vga :=
  set_VgaGcRegisters [0; 0; 0; 0; 0; 16; 0; 0; 0]
    (set_VgaSeqRegisters [0; 0; 15; 0; 0] chain4_state).

(** The values of a [SHORT]. *)
Definition is_SHORT (z : Z) : Prop := SHRT_MIN <= z <= SHRT_MAX.

(** The point of row [Row] and column [Column] lies in the rectangle, whose
    four bounds are inclusive. *)
Definition in_rect (r : SMALL_RECT) (Row Column : Z) : Prop :=
  Left r <= Column <= Right r /\ Top r <= Row <= Bottom r.

(** The rectangle [r] lies in the rectangle [r']. *)
Definition rect_le (r r' : SMALL_RECT) : Prop :=
  Left r' <= Left r /\ Right r <= Right r'
  /\ Top r' <= Top r /\ Bottom r <= Bottom r'.

(** [Address] after [i] times [Address += ScanlineSize]. *)
Definition VgaScanline (Address ScanlineSize i : Z) : Z :=
  to_DWORD (Address + i * ScanlineSize).

(** A sequence of [VgaMarkForUpdate (Row, Column)] calls. *)
Definition marks (pts : list (Z * Z)) (s : vga) : vga :=
  foldl (fun a p => VgaMarkForUpdate p.1 p.2 a) s pts.

Section ScanVocabulary.
Context `{vga_h}.

(** The cell [CharInfo] of column [j] of the text row that starts at
    [Address]: the character from plane 0, the attribute from plane 1. *)
Definition VgaCellData (s : vga) (Address AddressSize j : Z)
    : option CHAR_INFO :=
  let CurrentAddr :=
    LOWORD (to_DWORD (to_DWORD (Address + j) * AddressSize)) in
  char ← VgaMemory_get s CurrentAddr;
  attr ← VgaMemory_get s (to_DWORD (CurrentAddr + VGA_BANK_SIZE));
  Some {| AsciiChar := char; Attributes := attr |}.

(** The cell [(i', j')] comes before the cell [(i, j)] in the order of the
    two loops of the scan-out. *)
Definition scan_done (i j i' j' : Z) : Prop := i' < i \/ (i' = i /\ j' < j).

(** What the scan-out that started in [s0] has done when it comes to the
    cell [(i, j)] in the state [a].  [get] reads a cell of the framebuffer
    and [new] is the cell the registers and the video memory give:
    - the cells before [(i, j)] hold what [new] gives;
    - the other cells are as they were;
    - an update request that was set is still set, with a rectangle that
      has not shrunk;
    - each cell before [(i, j)] whose content was not what [new] gives is
      in the update rectangle;
    - if no cell before [(i, j)] had to change, the state is [s0]. *)
Record scan_progress {T : Type} (get : vga -> Z -> option T)
    (new : Z -> Z -> option T) (Resolution : COORD)
    (Address ScanlineSize : Z) (s0 : vga) (i j : Z) (a : vga) : Prop := {
  scan_correct : forall i' j',
    0 <= i' < Y Resolution -> 0 <= j' < X Resolution -> scan_done i j i' j' ->
    exists v,
      new (VgaScanline Address ScanlineSize i') j' = Some v
      /\ get a (i' * X Resolution + j') = Some v;
  scan_pending : forall i' j',
    0 <= i' < Y Resolution -> 0 <= j' < X Resolution ->
    ~ scan_done i j i' j' ->
    get a (i' * X Resolution + j') = get s0 (i' * X Resolution + j');
  scan_request :
    NeedsUpdate s0 = true ->
    NeedsUpdate a = true /\ rect_le (UpdateRectangle s0) (UpdateRectangle a);
  scan_dirty : forall i' j',
    0 <= i' < Y Resolution -> 0 <= j' < X Resolution -> scan_done i j i' j' ->
    get s0 (i' * X Resolution + j')
    <> new (VgaScanline Address ScanlineSize i') j' ->
    NeedsUpdate a = true /\ in_rect (UpdateRectangle a) i' j';
  scan_clean :
    (forall i' j',
       0 <= i' < Y Resolution -> 0 <= j' < X Resolution ->
       scan_done i j i' j' ->
       get s0 (i' * X Resolution + j')
       = new (VgaScanline Address ScanlineSize i') j') ->
    a = s0
}.

End ScanVocabulary.

(** During the scan-out of a text mode a state [a] has the registers and
    the video memory of the state [s] the scan started in, and its
    framebuffer is a block of cells of the size of the resolution. *)
Definition text_inv (s : vga) (Resolution : COORD) (a : vga) : Prop :=
  registers a = registers s
  /\ exists cells,
       ConsoleFramebuffer a = CharBuffer cells
       /\ Z.of_nat (length cells) = X Resolution * Y Resolution.

Section StoreVocabulary.
Context `{vga_h}.



End StoreVocabulary.

(** A state over [vga_h_std] in the text mode of the static initialisers,
    with a framebuffer of the one cell of its resolution. *)
Definition text_state : vga :=
  set_ConsoleFramebuffer (CharBuffer [{| AsciiChar := 65; Attributes := 7 |}])
    (@vga_reset vga_h_std).


(** * Properties *)

(** ** Arrays, loops and [switch] *)

Lemma array_get_Some {A} (a : list A) i :
  0 <= i < Z.of_nat (length a) -> is_Some (array_get a i).
Proof.
  intros [H0 H1]. unfold array_get.
  destruct (Z.leb_spec 0 i); [|lia].
  apply lookup_lt_is_Some_2. lia.
Qed.

Lemma array_set_Some {A} (a : list A) i v :
  0 <= i < Z.of_nat (length a) ->
  array_set a i v = Some (<[Z.to_nat i := v]> a).
Proof.
  intros [H0 H1]. unfold array_set.
  destruct (Z.leb_spec 0 i); [|lia].
  destruct (Z.ltb_spec i (Z.of_nat (length a))); [done|lia].
Qed.

Lemma array_set_inv {A} (a a' : list A) i v :
  array_set a i v = Some a' ->
  0 <= i < Z.of_nat (length a) /\ a' = <[Z.to_nat i := v]> a.
Proof.
  unfold array_set.
  destruct (Z.leb_spec 0 i), (Z.ltb_spec i (Z.of_nat (length a)));
    simpl; intros [= <-]; auto.
Qed.

Lemma array_set_length {A} (a a' : list A) i v :
  array_set a i v = Some a' -> length a' = length a.
Proof. intros [_ ->]%array_set_inv. apply length_insert. Qed.

Lemma array_get_set_eq {A} (a a' : list A) i v :
  array_set a i v = Some a' -> array_get a' i = Some v.
Proof.
  intros [[H0 H1] ->]%array_set_inv. unfold array_get.
  destruct (Z.leb_spec 0 i); [|lia].
  apply list_lookup_insert_eq. lia.
Qed.

Lemma array_get_set_ne {A} (a a' : list A) i j v :
  array_set a i v = Some a' -> 0 <= j -> i <> j ->
  array_get a' j = array_get a j.
Proof.
  intros [[H0 H1] ->]%array_set_inv Hj Hne. unfold array_get.
  destruct (Z.leb_spec 0 j); [|lia].
  apply list_lookup_insert_ne. lia.
Qed.

(** A [switch] over distinct labels runs the case of the matching label. *)
Lemma switch_hit {A} (cases : list (Z * A)) (i : nat) l a d :
  NoDup cases.*1 -> cases !! i = Some (l, a) -> switch l cases d = a.
Proof.
  revert i. induction cases as [|[l' a'] cases IH]; intros i Hnd Hi; [done|].
  simpl in *. apply NoDup_cons in Hnd as [Hnin Hnd].
  destruct i as [|i]; simpl in Hi.
  - injection Hi as -> ->. by rewrite Z.eqb_refl.
  - destruct (Z.eqb_spec l l') as [->|Hne]; [|by eapply IH].
    exfalso. apply Hnin. apply list_elem_of_fmap. exists (l', a).
    split; [done|]. by eapply list_elem_of_lookup_2.
Qed.

(** Whatever holds of every case and of the default holds of the [switch]. *)
Lemma switch_cases {A} (P : A -> Prop) x (cases : list (Z * A)) d :
  Forall (fun c => P c.2) cases -> P d -> P (switch x cases d).
Proof.
  induction 1 as [|[l a] cases Ha _ IH]; intros Hd; simpl; [done|].
  destruct (x =? l); auto.
Qed.

(** An invariant of the body is an invariant of the loop. *)
Lemma for_loop_invariant {St} (P : St -> Prop) body n i (st st' : St) :
  (forall j a b, body j a = Some b -> P a -> P b) ->
  for_loop n i body st = Some st' -> P st -> P st'.
Proof.
  intros Hbody. revert i st. induction n as [|n IH]; simpl; intros i st.
  - by intros [= <-].
  - destruct (body i st) as [st1|] eqn:Hb; simpl; [|done].
    intros Hl Hst. eapply IH; [exact Hl|]. by eapply Hbody.
Qed.

(** The same, the body seeing the indices the loop visits. *)
Lemma for_loop_invariant_range {St} (P : St -> Prop) body n i (st st' : St) :
  (forall j a b, i <= j < i + Z.of_nat n -> body j a = Some b -> P a -> P b) ->
  for_loop n i body st = Some st' -> P st -> P st'.
Proof.
  revert i st. induction n as [|n IH]; simpl; intros i st Hbody.
  - by intros [= <-].
  - destruct (body i st) as [st1|] eqn:Hb; simpl; [|done].
    intros Hl Hst. eapply (IH (i + 1)); [|exact Hl|].
    + intros j a b Hj. apply Hbody. lia.
    + eapply Hbody; [|exact Hb|exact Hst]. lia.
Qed.

(** A body that is defined on the invariant, for the indices the loop
    visits, makes the loop defined. *)
Lemma for_loop_defined {St} (P : Z -> St -> Prop) body n i (st : St) :
  (forall j a, i <= j < i + Z.of_nat n -> P j a ->
     exists b, body j a = Some b /\ P (j + 1) b) ->
  P i st ->
  exists st', for_loop n i body st = Some st' /\ P (i + Z.of_nat n) st'.
Proof.
  revert i st. induction n as [|n IH]; simpl; intros i st Hbody Hst.
  - exists st. split; [done|]. by replace (i + Z.of_nat 0) with i by lia.
  - destruct (Hbody i st) as (b & -> & Hb); [lia|done|]. simpl.
    destruct (IH (i + 1) b) as (st' & Hl & Hst'); [|done|].
    + intros j a Hj. apply Hbody. lia.
    + exists st'. split; [done|].
      by replace (i + Z.of_nat (S n)) with (i + 1 + Z.of_nat n) by lia.
Qed.

(** ** Bytes *)

Lemma to_BYTE_id z : 0 <= z < 256 -> to_BYTE z = z.
Proof. intros. unfold to_BYTE. by apply Z.mod_small. Qed.

Lemma byte_lor a b : 0 <= a < 256 -> 0 <= b < 256 -> 0 <= Z.lor a b < 256.
Proof.
  intros Ha Hb. split; [apply Z.lor_nonneg; lia|].
  destruct (Z.eq_dec (Z.lor a b) 0) as [->|Hne]; [lia|].
  assert (0 < Z.lor a b) by (pose proof (Z.lor_nonneg a b); lia).
  apply (Z.log2_lt_pow2 _ 8); [done|].
  rewrite Z.log2_lor by lia.
  destruct (Z.eq_dec a 0) as [->|]; destruct (Z.eq_dec b 0) as [->|];
    simpl; try lia.
  - apply Z.max_lub_lt; [simpl; lia|]. apply Z.log2_lt_pow2; lia.
  - apply Z.max_lub_lt; [|simpl; lia]. apply Z.log2_lt_pow2; lia.
  - apply Z.max_lub_lt; apply Z.log2_lt_pow2; lia.
Qed.

Lemma land_lor_same a b : Z.land (Z.lor a b) a = a.
Proof.
  apply Z.bits_inj'. intros n Hn.
  rewrite Z.land_spec, Z.lor_spec.
  by destruct (Z.testbit a n), (Z.testbit b n).
Qed.

Lemma bits_self m : m <> 0 -> bits m m = true.
Proof.
  intros Hm. unfold bits. rewrite Z.land_diag.
  by destruct (Z.eqb_spec m 0).
Qed.

Lemma bits_0 m : bits 0 m = false.
Proof. unfold bits. by rewrite Z.land_0_l. Qed.

(** ** The concrete header *)

Lemma vga_h_std_ok : @vga_h_ok vga_h_std.
Proof.
  split;
    first [ apply (bool_decide_unpack _); vm_compute; exact I
          | repeat constructor; vm_compute; congruence
          | vm_compute; congruence ].
Defined.

Lemma vga_reset_std_ok : @vga_ok vga_h_std (@vga_reset vga_h_std).
Proof.
  split;
    first [ apply Forall_replicate; vm_compute; split; congruence
          | vm_compute; repeat split; congruence ].
Defined.

(** ** The port dispatch *)

Ltac read_port i :=
  unfold VgaReadPort; apply (switch_hit _ i);
  [exact read_labels_NoDup | reflexivity].

Ltac write_port i :=
  unfold VgaWritePort; apply (switch_hit _ i);
  [exact write_labels_NoDup | reflexivity].

Section Ports.
Context `{vga_h} {Hh : vga_h_ok}.

Lemma VgaReadPort_DAC_READ_INDEX s :
  VgaReadPort VGA_DAC_READ_INDEX s
  = Some (if VgaDacReadWrite s then 0 else 3, s).
Proof. read_port 4%nat. Qed.

Lemma VgaReadPort_DAC_DATA s :
  VgaReadPort VGA_DAC_DATA s
  = if negb (VgaDacReadWrite s) then
      Data ← array_get (VgaDacRegisters s) (VgaDacIndex s);
      let s' := set_VgaDacIndex (to_BYTE (VgaDacIndex s + 1)) s in
      Some (Data,
            set_VgaDacIndex
              (to_BYTE (Z.rem (VgaDacIndex s') VGA_PALETTE_SIZE)) s')
    else Some (0, s).
Proof. read_port 6%nat. Qed.

Lemma VgaReadPort_STAT_MONO s :
  VgaReadPort VGA_STAT_MONO s = Some (read_status s).
Proof.
  unfold VgaReadPort. erewrite (switch_hit _ 12%nat);
    [|exact read_labels_NoDup|reflexivity].
  unfold read_status. by destruct (InVerticalRetrace s), (InHorizontalRetrace s).
Qed.

Lemma VgaReadPort_STAT_COLOR s :
  VgaReadPort VGA_STAT_COLOR s = Some (read_status s).
Proof.
  unfold VgaReadPort. erewrite (switch_hit _ 13%nat);
    [|exact read_labels_NoDup|reflexivity].
  unfold read_status. by destruct (InVerticalRetrace s), (InHorizontalRetrace s).
Qed.

Lemma VgaWritePort_AC_INDEX Data s :
  VgaWritePort VGA_AC_INDEX Data s
  = s' ← (if negb (VgaAcLatch s) then ac_index_set Data s
          else ac_data_write Data s);
    Some (set_VgaAcLatch (negb (VgaAcLatch s')) s').
Proof. write_port 0%nat. Qed.

Lemma VgaWritePort_SEQ_INDEX Data s :
  VgaWritePort VGA_SEQ_INDEX Data s
  = Some (if Data <? VGA_SEQ_MAX_REG then set_VgaSeqIndex Data s else s).
Proof. write_port 1%nat. Qed.

Lemma VgaWritePort_SEQ_DATA Data s :
  VgaWritePort VGA_SEQ_DATA Data s = VgaWriteSequencer Data s.
Proof. write_port 2%nat. Qed.

Lemma VgaWritePort_DAC_READ_INDEX Data s :
  VgaWritePort VGA_DAC_READ_INDEX Data s
  = Some (set_VgaDacIndex (to_BYTE (Z.rem Data VGA_PALETTE_SIZE))
            (set_VgaDacReadWrite false s)).
Proof. write_port 3%nat. Qed.

Lemma VgaWritePort_DAC_WRITE_INDEX Data s :
  VgaWritePort VGA_DAC_WRITE_INDEX Data s
  = Some (set_VgaDacIndex (to_BYTE (Z.rem Data VGA_PALETTE_SIZE))
            (set_VgaDacReadWrite true s)).
Proof. write_port 4%nat. Qed.

Lemma VgaWritePort_DAC_DATA Data s :
  VgaWritePort VGA_DAC_DATA Data s
  = if VgaDacReadWrite s then VgaWriteDac (Z.land Data 0x3F) s else Some s.
Proof. write_port 5%nat. Qed.

Lemma VgaWritePort_MISC_WRITE Data s :
  VgaWritePort VGA_MISC_WRITE Data s = Some (set_VgaMiscRegister Data s).
Proof. write_port 6%nat. Qed.

Lemma VgaWritePort_CRTC_INDEX Data s :
  VgaWritePort VGA_CRTC_INDEX Data s
  = Some (if Data <? VGA_CRTC_MAX_REG then set_VgaCrtcIndex Data s else s).
Proof. write_port 7%nat. Qed.

Lemma VgaWritePort_CRTC_DATA Data s :
  VgaWritePort VGA_CRTC_DATA Data s = VgaWriteCrtc Data s.
Proof. write_port 8%nat. Qed.

Lemma VgaWritePort_GC_INDEX Data s :
  VgaWritePort VGA_GC_INDEX Data s
  = Some (if Data <? VGA_GC_MAX_REG then set_VgaGcIndex Data s else s).
Proof. write_port 9%nat. Qed.

Lemma VgaWritePort_GC_DATA Data s :
  VgaWritePort VGA_GC_DATA Data s = VgaWriteGc Data s.
Proof. write_port 10%nat. Qed.

End Ports.

(** ** The DAC state port and the DAC data port *)

Section Dac.
Context `{vga_h} {Hh : vga_h_ok}.

(** C2, as amended.  A read of [VGA_DAC_READ_INDEX] returns 3 when the DAC
    is in read mode and 0 when it is in write mode, and leaves the state as
    it is; a write to [VGA_DAC_READ_INDEX] puts the DAC in read mode and a
    write to [VGA_DAC_WRITE_INDEX] in write mode. *)
Theorem VgaReadPort_DAC_state (s : vga) :
  VgaReadPort VGA_DAC_READ_INDEX s
  = Some (match dac_mode s with DacRead => 3 | DacWrite => 0 end, s)
  /\ (forall Data,
        dac_mode <$> VgaWritePort VGA_DAC_READ_INDEX Data s = Some DacRead)
  /\ (forall Data,
        dac_mode <$> VgaWritePort VGA_DAC_WRITE_INDEX Data s = Some DacWrite).
Proof.
  split; [|split].
  - rewrite VgaReadPort_DAC_READ_INDEX. unfold dac_mode.
    by destruct (VgaDacReadWrite s).
  - intros Data. by rewrite VgaWritePort_DAC_READ_INDEX.
  - intros Data. by rewrite VgaWritePort_DAC_WRITE_INDEX.
Qed.

(** C10.  In write mode a read of [VGA_DAC_DATA] returns 0 and changes
    nothing: the DAC index, the DAC registers and the rest of the state are
    those of before. *)
Theorem VgaReadPort_DAC_DATA_write_mode (s : vga) :
  dac_mode s = DacWrite ->
  VgaReadPort VGA_DAC_DATA s = Some (0, s).
Proof.
  unfold dac_mode. intros Hmode. rewrite VgaReadPort_DAC_DATA.
  by destruct (VgaDacReadWrite s).
Qed.

End Dac.

Section DacStd.
#[local] Existing Instance vga_h_std.

Lemma VgaReadPort_DAC_state_witness :
  VgaReadPort VGA_DAC_READ_INDEX vga_reset = Some (3, vga_reset).
Proof.
  exact (proj1 (@VgaReadPort_DAC_state vga_h_std vga_h_std_ok vga_reset)).
Defined.

(** C2 as stated fails: after a write of 0 to [VGA_DAC_READ_INDEX] the DAC
    is in read mode, and a read of the port returns 3, not 0. *)
Lemma VgaReadPort_DAC_state_counterexample :
  exists s,
    VgaWritePort VGA_DAC_READ_INDEX 0 vga_reset = Some s
    /\ dac_mode s = DacRead
    /\ fst <$> VgaReadPort VGA_DAC_READ_INDEX s = Some 3
    /\ fst <$> VgaReadPort VGA_DAC_READ_INDEX s <> Some 0.
Proof. eexists. vm_compute. repeat split; congruence. Qed.

Lemma VgaReadPort_DAC_DATA_write_mode_witness :
  dac_mode (set_VgaDacReadWrite true vga_reset) = DacWrite
  /\ VgaReadPort VGA_DAC_DATA (set_VgaDacReadWrite true vga_reset)
     = Some (0, set_VgaDacReadWrite true vga_reset).
Proof.
  split; [reflexivity|].
  apply (@VgaReadPort_DAC_DATA_write_mode vga_h_std vga_h_std_ok).
  reflexivity.
Defined.

End DacStd.

(** ** The status ports *)

Section Status.
Context `{vga_h} {Hh : vga_h_ok}.

Lemma VGA_STAT_DD_byte : 0 < VGA_STAT_DD < 256.
Proof.
  pose proof register_bits_range as Hb.
  apply (Forall_lookup_1 _ _ 12%nat _ Hb). reflexivity.
Qed.

Lemma VGA_STAT_VRETRACE_byte : 0 < VGA_STAT_VRETRACE < 256.
Proof.
  pose proof register_bits_range as Hb.
  apply (Forall_lookup_1 _ _ 13%nat _ Hb). reflexivity.
Qed.

(** The byte a status read returns has [VGA_STAT_DD] set exactly when one of
    the retrace flags is. *)
Lemma read_status_DD s :
  bits (read_status s).1 VGA_STAT_DD
  = InVerticalRetrace s || InHorizontalRetrace s.
Proof.
  pose proof VGA_STAT_DD_byte as Hdd.
  pose proof VGA_STAT_VRETRACE_byte as Hvr.
  unfold read_status; simpl. rewrite Z.lor_0_l, (to_BYTE_id VGA_STAT_DD) by lia.
  destruct (InVerticalRetrace s); simpl.
  - rewrite to_BYTE_id by (apply byte_lor; lia).
    unfold bits. rewrite land_lor_same.
    by destruct (Z.eqb_spec VGA_STAT_DD 0); [lia|].
  - destruct (InHorizontalRetrace s); [apply bits_self; lia|apply bits_0].
Qed.

(** C7.  After [VgaHorizontalRetrace] a read of [VGA_STAT_COLOR] returns a
    byte with the DD bit set, and the read that follows it a byte with the DD
    bit clear; a read of either status port clears both retrace flags. *)
Theorem VgaReadPort_STAT_retrace (s : vga) :
  (exists r1 s1 r2 s2,
     VgaReadPort VGA_STAT_COLOR (VgaHorizontalRetrace s) = Some (r1, s1)
     /\ bits r1 VGA_STAT_DD = true
     /\ VgaReadPort VGA_STAT_COLOR s1 = Some (r2, s2)
     /\ bits r2 VGA_STAT_DD = false)
  /\ (forall Port r s',
        Port = VGA_STAT_MONO \/ Port = VGA_STAT_COLOR ->
        VgaReadPort Port s = Some (r, s') ->
        InHorizontalRetrace s' = false /\ InVerticalRetrace s' = false).
Proof.
  split.
  - exists (read_status (VgaHorizontalRetrace s)).1,
      (read_status (VgaHorizontalRetrace s)).2,
      (read_status (read_status (VgaHorizontalRetrace s)).2).1,
      (read_status (read_status (VgaHorizontalRetrace s)).2).2.
    rewrite !VgaReadPort_STAT_COLOR, !read_status_DD.
    repeat split; try by rewrite <- surjective_pairing.
    simpl. apply orb_true_r.
  - intros Port r s' [-> | ->];
      rewrite ?VgaReadPort_STAT_MONO, ?VgaReadPort_STAT_COLOR;
      intros [= <- <-]; done.
Qed.

End Status.

Section StatusStd.
#[local] Existing Instance vga_h_std.

Lemma VgaReadPort_STAT_retrace_witness :
  exists r1 s1 r2 s2,
    VgaReadPort VGA_STAT_COLOR (VgaHorizontalRetrace vga_reset) = Some (r1, s1)
    /\ bits r1 VGA_STAT_DD = true
    /\ VgaReadPort VGA_STAT_COLOR s1 = Some (r2, s2)
    /\ bits r2 VGA_STAT_DD = false.
Proof.
  exact (proj1 (@VgaReadPort_STAT_retrace vga_h_std vga_h_std_ok vga_reset)).
Defined.

End StatusStd.

(** ** The invariant [vga_ok] *)

Section Invariant.
Context `{vga_h} {Hh : vga_h_ok}.

(** [vga_ok] speaks of the register file only. *)
Lemma vga_ok_registers s s' :
  registers s' = registers s -> vga_ok s -> vga_ok s'.
Proof.
  unfold registers. intros [= ? ? ? ? ? ? ? ? ? ? ? ? ? ?] [].
  split; congruence.
Qed.

Lemma VGA_SEQ_MAX_REG_pos : 0 < VGA_SEQ_MAX_REG.
Proof.
  pose proof (Forall_lookup_1 _ _ 0%nat _ seq_regs_range eq_refl) as Hr.
  unfold in_range in Hr. lia.
Qed.

Lemma VGA_GC_MAX_REG_pos : 0 < VGA_GC_MAX_REG.
Proof.
  pose proof (Forall_lookup_1 _ _ 0%nat _ gc_regs_range eq_refl) as Hr.
  unfold in_range in Hr. lia.
Qed.

Lemma VGA_CRTC_MAX_REG_pos : 0 < VGA_CRTC_MAX_REG.
Proof.
  pose proof (Forall_lookup_1 _ _ 0%nat _ crtc_regs_range eq_refl) as Hr.
  unfold in_range in Hr. lia.
Qed.

Lemma VGA_AC_MAX_REG_pos : 0 < VGA_AC_MAX_REG.
Proof.
  pose proof (Forall_lookup_1 _ _ 0%nat _ ac_regs_range eq_refl) as Hr.
  unfold in_range in Hr. lia.
Qed.

Lemma is_BYTE_0 : is_BYTE 0.
Proof. unfold is_BYTE. lia. Qed.

(** The static initialisers satisfy the invariant. *)
Lemma vga_ok_reset : vga_ok vga_reset.
Proof.
  pose proof VGA_SEQ_MAX_REG_pos. pose proof VGA_GC_MAX_REG_pos.
  pose proof VGA_CRTC_MAX_REG_pos. pose proof VGA_AC_MAX_REG_pos.
  pose proof VGA_PALETTE_SIZE_pos.
  split; simpl; rewrite ?length_replicate;
    try lia; try (apply Forall_replicate, is_BYTE_0).
  - apply (Forall_lookup_1 _ _ 0%nat _ seq_regs_range eq_refl).
  - apply (Forall_lookup_1 _ _ 0%nat _ gc_regs_range eq_refl).
  - apply (Forall_lookup_1 _ _ 0%nat _ crtc_regs_range eq_refl).
  - apply (Forall_lookup_1 _ _ 0%nat _ ac_regs_range eq_refl).
Qed.

Lemma array_set_bytes (a a' : list Z) i v :
  array_set a i v = Some a' -> is_BYTE v -> Forall is_BYTE a ->
  Forall is_BYTE a'.
Proof. intros [_ ->]%array_set_inv Hv Ha. by apply Forall_insert. Qed.

(** The DAC index after the increment and the [%=] of [VgaWriteDac]. *)
Lemma dac_index_range z :
  0 <= z ->
  0 <= to_BYTE (Z.rem z VGA_PALETTE_SIZE) < 256
  /\ to_BYTE (Z.rem z VGA_PALETTE_SIZE) < VGA_PALETTE_SIZE.
Proof.
  intros Hz. pose proof VGA_PALETTE_SIZE_pos as HP.
  pose proof (Z.rem_bound_pos z _ Hz HP) as Hr.
  unfold to_BYTE.
  pose proof (Z.mod_pos_bound (Z.rem z VGA_PALETTE_SIZE) 256 eq_refl).
  pose proof (Z.mod_le (Z.rem z VGA_PALETTE_SIZE) 256). lia.
Qed.

Lemma to_BYTE_nonneg z : 0 <= to_BYTE z.
Proof. unfold to_BYTE. pose proof (Z.mod_pos_bound z 256 eq_refl). lia. Qed.

Lemma vga_ok_VgaWriteSequencer Data s s' :
  vga_ok s -> is_BYTE Data -> VgaWriteSequencer Data s = Some s' -> vga_ok s'.
Proof.
  intros Hok HD. unfold VgaWriteSequencer.
  destruct (ASSERT _); simpl; [|done].
  destruct (array_set _ _ _) as [regs|] eqn:Hset; simpl; [|done].
  intros [= <-]. pose proof (array_set_length _ _ _ _ Hset).
  pose proof (array_set_bytes _ _ _ _ Hset HD).
  destruct Hok; split; simpl; auto; congruence.
Qed.

Lemma vga_ok_VgaWriteAc Data s s' :
  vga_ok s -> is_BYTE Data -> VgaWriteAc Data s = Some s' -> vga_ok s'.
Proof.
  intros Hok HD. unfold VgaWriteAc.
  destruct (ASSERT _); simpl; [|done].
  destruct (array_set _ _ _) as [regs|] eqn:Hset; simpl; [|done].
  intros [= <-]. pose proof (array_set_length _ _ _ _ Hset).
  pose proof (array_set_bytes _ _ _ _ Hset HD).
  destruct Hok; split; simpl; auto; congruence.
Qed.

Lemma vga_ok_VgaWriteGc Data s s' :
  vga_ok s -> is_BYTE Data -> VgaWriteGc Data s = Some s' -> vga_ok s'.
Proof.
  intros Hok HD. unfold VgaWriteGc.
  destruct (ASSERT _); simpl; [|done].
  destruct (array_set _ _ _) as [regs|] eqn:Hset; simpl; [|done].
  intros [= <-]. pose proof (array_set_length _ _ _ _ Hset).
  pose proof (array_set_bytes _ _ _ _ Hset HD).
  assert (vga_ok (set_VgaGcRegisters regs s)) as Hok'
    by (destruct Hok; split; simpl; auto; congruence).
  repeat match goal with
         | |- vga_ok (if ?c then _ else _) => destruct c
         end; exact Hok' || (eapply vga_ok_registers; [|exact Hok']; reflexivity).
Qed.

Lemma vga_ok_VgaWriteCrtc Data s s' :
  vga_ok s -> is_BYTE Data -> VgaWriteCrtc Data s = Some s' -> vga_ok s'.
Proof.
  intros Hok HD. unfold VgaWriteCrtc.
  destruct (ASSERT _); simpl; [|done].
  destruct (array_set _ _ _) as [regs|] eqn:Hset; simpl; [|done].
  intros [= <-]. pose proof (array_set_length _ _ _ _ Hset).
  pose proof (array_set_bytes _ _ _ _ Hset HD).
  assert (vga_ok (set_VgaCrtcRegisters regs s)) as Hok'
    by (destruct Hok; split; simpl; auto; congruence).
  repeat match goal with
         | |- vga_ok (if ?c then _ else _) => destruct c
         end; exact Hok' || (eapply vga_ok_registers; [|exact Hok']; reflexivity).
Qed.

Lemma vga_ok_VgaWriteDac Data s s' :
  vga_ok s -> is_BYTE Data -> VgaWriteDac Data s = Some s' -> vga_ok s'.
Proof.
  intros Hok HD. unfold VgaWriteDac.
  destruct (array_set _ _ _) as [regs|] eqn:Hset; simpl; [|done].
  intros [= <-]. pose proof (array_set_length _ _ _ _ Hset).
  pose proof (array_set_bytes _ _ _ _ Hset HD).
  pose proof (dac_index_range (to_BYTE (VgaDacIndex s + 1))
                (to_BYTE_nonneg _)).
  destruct Hok; split; simpl; auto; congruence.
Qed.

Lemma land_0x3F Data : Z.land Data 0x3F = Data mod 64.
Proof. apply (Z.land_ones Data 6). lia. Qed.

Lemma is_BYTE_land_0x3F Data : is_BYTE (Z.land Data 0x3F).
Proof.
  rewrite land_0x3F. unfold is_BYTE.
  pose proof (Z.mod_pos_bound Data 64 eq_refl). lia.
Qed.

(** A port write with a [BYTE] keeps the invariant. *)
Lemma vga_ok_VgaWritePort Port Data s s' :
  vga_ok s -> is_BYTE Data -> VgaWritePort Port Data s = Some s' -> vga_ok s'.
Proof.
  intros Hok HD. revert s'. unfold VgaWritePort.
  apply (switch_cases (fun r => forall s', r = Some s' -> vga_ok s'));
    [|by intros s' [= <-]].
  assert (0 <= Data) as H0 by (unfold is_BYTE in HD; lia).
  repeat apply Forall_cons_2; try apply Forall_nil_2; simpl; intros s'.
  - destruct (VgaAcLatch s); simpl.
    + destruct (VgaWriteAc Data s) as [s1|] eqn:Hw; simpl; [|done].
      intros [= <-]. pose proof (vga_ok_VgaWriteAc _ _ _ Hok HD Hw) as [].
      split; simpl; auto.
    + intros [= <-]. destruct (Z.ltb_spec Data VGA_AC_MAX_REG);
        destruct Hok; split; simpl; auto.
  - intros [= <-]. destruct (Z.ltb_spec Data VGA_SEQ_MAX_REG);
      destruct Hok; split; simpl; auto.
  - by apply vga_ok_VgaWriteSequencer.
  - intros [= <-].
    pose proof (dac_index_range Data H0).
    destruct Hok; split; simpl; auto.
  - intros [= <-].
    pose proof (dac_index_range Data H0).
    destruct Hok; split; simpl; auto.
  - destruct (VgaDacReadWrite s); [|by intros [= <-]].
    apply vga_ok_VgaWriteDac; [done|]. apply is_BYTE_land_0x3F.
  - intros [= <-]. destruct Hok; split; simpl; auto.
  - intros [= <-]. destruct (Z.ltb_spec Data VGA_CRTC_MAX_REG);
      destruct Hok; split; simpl; auto.
  - by apply vga_ok_VgaWriteCrtc.
  - intros [= <-]. destruct (Z.ltb_spec Data VGA_GC_MAX_REG);
      destruct Hok; split; simpl; auto.
  - by apply vga_ok_VgaWriteGc.
Qed.

(** A port read keeps the invariant. *)
Lemma vga_ok_VgaReadPort Port s v s' :
  vga_ok s -> VgaReadPort Port s = Some (v, s') -> vga_ok s'.
Proof.
  intros Hok. revert v s'. unfold VgaReadPort.
  apply (switch_cases (fun r => forall v s', r = Some (v, s') -> vga_ok s'));
    [|by intros v s' [= <- <-]].
  repeat apply Forall_cons_2; try apply Forall_nil_2; simpl; intros v s';
    try (by intros [= <- <-]);
    try (by intros (? & ? & [= <- <-])%bind_Some);
    try (intros [= <- <-]; by destruct Hok; split; simpl; auto).
  destruct (VgaDacReadWrite s); simpl; [by intros [= <- <-]|].
  intros (? & ? & [= <- <-])%bind_Some.
  pose proof (dac_index_range (to_BYTE (VgaDacIndex s + 1))
                (to_BYTE_nonneg _)).
  destruct Hok; split; simpl; auto.
Qed.

End Invariant.

(** ** What the entry points leave alone *)

Section Frame.
Context `{vga_h}.

Lemma only_memory_refl s : only_memory s s.
Proof. by destruct s. Qed.

Lemma only_memory_trans s1 s2 s3 :
  only_memory s1 s2 -> only_memory s2 s3 -> only_memory s1 s3.
Proof. unfold only_memory. intros -> ->. reflexivity. Qed.

Lemma VgaMemory_set_only_memory Index Data s s' :
  VgaMemory_set Index Data s = Some s' -> only_memory s s'.
Proof.
  unfold VgaMemory_set. destruct (_ && _); [|done]. by intros [= <-].
Qed.

Lemma VgaWritePlane_only_memory Address Buffer VideoAddress i j s s' :
  VgaWritePlane Address Buffer VideoAddress i j s = Some s' ->
  only_memory s s'.
Proof.
  unfold VgaWritePlane. intros Hw.
  apply bind_Some in Hw as (mask & _ & Hw).
  destruct (negb _); [injection Hw as <-; apply only_memory_refl|].
  apply bind_Some in Hw as (mem & _ & Hw).
  destruct (_ && _); [injection Hw as <-; apply only_memory_refl|].
  apply bind_Some in Hw as (mode & _ & Hw).
  destruct (_ && _); [injection Hw as <-; apply only_memory_refl|].
  apply bind_Some in Hw as (Data & _ & Hw).
  by eapply VgaMemory_set_only_memory.
Qed.

(** [VgaWriteMemory] changes the video memory and nothing else. *)
Lemma VgaWriteMemory_only_memory Address Buffer Size s s' :
  VgaWriteMemory Address Buffer Size s = Some s' -> only_memory s s'.
Proof.
  unfold VgaWriteMemory.
  destruct (negb _); [intros [= <-]; apply only_memory_refl|].
  intros (mask & _ & Hw)%bind_Some.
  destruct (_ =? _); [injection Hw as <-; apply only_memory_refl|].
  eapply (for_loop_invariant (only_memory s)); [|exact Hw|apply only_memory_refl].
  intros i a b (VideoAddress & _ & Hb)%bind_Some Ha.
  eapply only_memory_trans; [exact Ha|].
  eapply (for_loop_invariant (only_memory a)); [|exact Hb|apply only_memory_refl].
  intros j c d Hd Hc. eapply only_memory_trans; [exact Hc|].
  by eapply VgaWritePlane_only_memory.
Qed.

End Frame.

Section DisplayFrame.
Context `{vga_h}.

Ltac scan_only_eq :=
  lazymatch goal with
  | |- scan_only _ ?s' =>
      exists (ConsoleFramebuffer s'), (NeedsUpdate s'), (UpdateRectangle s'),
        (HostCalls s'); reflexivity
  end.

Lemma scan_only_refl s : scan_only s s.
Proof. exists (ConsoleFramebuffer s), (NeedsUpdate s), (UpdateRectangle s),
         (HostCalls s). by destruct s. Qed.

Lemma scan_only_trans s1 s2 s3 :
  scan_only s1 s2 -> scan_only s2 s3 -> scan_only s1 s3.
Proof.
  intros (fb & nu & ur & hc & ->) (fb' & nu' & ur' & hc' & ->).
  by exists fb', nu', ur', hc'.
Qed.

Lemma scan_only_registers s s' : scan_only s s' -> registers s' = registers s.
Proof. by intros (fb & nu & ur & hc & ->). Qed.

Lemma scan_only_TextMode s s' : scan_only s s' -> TextMode s' = TextMode s.
Proof. by intros (fb & nu & ur & hc & ->). Qed.

Lemma scan_only_CursorMoved s s' :
  scan_only s s' -> CursorMoved s' = CursorMoved s.
Proof. by intros (fb & nu & ur & hc & ->). Qed.

Lemma VgaUpdatePixel_scan_only Resolution Address AddressSize i j s s' :
  VgaUpdatePixel Resolution Address AddressSize i j s = Some s' ->
  scan_only s s'.
Proof.
  unfold VgaUpdatePixel.
  intros (PixelData & _ & (old & _ & Hu)%bind_Some)%bind_Some.
  destruct (old =? PixelData); [injection Hu as <-; apply scan_only_refl|].
  apply bind_Some in Hu as (s1 & Hs1 & [= <-]).
  unfold GraphicsBuffer_set in Hs1.
  destruct (ConsoleFramebuffer s); try done.
  apply bind_Some in Hs1 as (pixels' & _ & [= <-]).
  scan_only_eq.
Qed.

Lemma VgaUpdateCell_scan_only Resolution Address AddressSize i j s s' :
  VgaUpdateCell Resolution Address AddressSize i j s = Some s' ->
  scan_only s s'.
Proof.
  unfold VgaUpdateCell.
  intros (char & _ & (attr & _ & (old & _ & Hu)%bind_Some)%bind_Some)%bind_Some.
  destruct (_ && _); [injection Hu as <-; apply scan_only_refl|].
  apply bind_Some in Hu as (s1 & Hs1 & [= <-]).
  unfold CharBuffer_set in Hs1.
  destruct (ConsoleFramebuffer s); try done.
  apply bind_Some in Hs1 as (cells' & _ & [= <-]).
  scan_only_eq.
Qed.

(** An invariant of the update of a pixel or cell is an invariant of the
    scan. *)
Lemma VgaScan_invariant (P : vga -> Prop) update Resolution ScanlineSize
    Address s s' :
  (forall A i j a b, update A i j a = Some b -> P a -> P b) ->
  VgaScan update Resolution ScanlineSize Address s = Some s' ->
  P s -> P s'.
Proof.
  intros Hupdate. unfold VgaScan.
  intros ([A s1] & Hl & ->)%fmap_Some Hs. simpl.
  apply (for_loop_invariant (fun p => P p.2) _ _ _ _ _) in Hl; [done| |done].
  intros i [A0 a] [A1 b]; simpl.
  intros (a' & Ha' & [= <- <-])%bind_Some Ha.
  apply (for_loop_invariant P) in Ha'; [done| |done].
  intros j c d Hd Hc. by eapply Hupdate.
Qed.

Lemma VgaScan_scan_only update Resolution ScanlineSize Address s s' :
  (forall A i j a b, update A i j a = Some b -> scan_only a b) ->
  VgaScan update Resolution ScanlineSize Address s = Some s' ->
  scan_only s s'.
Proof.
  intros Hupdate. unfold VgaScan.
  intros ([A s1] & Hl & ->)%fmap_Some. simpl.
  apply (for_loop_invariant (fun p => scan_only s p.2) _ _ _ _ _)
    in Hl; [done| |apply scan_only_refl].
  intros i [A0 a] [A1 b]; simpl.
  intros (a' & Ha' & [= <- <-])%bind_Some Ha.
  apply (for_loop_invariant (fun x => scan_only s x)) in Ha';
    [done| |done].
  intros j c d Hd Hc. eapply scan_only_trans; [exact Hc|]. by eapply Hupdate.
Qed.

(** The scan-out changes the framebuffer, the update rectangle with its
    flag and the log of host calls, and nothing else. *)
Lemma VgaUpdateFramebuffer_scan_only s s' :
  VgaUpdateFramebuffer s = Some s' -> scan_only s s'.
Proof.
  unfold VgaUpdateFramebuffer. intros Hu.
  repeat (apply bind_Some in Hu as (? & _ & Hu)).
  destruct (bits _ _).
  - apply bind_Some in Hu as (s1 & Hs1 & [= <-]).
    apply VgaScan_scan_only in Hs1;
      [|intros; by eapply VgaUpdatePixel_scan_only].
    destruct Hs1 as (fb & nu & ur & hc & ->). scan_only_eq.
  - apply VgaScan_scan_only in Hu; [done|].
    intros. by eapply VgaUpdateCell_scan_only.
Qed.

Lemma VgaUpdateFramebuffer_registers s s' :
  VgaUpdateFramebuffer s = Some s' -> registers s' = registers s.
Proof. intros Hu. by apply scan_only_registers, VgaUpdateFramebuffer_scan_only. Qed.

Lemma VgaUpdateTextCursor_registers s s' :
  VgaUpdateTextCursor s = Some s' -> registers s' = registers s.
Proof.
  unfold VgaUpdateTextCursor. intros Hu.
  repeat (apply bind_Some in Hu as (? & _ & Hu)).
  destruct (_ <? _); apply bind_Some in Hu as (? & _ & Hu);
    by injection Hu as <-.
Qed.

Lemma VgaUpdateMode_registers h s s' :
  VgaUpdateMode h s = Some s' -> registers s' = registers s.
Proof.
  unfold VgaUpdateMode.
  intros (Resolution & _ & (misc & _ & Hu)%bind_Some)%bind_Some.
  apply bind_Some in Hu as ([entered s1] & Hs1 & Hu).
  assert (registers s1 = registers s) as <-.
  { unfold VgaEnterTextMode, VgaEnterGraphicsMode,
      VgaLeaveGraphicsMode, VgaLeaveTextMode in Hs1.
    simpl in Hs1.
    destruct (TextMode s), (ConsoleFramebuffer s),
      (bits misc VGA_GC_MISC_NOALPHA),
      (HeapAlloc_ok h), (CreateConsoleScreenBuffer_ok h);
      simpl in Hs1; by injection Hs1 as <- <-. }
  destruct entered; by injection Hu as <-.
Qed.

(** A refresh leaves the video memory and the register file as they are. *)
Lemma VgaRefreshDisplay_registers h s s' :
  VgaRefreshDisplay h s = Some s' -> registers s' = registers s.
Proof.
  unfold VgaRefreshDisplay.
  intros (Resolution & _ & (s1 & Hs1 & (s2 & Hs2 & Hr)%bind_Some)%bind_Some)
    %bind_Some.
  assert (registers s1 = registers s) as <-.
  { destruct (ModeChanged s); [|by injection Hs1 as <-].
    apply bind_Some in Hs1 as (s0 & Hs0 & [= <-]).
    by apply VgaUpdateMode_registers in Hs0. }
  assert (registers s2 = registers s1) as <-.
  { destruct (CursorMoved s1); [|by injection Hs2 as <-].
    apply bind_Some in Hs2 as (s0 & Hs0 & [= <-]).
    by apply VgaUpdateTextCursor_registers in Hs0. }
  apply bind_Some in Hr as (s3 & Hs3 & Hr).
  apply VgaUpdateFramebuffer_registers in Hs3 as <-.
  destruct (negb _); [by injection Hr as <-|].
  apply bind_Some in Hr as (misc & _ & [= <-]).
  by destruct (bits _ _).
Qed.

End DisplayFrame.

(** ** Bank indices and the AC latch *)

Section Indices.
Context `{vga_h} {Hh : vga_h_ok}.

Lemma vga_ok_port_writes l s s' :
  vga_ok s -> Forall (fun w => is_BYTE w.2) l -> port_writes l s = Some s' ->
  vga_ok s'.
Proof.
  intros Hok Hl. revert s Hok.
  induction Hl as [|[Port Data] l HD _ IH]; intros s Hok; simpl.
  - by intros [= <-].
  - intros (s1 & Hs1 & Hs')%bind_Some. eapply IH; [|exact Hs'].
    by eapply vga_ok_VgaWritePort.
Qed.

Lemma vga_ok_VgaMemory_set Index Data s s' :
  vga_ok s -> VgaMemory_set Index Data s = Some s' -> vga_ok s'.
Proof.
  intros Hok Hs'%VgaMemory_set_only_memory. rewrite Hs'.
  destruct Hok; split; simpl; auto.
Qed.

Lemma vga_ok_VgaInitialize BiosSetVideoMode h console s s' :
  vga_ok s -> Forall (fun w => is_BYTE w.2) BiosSetVideoMode ->
  VgaInitialize BiosSetVideoMode h console s = Some s' -> vga_ok s'.
Proof.
  intros Hok Hbios. unfold VgaInitialize.
  intros (s1 & Hs1 & (s2 & Hs2 & Hi)%bind_Some)%bind_Some.
  apply vga_ok_port_writes in Hs1;
    [|by destruct Hok; split; simpl; auto|done].
  apply VgaUpdateMode_registers in Hs2.
  do 3 (apply bind_Some in Hi as (? & _ & Hi)).
  apply bind_Some in Hi as (s3 & Hs3 & Hi).
  assert (vga_ok s3) as Hok3.
  { unfold VgaReadConsole in Hs3. simpl in Hs3.
    destruct (ConsoleFramebuffer s2); try done. injection Hs3 as <-.
    eapply vga_ok_registers; [|exact Hs1]. by rewrite <- Hs2. }
  eapply (VgaScan_invariant vga_ok); [|exact Hi|exact Hok3].
  intros A i j a b (cell & _ & (a' & Ha' & Hb)%bind_Some)%bind_Some Ha.
  eapply vga_ok_VgaMemory_set; [|exact Hb].
  by eapply vga_ok_VgaMemory_set.
Qed.

(** Every state the emulator reaches satisfies the invariant. *)
Lemma reachable_vga_ok s : reachable s -> vga_ok s.
Proof.
  unfold reachable. revert s. apply rtc_ind_r; [apply vga_ok_reset|].
  intros s1 s2 _ Hstep IH.
  destruct Hstep as [Port s1 v s2 Hp|Port Data s1 s2 HD Hp
                    |Address Buffer Size s1 s2 HB Hw|s1|h s1 s2 Hr
                    |bios h console s1 s2 Hbios Hinit].
  - by eapply vga_ok_VgaReadPort.
  - by eapply vga_ok_VgaWritePort.
  - apply VgaWriteMemory_only_memory in Hw. rewrite Hw.
    destruct IH; split; simpl; auto.
  - destruct IH; split; simpl; auto.
  - apply VgaRefreshDisplay_registers in Hr. by eapply vga_ok_registers.
  - by eapply vga_ok_VgaInitialize.
Qed.

(** C9, as amended.  A write to the index port of a bank with data at or
    above the size of the bank is dropped: for [VGA_SEQ_INDEX],
    [VGA_GC_INDEX] and [VGA_CRTC_INDEX] the state stays as it is; for
    [VGA_AC_INDEX] in its index phase the index and the rest of the state
    stay as they are but for the latch, which toggles to true.  In every
    reachable state the index of each bank is below the size of the bank. *)
Theorem index_write_out_of_range (s : vga) (Data : Z) :
  (VGA_SEQ_MAX_REG <= Data -> VgaWritePort VGA_SEQ_INDEX Data s = Some s)
  /\ (VGA_GC_MAX_REG <= Data -> VgaWritePort VGA_GC_INDEX Data s = Some s)
  /\ (VGA_CRTC_MAX_REG <= Data -> VgaWritePort VGA_CRTC_INDEX Data s = Some s)
  /\ (VGA_AC_MAX_REG <= Data -> VgaAcLatch s = false ->
      VgaWritePort VGA_AC_INDEX Data s = Some (set_VgaAcLatch true s))
  /\ (reachable s ->
      0 <= VgaSeqIndex s < VGA_SEQ_MAX_REG
      /\ 0 <= VgaGcIndex s < VGA_GC_MAX_REG
      /\ 0 <= VgaCrtcIndex s < VGA_CRTC_MAX_REG
      /\ 0 <= VgaAcIndex s < VGA_AC_MAX_REG).
Proof.
  split; [|split; [|split; [|split]]].
  - intros HD. rewrite VgaWritePort_SEQ_INDEX.
    by destruct (Z.ltb_spec Data VGA_SEQ_MAX_REG); [lia|].
  - intros HD. rewrite VgaWritePort_GC_INDEX.
    by destruct (Z.ltb_spec Data VGA_GC_MAX_REG); [lia|].
  - intros HD. rewrite VgaWritePort_CRTC_INDEX.
    by destruct (Z.ltb_spec Data VGA_CRTC_MAX_REG); [lia|].
  - intros HD Hlatch. rewrite VgaWritePort_AC_INDEX, Hlatch. simpl.
    unfold ac_index_set. destruct (Z.ltb_spec Data VGA_AC_MAX_REG); [lia|].
    simpl. by rewrite Hlatch.
  - intros Hr. apply reachable_vga_ok in Hr. by destruct Hr.
Qed.

#[local] Arguments ac_index_set : simpl never.
#[local] Arguments ac_data_write : simpl never.

(** One write to [VGA_AC_INDEX] is one step of the alternation, in the
    phase the latch stands for. *)
Lemma VgaWritePort_AC_INDEX_step Data s :
  vga_ok s ->
  VgaWritePort VGA_AC_INDEX Data s
  = Some (ac_alternate (negb (VgaAcLatch s)) [Data] s).
Proof.
  intros Hok. rewrite VgaWritePort_AC_INDEX.
  destruct (VgaAcLatch s) eqn:Hlatch; simpl.
  - unfold ac_data_write, VgaWriteAc.
    destruct Hok as [_ _ _ Hlen _ _ _ _ _ _ _ _ _ Hidx _].
    destruct (Z.ltb_spec (VgaAcIndex s) VGA_AC_MAX_REG); [|lia]. simpl.
    rewrite array_set_Some by lia. simpl. by rewrite Hlatch.
  - unfold ac_index_set. simpl.
    destruct (Data <? VGA_AC_MAX_REG); simpl; by rewrite Hlatch.
Qed.

(** The writes to [VGA_AC_INDEX] are defined under the invariant, and are
    the alternation of index sets and data writes that starts in the phase
    the latch stands for. *)
Lemma port_writes_AC_INDEX ds : forall s,
  vga_ok s -> Forall is_BYTE ds ->
  port_writes (writes_to VGA_AC_INDEX ds) s
  = Some (ac_alternate (negb (VgaAcLatch s)) ds s).
Proof.
  induction ds as [|Data ds IH]; intros s Hok Hds; [done|].
  apply Forall_cons in Hds as [HD Hds].
  pose proof (VgaWritePort_AC_INDEX_step Data s Hok) as Hstep.
  change (port_writes (writes_to VGA_AC_INDEX (Data :: ds)) s)
    with (s' ← VgaWritePort VGA_AC_INDEX Data s;
          port_writes (writes_to VGA_AC_INDEX ds) s').
  rewrite Hstep. cbn [mbind option_bind].
  rewrite IH; [|by eapply vga_ok_VgaWritePort|done].
  cbn [ac_alternate VgaAcLatch set_VgaAcLatch]. by rewrite negb_involutive.
Qed.

(** Each write of the alternation toggles the latch. *)
Lemma ac_alternate_latch ds : forall index_phase s,
  VgaAcLatch s = negb index_phase ->
  VgaAcLatch (ac_alternate index_phase ds s)
  = xorb (VgaAcLatch s) (Nat.odd (length ds)).
Proof.
  induction ds as [|Data ds IH]; intros index_phase s Hlatch.
  - cbn. by destruct (VgaAcLatch s).
  - cbn [ac_alternate length]. rewrite IH.
    + cbn [VgaAcLatch set_VgaAcLatch]. rewrite Hlatch, Nat.odd_succ.
      rewrite <- Nat.negb_odd.
      by destruct index_phase, (Nat.odd (length ds)).
    + cbn [VgaAcLatch set_VgaAcLatch]. by rewrite negb_involutive.
Qed.

(** C5.  Writes to [VGA_AC_INDEX] alternate strictly, whatever the state of
    the latch before: [N] writes are the alternation [ac_alternate] of index
    sets and data writes, the first an index set if the latch is clear and a
    data write if it is set, and each toggles the latch, so that counted
    from a clear latch the even-numbered writes set the AC index, the
    odd-numbered ones store AC register data, and the latch is set after
    [N] of them exactly when [N] is odd.  A read of [VGA_STAT_MONO] or
    [VGA_STAT_COLOR] in any state, latched or not, clears the latch and
    leaves the AC index and the AC registers as they are, so that the
    writes to [VGA_AC_INDEX] after it start with an index set. *)
Theorem VgaAcLatch_alternates (s : vga) (ds : list Z) :
  vga_ok s -> Forall is_BYTE ds ->
  port_writes (writes_to VGA_AC_INDEX ds) s
  = Some (ac_alternate (negb (VgaAcLatch s)) ds s)
  /\ VgaAcLatch (ac_alternate (negb (VgaAcLatch s)) ds s)
     = xorb (VgaAcLatch s) (Nat.odd (length ds))
  /\ (forall Port,
        Port = VGA_STAT_MONO \/ Port = VGA_STAT_COLOR ->
        exists r s1,
          VgaReadPort Port s = Some (r, s1)
          /\ VgaAcLatch s1 = false
          /\ VgaAcIndex s1 = VgaAcIndex s
          /\ VgaAcRegisters s1 = VgaAcRegisters s
          /\ port_writes (writes_to VGA_AC_INDEX ds) s1
             = Some (ac_alternate true ds s1)).
Proof.
  intros Hok Hds. split; [by apply port_writes_AC_INDEX|]. split.
  - apply ac_alternate_latch. by rewrite negb_involutive.
  - intros Port HPort. exists (read_status s).1, (read_status s).2.
    split.
    { destruct HPort as [-> | ->];
        rewrite ?VgaReadPort_STAT_MONO, ?VgaReadPort_STAT_COLOR;
        by rewrite <- surjective_pairing. }
    split; [done|]. split; [done|]. split; [done|].
    assert (vga_ok (read_status s).2) as Hok1
      by (by destruct Hok; split).
    by rewrite (port_writes_AC_INDEX ds _ Hok1 Hds).
Qed.

End Indices.

Section IndicesStd.
#[local] Existing Instance vga_h_std.

Lemma index_write_out_of_range_witness :
  VgaWritePort VGA_SEQ_INDEX 255 vga_reset = Some vga_reset.
Proof.
  apply (proj1 (@index_write_out_of_range vga_h_std vga_h_std_ok
                  vga_reset 255)).
  vm_compute. congruence.
Defined.

(** C9 as stated fails for [VGA_AC_INDEX]: in the index phase a write of
    255, which is no AC register, changes the state, since it toggles the
    latch. *)
Lemma index_write_out_of_range_counterexample :
  VgaAcLatch vga_reset = false
  /\ VGA_AC_MAX_REG <= 255
  /\ VgaWritePort VGA_AC_INDEX 255 vga_reset <> Some vga_reset
  /\ VgaAcLatch <$> VgaWritePort VGA_AC_INDEX 255 vga_reset = Some true.
Proof.
  split; [reflexivity|]. split; [vm_compute; congruence|]. split.
  - intros Heq. apply (f_equal (fmap VgaAcLatch)) in Heq.
    vm_compute in Heq. discriminate.
  - vm_compute. reflexivity.
Qed.

Lemma VgaAcLatch_alternates_witness :
  exists r s1,
    VgaReadPort VGA_STAT_COLOR (set_VgaAcLatch true vga_reset) = Some (r, s1)
    /\ VgaAcLatch s1 = false
    /\ port_writes (writes_to VGA_AC_INDEX [16; 64; 17]) s1
       = Some (ac_alternate true [16; 64; 17] s1)
    /\ port_writes (writes_to VGA_AC_INDEX [16; 64; 17])
         (set_VgaAcLatch true vga_reset)
       = Some (ac_alternate false [16; 64; 17]
                 (set_VgaAcLatch true vga_reset)).
Proof.
  destruct (@VgaAcLatch_alternates vga_h_std vga_h_std_ok
              (set_VgaAcLatch true vga_reset) [16; 64; 17]
              ltac:(by destruct vga_reset_std_ok; split)
              ltac:(repeat constructor; vm_compute; congruence))
    as (Hwrites & _ & Hstatus).
  destruct (Hstatus VGA_STAT_COLOR (or_intror eq_refl))
    as (r & s1 & Hread & Hlatch & _ & _ & Hafter).
  exact (ex_intro _ r (ex_intro _ s1
           (conj Hread (conj Hlatch (conj Hafter Hwrites))))).
Defined.

End IndicesStd.

(** ** Memory access while disabled *)

Section Disabled.
Context `{vga_h}.

(** C8.  When [VGA_MISC_RAM_ENABLED] is clear in the Misc register,
    [VgaReadMemory] hands the caller's buffer back as it was and
    [VgaWriteMemory] leaves the state as it was; [VgaWriteMemory] also leaves
    the state as it was whenever the low nibble of the plane mask is zero. *)
Theorem memory_access_disabled (s : vga) (Address : Z) (Buffer : list Z)
    (Size : Z) :
  (bits (VgaMiscRegister s) VGA_MISC_RAM_ENABLED = false ->
   VgaReadMemory Address Buffer Size s = Some Buffer
   /\ VgaWriteMemory Address Buffer Size s = Some s)
  /\ (forall mask,
        array_get (VgaSeqRegisters s) VGA_SEQ_MASK_REG = Some mask ->
        Z.land mask 0x0F = 0 ->
        VgaWriteMemory Address Buffer Size s = Some s).
Proof.
  split.
  - intros Hram. unfold VgaReadMemory, VgaWriteMemory. by rewrite Hram.
  - intros mask Hmask Hnibble. unfold VgaWriteMemory.
    destruct (negb _); [done|]. rewrite Hmask. simpl.
    by rewrite Hnibble.
Qed.

End Disabled.

Section DisabledStd.
#[local] Existing Instance vga_h_std.

Lemma memory_access_disabled_witness :
  VgaReadMemory 0xA0000 (replicate 64 0x55) 64 vga_reset
  = Some (replicate 64 0x55)
  /\ VgaWriteMemory 0xA0000 (replicate 64 0x55) 64 vga_reset = Some vga_reset.
Proof.
  apply (proj1 (@memory_access_disabled vga_h_std vga_reset 0xA0000
                  (replicate 64 0x55) 64)).
  reflexivity.
Defined.

End DisabledStd.

(** ** The DAC *)

Section DacIndex.
Context `{vga_h} {Hh : vga_h_ok}.

Lemma dac_period_pos : 0 < dac_period.
Proof. unfold dac_period. pose proof VGA_PALETTE_SIZE_pos. lia. Qed.

Lemma dac_index_start k :
  is_BYTE k -> to_BYTE (Z.rem k VGA_PALETTE_SIZE) = k mod dac_period.
Proof.
  unfold is_BYTE, to_BYTE, dac_period. intros Hk.
  pose proof VGA_PALETTE_SIZE_pos as HP.
  rewrite Z.rem_mod_nonneg by lia.
  pose proof (Z.mod_pos_bound k VGA_PALETTE_SIZE HP).
  destruct (Z.min_spec VGA_PALETTE_SIZE 256) as [[Hlt ->]|[Hle ->]].
  - apply Z.mod_small. lia.
  - rewrite (Z.mod_small k VGA_PALETTE_SIZE) by lia. done.
Qed.

Lemma dac_index_next i :
  0 <= i < dac_period ->
  to_BYTE (Z.rem (to_BYTE (i + 1)) VGA_PALETTE_SIZE) = (i + 1) mod dac_period.
Proof.
  unfold to_BYTE, dac_period. intros Hi.
  pose proof VGA_PALETTE_SIZE_pos as HP.
  pose proof (Z.mod_pos_bound (i + 1) 256 eq_refl).
  rewrite Z.rem_mod_nonneg by lia.
  destruct (Z.min_spec VGA_PALETTE_SIZE 256) as [[Hlt Hm]|[Hle Hm]];
    rewrite Hm in *.
  - rewrite (Z.mod_small (i + 1) 256) by lia.
    pose proof (Z.mod_pos_bound (i + 1) VGA_PALETTE_SIZE HP).
    apply Z.mod_small. lia.
  - rewrite (Z.mod_small ((i + 1) mod 256) VGA_PALETTE_SIZE) by lia.
    apply Z.mod_small. lia.
Qed.

(** One write to [VGA_DAC_DATA] in write mode stores the low six bits of
    the byte at the DAC index and advances the index. *)
Lemma VgaWritePort_DAC_DATA_write_mode Data s :
  vga_ok s -> VgaDacReadWrite s = true -> 0 <= VgaDacIndex s < dac_period ->
  exists s',
    VgaWritePort VGA_DAC_DATA Data s = Some s'
    /\ VgaDacReadWrite s' = true
    /\ VgaDacIndex s' = (VgaDacIndex s + 1) mod dac_period
    /\ VgaDacRegisters s'
       = <[Z.to_nat (VgaDacIndex s) := Z.land Data 0x3F]> (VgaDacRegisters s).
Proof.
  intros Hok Hrw Hidx. rewrite VgaWritePort_DAC_DATA, Hrw.
  unfold VgaWriteDac.
  destruct Hok as [_ _ _ _ Hlen _ _ _ _ _ _ _ _ _ [Hb HP]].
  rewrite array_set_Some by lia. simpl.
  eexists. split; [done|]. simpl. split; [done|]. split; [|done].
  by apply dac_index_next.
Qed.

Lemma mod_shift_ne m t :
  0 < t < dac_period -> (m + t) mod dac_period <> m mod dac_period.
Proof.
  intros Ht. pose proof dac_period_pos as Hp.
  rewrite <- Z.add_mod_idemp_l by lia.
  pose proof (Z.mod_pos_bound m dac_period Hp) as Hr.
  set (r := m mod dac_period) in *.
  destruct (Z.lt_ge_cases (r + t) dac_period).
  - rewrite Z.mod_small by lia. lia.
  - replace (r + t) with (r + t - dac_period + 1 * dac_period) by lia.
    rewrite Z.mod_add by lia. rewrite Z.mod_small by lia. lia.
Qed.

(** [n] writes to [VGA_DAC_DATA] in write mode, from the index
    [m mod dac_period]. *)
Lemma dac_data_writes ds s m :
  vga_ok s -> Forall is_BYTE ds -> VgaDacReadWrite s = true ->
  VgaDacIndex s = m mod dac_period ->
  exists s',
    port_writes (writes_to VGA_DAC_DATA ds) s = Some s'
    /\ VgaDacIndex s' = (m + Z.of_nat (length ds)) mod dac_period
    /\ (forall q : nat,
          (forall j, (j < length ds)%nat ->
                     (m + Z.of_nat j) mod dac_period <> Z.of_nat q) ->
          VgaDacRegisters s' !! q = VgaDacRegisters s !! q)
    /\ (forall (j : nat) d,
          ds !! j = Some d ->
          Z.of_nat (length ds) <= Z.of_nat j + dac_period ->
          VgaDacRegisters s' !! Z.to_nat ((m + Z.of_nat j) mod dac_period)
          = Some (Z.land d 0x3F)).
Proof.
  intros Hok Hds. revert s m Hok.
  pose proof dac_period_pos as Hp.
  induction Hds as [|d ds Hd Hds IH]; intros s m Hok Hrw Hidx.
  - exists s. simpl. rewrite Z.add_0_r. by repeat split.
  - pose proof (Z.mod_pos_bound m dac_period Hp) as Hr.
    destruct (VgaWritePort_DAC_DATA_write_mode d s Hok Hrw)
      as (s1 & Hs1 & Hrw1 & Hidx1 & Hregs1); [lia|].
    rewrite Hidx, Z.add_mod_idemp_l in Hidx1 by lia.
    pose proof (vga_ok_VgaWritePort _ _ _ _ Hok Hd Hs1) as Hok1.
    destruct (IH s1 (m + 1) Hok1 Hrw1 Hidx1)
      as (s' & Hs' & Hidx' & Hframe & Hstored).
    exists s'. simpl. rewrite Hs1. simpl. split; [done|]. split; [|split].
    + rewrite Hidx'. f_equal. lia.
    + intros q Hq. rewrite Hframe.
      * rewrite Hregs1, Hidx. apply list_lookup_insert_ne.
        specialize (Hq 0%nat ltac:(lia)). rewrite Z.add_0_r in Hq. lia.
      * intros j Hj. specialize (Hq (S j) ltac:(lia)).
        by replace (m + 1 + Z.of_nat j) with (m + Z.of_nat (S j)) by lia.
    + intros [|j] d' Hj Hlen; simpl in Hj.
      * injection Hj as <-. rewrite Z.add_0_r.
        rewrite <- (Z2Nat.id (m mod dac_period)) at 1 by lia.
        rewrite Nat2Z.id. rewrite Hframe.
        -- rewrite Hregs1, Hidx. apply list_lookup_insert_eq.
           destruct Hok as [_ _ _ _ Hlen' _ _ _ _ _ _ _ _ _ [Hb HP]].
           rewrite Hidx in HP. lia.
        -- intros j Hj. rewrite Z2Nat.id by lia.
           replace (m + 1 + Z.of_nat j) with (m + (1 + Z.of_nat j)) by lia.
           apply mod_shift_ne. lia.
      * replace (m + Z.of_nat (S j)) with (m + 1 + Z.of_nat j) by lia.
        apply Hstored; [done|lia].
Qed.

(** After the write index is set to [k] and the bytes [ds] are written, the
    DAC index is [(k + n) mod dac_period], and among the last [dac_period]
    bytes each is stored with its low six bits. *)
Lemma dac_writes_index k ds s :
  vga_ok s -> is_BYTE k -> Forall is_BYTE ds ->
  exists s',
    port_writes ((VGA_DAC_WRITE_INDEX, k) :: writes_to VGA_DAC_DATA ds) s
    = Some s'
    /\ VgaDacIndex s' = (k + Z.of_nat (length ds)) mod dac_period
    /\ (forall (j : nat) d,
          ds !! j = Some d ->
          Z.of_nat (length ds) <= Z.of_nat j + dac_period ->
          VgaDacRegisters s' !! Z.to_nat ((k + Z.of_nat j) mod dac_period)
          = Some (Z.land d 0x3F)).
Proof.
  intros Hok Hk Hds. simpl. rewrite VgaWritePort_DAC_WRITE_INDEX. simpl.
  destruct (dac_data_writes ds
              (set_VgaDacIndex (to_BYTE (Z.rem k VGA_PALETTE_SIZE))
                 (set_VgaDacReadWrite true s)) k)
    as (s' & Hs' & Hidx & _ & Hstored); try done.
  - eapply vga_ok_VgaWritePort; [exact Hok|exact Hk|].
    apply VgaWritePort_DAC_WRITE_INDEX.
  - simpl. by apply dac_index_start.
  - by exists s'.
Qed.

End DacIndex.

Section DacIndexStd.
#[local] Existing Instance vga_h_std.

(** C6 at the failing input.  With the write index set to 255, one byte
    written to [VGA_DAC_DATA] brings the DAC index to 0, where
    [(255 + 1) mod VGA_PALETTE_SIZE] is 256; the byte itself is stored with
    its low six bits at index 255. *)
Theorem VgaDacIndex_wraps_at_256 :
  exists s,
    port_writes ((VGA_DAC_WRITE_INDEX, 255) :: writes_to VGA_DAC_DATA [0x7F])
      vga_reset = Some s
    /\ VgaDacIndex s = 0
    /\ (255 + 1) mod VGA_PALETTE_SIZE = 256
    /\ VgaDacRegisters s !! 255%nat = Some (Z.land 0x7F 0x3F).
Proof. eexists. vm_compute. repeat split; reflexivity. Qed.

End DacIndexStd.

(** ** Address translation and the planes *)

Section Planes.
Context `{vga_h} {Hh : vga_h_ok}.

(** A register named in the header is read from its bank without fault. *)
Lemma register_get (regs : list Z) (names : list Z) (MAX : Z) (i : nat) r :
  Forall (in_range MAX) names -> names !! i = Some r ->
  Z.of_nat (length regs) = MAX ->
  exists v, array_get regs r = Some v.
Proof.
  intros Hnames Hi Hlen.
  pose proof (Forall_lookup_1 _ _ _ _ Hnames Hi) as Hr. unfold in_range in Hr.
  apply array_get_Some. lia.
Qed.

Lemma land_3 x : Z.land x 3 = x mod 4.
Proof. apply (Z.land_ones x 2). lia. Qed.

Lemma land_1 x : Z.land x 1 = x mod 2.
Proof. apply (Z.land_ones x 1). lia. Qed.

Lemma shiftr_2 x : Z.shiftr x 2 = x / 4.
Proof. apply (Z.shiftr_div_pow2 x 2). lia. Qed.

Lemma to_DWORD_id z : 0 <= z < 4294967296 -> to_DWORD z = z.
Proof. intros. unfold to_DWORD. by apply Z.mod_small. Qed.

(** With the low nibble of the plane mask set, each of the planes 0 to 3 is
    writable. *)
Lemma plane_mask_all mask j :
  Z.land mask 0x0F = 0x0F -> 0 <= j < 4 -> bits mask (Z.shiftl 1 j) = true.
Proof.
  intros Hmask Hj. unfold bits.
  destruct (Z.eqb_spec (Z.land mask (Z.shiftl 1 j)) 0) as [H0|]; [|done].
  exfalso.
  assert (Z.testbit (Z.land mask 0x0F) j = true) as Hb.
  { rewrite Hmask. assert (j = 0 \/ j = 1 \/ j = 2 \/ j = 3) as Hc by lia.
    by destruct Hc as [->|[->|[->| ->]]]. }
  rewrite Z.land_spec in Hb. apply andb_true_iff in Hb as [Hb _].
  apply (f_equal (fun z => Z.testbit z j)) in H0.
  rewrite Z.land_spec, Hb, Z.shiftl_spec, Z.sub_diag, Z.bits_0 in H0 by lia.
  simpl in H0. discriminate.
Qed.

(** The address size is 1, 2 or 4. *)
Lemma VgaGetAddressSize_cases s :
  vga_ok s ->
  exists size,
    VgaGetAddressSize s = Some size /\ (size = 1 \/ size = 2 \/ size = 4).
Proof.
  intros Hok. unfold VgaGetAddressSize.
  destruct (register_get (VgaCrtcRegisters s) crtc_regs VGA_CRTC_MAX_REG
              12%nat VGA_CRTC_UNDERLINE_REG crtc_regs_range eq_refl)
    as (underline & ->); [by destruct Hok|].
  destruct (register_get (VgaCrtcRegisters s) crtc_regs VGA_CRTC_MAX_REG
              13%nat VGA_CRTC_MODE_CONTROL_REG crtc_regs_range eq_refl)
    as (mode & ->); [by destruct Hok|].
  simpl. destruct (bits underline _); [eauto|].
  destruct (bits mode _); eauto.
Qed.

(** The aperture base is one of the entries of [MemoryBase]. *)
Lemma VgaGetVideoBaseAddress_cases s base :
  VgaGetVideoBaseAddress s = Some base ->
  base = 0xA0000 \/ base = 0xB0000 \/ base = 0xB8000.
Proof.
  unfold VgaGetVideoBaseAddress. intros (misc & _ & Hb)%bind_Some.
  unfold array_get in Hb. destruct (0 <=? _); [|done].
  apply list_elem_of_lookup_2 in Hb. unfold MemoryBase in Hb.
  repeat (apply elem_of_cons in Hb as [->|Hb]); auto.
  by apply elem_of_nil in Hb.
Qed.

#[local] Arguments to_DWORD : simpl never.
#[local] Arguments to_BYTE : simpl never.
#[local] Arguments bits : simpl never.
#[local] Arguments array_get : simpl never.
#[local] Arguments array_set : simpl never.
#[local] Arguments VgaWritePlane : simpl never.
#[local] Arguments Z.mul : simpl never.
#[local] Arguments Z.add : simpl never.
#[local] Arguments Z.land : simpl never.
#[local] Arguments Z.shiftl : simpl never.
#[local] Arguments Z.shiftr : simpl never.
#[local] Arguments Z.eqb : simpl never.
#[local] Arguments Z.ltb : simpl never.
#[local] Arguments Z.leb : simpl never.

Lemma set_VgaMemory_eta s : set_VgaMemory (VgaMemory s) s = s.
Proof. by destruct s. Qed.

Lemma VgaMemory_set_defined m s Index Data :
  0 <= Index < VGA_NUM_BANKS * VGA_BANK_SIZE ->
  VgaMemory_set Index Data (set_VgaMemory m s)
  = Some (set_VgaMemory (<[Index := Data]> m) s).
Proof.
  intros HI. unfold VgaMemory_set.
  destruct (Z.leb_spec 0 Index); [|lia].
  by destruct (Z.ltb_spec Index (VGA_NUM_BANKS * VGA_BANK_SIZE)); [|lia].
Qed.

Section Chain4.
Variables (s : vga) (Address Data VideoAddress mem mask : Z).
Hypothesis Hok : vga_ok s.
Hypothesis Hbanks : VGA_NUM_BANKS = 4.
Hypothesis HAddress : 0 <= Address < 4294967296.
Hypothesis Hmem :
  array_get (VgaSeqRegisters s) VGA_SEQ_MEM_REG = Some mem.
Hypothesis HC4 : bits mem VGA_SEQ_MEM_C4 = true.
Hypothesis Hmask :
  array_get (VgaSeqRegisters s) VGA_SEQ_MASK_REG = Some mask.
Hypothesis Hall : Z.land mask 0x0F = 0x0F.
Hypothesis HVideoAddress : 0 <= VideoAddress < VGA_BANK_SIZE.

(** In chain-4 mode with all planes writable, the pass over plane [j] stores
    the byte exactly when [j] is the low two bits of the address. *)
Lemma VgaWritePlane_chain4 m j :
  0 <= j < 4 ->
  VgaWritePlane Address [Data] VideoAddress 0 j (set_VgaMemory m s)
  = Some (set_VgaMemory
            (if Z.land Address 3 =? j
             then <[VideoAddress + j * VGA_BANK_SIZE := Data]> m else m) s).
Proof.
  intros Hj. unfold VgaWritePlane. simpl.
  rewrite Hmask. simpl. rewrite plane_mask_all by done. simpl.
  rewrite Hmem. simpl. rewrite HC4, Z.add_0_r, to_DWORD_id by done. simpl.
  destruct (Z.eqb_spec (Z.land Address 3) j) as [Hp|Hp]; simpl; [|done].
  destruct (register_get (VgaGcRegisters s) gc_regs VGA_GC_MAX_REG
              2%nat VGA_GC_MODE_REG gc_regs_range eq_refl)
    as (mode & ->); [by destruct Hok|].
  simpl.
  assert ((Z.land Address 1 =? Z.land j 1) = true) as ->.
  { apply Z.eqb_eq. rewrite <- Hp, <- Z.land_assoc. done. }
  rewrite andb_false_r.
  pose proof VgaMemory_DWORD. pose proof VGA_BANK_SIZE_pos.
  rewrite to_DWORD_id by nia.
  change (array_get [Data] 0) with (Some Data). simpl.
  apply VgaMemory_set_defined. nia.
Qed.

(** The loop over the planes stores the byte once, on the plane the low two
    bits of the address select. *)
Lemma VgaWritePlane_chain4_loop m :
  for_loop (Z.to_nat VGA_NUM_BANKS) 0
    (VgaWritePlane Address [Data] VideoAddress 0) (set_VgaMemory m s)
  = Some (set_VgaMemory
            (<[VideoAddress + Z.land Address 3 * VGA_BANK_SIZE := Data]> m) s).
Proof.
  rewrite Hbanks. change (Z.to_nat 4) with 4%nat. simpl.
  rewrite VgaWritePlane_chain4 by lia. simpl.
  rewrite VgaWritePlane_chain4 by lia. simpl.
  rewrite VgaWritePlane_chain4 by lia. simpl.
  rewrite VgaWritePlane_chain4 by lia. simpl.
  assert (0 <= Z.land Address 3 < 4) as Hp.
  { rewrite land_3. apply Z.mod_pos_bound. lia. }
  assert (Z.land Address 3 = 0 \/ Z.land Address 3 = 1
          \/ Z.land Address 3 = 2 \/ Z.land Address 3 = 3) as Hc by lia.
  by destruct Hc as [->|[->|[->| ->]]].
Qed.

End Chain4.

(** C3.  With video RAM enabled, the chain-4 bit of the sequencer memory
    register set and the four bits of the plane mask set, a byte written at
    one of the first 16 addresses of the aperture is the byte read back from
    that address. *)
Theorem chain4_round_trip (s : vga) (Address B b0 base mem mask : Z) :
  vga_ok s ->
  VGA_NUM_BANKS = 4 ->
  16 <= VGA_BANK_SIZE ->
  bits (VgaMiscRegister s) VGA_MISC_RAM_ENABLED = true ->
  array_get (VgaSeqRegisters s) VGA_SEQ_MEM_REG = Some mem ->
  bits mem VGA_SEQ_MEM_C4 = true ->
  array_get (VgaSeqRegisters s) VGA_SEQ_MASK_REG = Some mask ->
  Z.land mask 0x0F = 0x0F ->
  VgaGetVideoBaseAddress s = Some base ->
  base <= Address < base + 16 ->
  exists s',
    VgaWriteMemory Address [B] 1 s = Some s'
    /\ VgaReadMemory Address [b0] 1 s' = Some [B].
Proof.
  intros Hok Hbanks Hbank Hram Hmem HC4 Hmask Hall Hbase HA.
  pose proof (VgaGetVideoBaseAddress_cases _ _ Hbase) as Hbases.
  destruct (VgaGetAddressSize_cases s Hok) as (size & Hsize & Hsizes).
  pose proof VgaMemory_DWORD as HDW. rewrite Hbanks in HDW.
  set (o := Address - base).
  assert (0 <= o < 16) as Ho by (unfold o; lia).
  assert (0 <= Address < 4294967296) as HA32 by lia.
  set (V := o / 4 * size).
  assert (0 <= o / 4 <= 3) as Hq by (Z.div_mod_to_equations; lia).
  assert (0 <= V < VGA_BANK_SIZE) as HV by (unfold V; nia).
  assert (Z.land Address 3 = Z.land o 3) as Hplane.
  { rewrite !land_3. unfold o. Z.div_mod_to_equations. lia. }
  assert (0 <= Z.land o 3 < 4) as Hp.
  { rewrite land_3. apply Z.mod_pos_bound. lia. }
  exists (set_VgaMemory
            (<[V + Z.land Address 3 * VGA_BANK_SIZE := B]> (VgaMemory s)) s).
  split.
  - unfold VgaWriteMemory. rewrite Hram. simpl. rewrite Hmask. simpl.
    rewrite Hall. simpl. change (Z.to_nat 1) with 1%nat. simpl.
    rewrite Z.add_0_r, (to_DWORD_id Address) by done.
    unfold VgaTranslateWriteAddress. rewrite Hbase. simpl.
    rewrite Hmem. simpl. rewrite HC4. simpl. rewrite Hsize. simpl.
    rewrite (to_DWORD_id (Address - base)) by (fold o; lia). fold o.
    rewrite shiftr_2. fold V. rewrite (to_DWORD_id V) by lia.
    rewrite <- (set_VgaMemory_eta s) at 1.
    erewrite VgaWritePlane_chain4_loop; try done.
  - unfold VgaReadMemory. simpl. rewrite Hram. simpl.
    change (Z.to_nat 1) with 1%nat. simpl.
    rewrite Z.add_0_r, (to_DWORD_id Address) by done.
    unfold VgaTranslateReadAddress, VgaGetVideoBaseAddress, VgaGetAddressSize.
    simpl.
    unfold VgaGetVideoBaseAddress in Hbase. rewrite Hbase. simpl.
    rewrite Hmem. simpl. rewrite HC4. simpl.
    unfold VgaGetAddressSize in Hsize. rewrite Hsize. simpl.
    rewrite (to_DWORD_id (Address - base)) by (fold o; lia). fold o.
    rewrite shiftr_2. fold V. rewrite (to_DWORD_id V) by lia.
    rewrite (to_BYTE_id (Z.land o 3)) by lia.
    rewrite to_DWORD_id by nia.
    unfold VgaMemory_get. simpl. rewrite Hbanks.
    destruct (Z.leb_spec 0 (V + Z.land o 3 * VGA_BANK_SIZE)); [|nia].
    destruct (Z.ltb_spec (V + Z.land o 3 * VGA_BANK_SIZE)
                (4 * VGA_BANK_SIZE)); [|nia].
    simpl. rewrite Hplane, lookup_insert_eq. done.
Qed.

Lemma to_DWORD_range z : 0 <= to_DWORD z < 4294967296.
Proof. unfold to_DWORD. by apply Z.mod_pos_bound. Qed.

Lemma VgaTranslateWriteAddress_nonneg Address s VideoAddress :
  VgaTranslateWriteAddress Address s = Some VideoAddress -> 0 <= VideoAddress.
Proof.
  unfold VgaTranslateWriteAddress. intros Ht.
  repeat (apply bind_Some in Ht as (? & _ & Ht)).
  injection Ht as <-. apply to_DWORD_range.
Qed.

Lemma VgaTranslateWriteAddress_only_memory Address s s' :
  only_memory s s' ->
  VgaTranslateWriteAddress Address s' = VgaTranslateWriteAddress Address s.
Proof. unfold only_memory. by intros ->. Qed.

(** The pass over plane [j] leaves alone the planes whose mask bit is
    clear, if the translated address lies inside a plane. *)
Lemma VgaWritePlane_plane_mask Address Buffer VideoAddress i j s1 s2 mask p
    Index :
  VgaWritePlane Address Buffer VideoAddress i j s1 = Some s2 ->
  array_get (VgaSeqRegisters s1) VGA_SEQ_MASK_REG = Some mask ->
  0 <= j < VGA_NUM_BANKS -> 0 <= VideoAddress < VGA_BANK_SIZE ->
  bits mask (Z.shiftl 1 p) = false -> in_plane p Index ->
  VgaMemory s2 !! Index = VgaMemory s1 !! Index.
Proof.
  intros Hw Hmask Hj HV Hp HI. unfold VgaWritePlane in Hw.
  rewrite Hmask in Hw. simpl in Hw.
  destruct (bits mask (Z.shiftl 1 j)) eqn:Hbit; simpl in Hw;
    [|by injection Hw as <-].
  apply bind_Some in Hw as (mem & _ & Hw).
  destruct (_ && _); [by injection Hw as <-|].
  apply bind_Some in Hw as (mode & _ & Hw).
  destruct (_ && _); [by injection Hw as <-|].
  apply bind_Some in Hw as (Data & _ & Hw).
  unfold VgaMemory_set in Hw. destruct (_ && _); [|done].
  injection Hw as <-. simpl.
  assert (p <> j) as Hne by (intros ->; congruence).
  pose proof VgaMemory_DWORD.
  rewrite to_DWORD_id by nia.
  apply lookup_insert_ne. unfold in_plane in HI. nia.
Qed.

(** Plane-mask gating, where it holds: if the translated address of every
    byte lies inside a plane, [VgaWriteMemory] leaves alone each byte of each
    plane whose bit is clear in the plane mask. *)
Lemma VgaWriteMemory_plane_mask s s' Address Buffer Size mask p Index :
  VgaWriteMemory Address Buffer Size s = Some s' ->
  array_get (VgaSeqRegisters s) VGA_SEQ_MASK_REG = Some mask ->
  bits mask (Z.shiftl 1 p) = false ->
  (forall i VideoAddress,
     0 <= i < Size ->
     VgaTranslateWriteAddress (to_DWORD (Address + i)) s = Some VideoAddress ->
     VideoAddress < VGA_BANK_SIZE) ->
  in_plane p Index ->
  VgaMemory s' !! Index = VgaMemory s !! Index.
Proof.
  intros Hw Hmask Hp Hfits HI. unfold VgaWriteMemory in Hw.
  destruct (negb _); [by injection Hw as <-|].
  rewrite Hmask in Hw. simpl in Hw.
  destruct (Z.eqb_spec (Z.land mask 15) 0); [by injection Hw as <-|].
  apply (for_loop_invariant_range
           (fun a => only_memory s a
                     /\ VgaMemory a !! Index = VgaMemory s !! Index))
    in Hw; [by destruct Hw| |by split; [apply only_memory_refl|]].
  intros i a b Hi (V & HVt & Hb)%bind_Some [Hom Hmem].
  rewrite (VgaTranslateWriteAddress_only_memory _ _ _ Hom) in HVt.
  pose proof (VgaTranslateWriteAddress_nonneg _ _ _ HVt) as HV0.
  assert (V < VGA_BANK_SIZE) as HV1 by (eapply Hfits; [|exact HVt]; lia).
  apply (for_loop_invariant_range
           (fun c => only_memory s c
                     /\ VgaMemory c !! Index = VgaMemory s !! Index))
    in Hb; [done| |done].
  intros j c d Hj Hd [Homc Hmemc]. split.
  - eapply only_memory_trans; [exact Homc|].
    by eapply VgaWritePlane_only_memory.
  - rewrite <- Hmemc.
    eapply VgaWritePlane_plane_mask; [exact Hd| |lia|lia|exact Hp|exact HI].
    unfold only_memory in Homc. by rewrite Homc.
Qed.

End Planes.

Section PlanesStd.
#[local] Existing Instance vga_h_std.

Lemma chain4_state_ok : vga_ok chain4_state.
Proof.
  split;
    first [ apply Forall_replicate; vm_compute; split; congruence
          | repeat constructor; vm_compute; congruence
          | vm_compute; repeat split; congruence ].
Defined.

Lemma chain4_round_trip_witness :
  exists s',
    VgaWriteMemory 0xA0005 [0x42] 1 chain4_state = Some s'
    /\ VgaReadMemory 0xA0005 [0] 1 s' = Some [0x42].
Proof.
  apply (@chain4_round_trip vga_h_std vga_h_std_ok chain4_state
           0xA0005 0x42 0 0xA0000 8 15 chain4_state_ok);
    first [ reflexivity | vm_compute; split; congruence
          | vm_compute; congruence ].
Defined.

(** C4 at the failing input.  With video RAM enabled, the plane mask 1
    (plane 0 only), chain-4 and odd-even off and word addressing, the byte
    written at 0xA8000 has the translated address 0x8000 * 2 = 0x10000 and
    lands in [VgaMemory[0x10000]], the first byte of plane 1, whose mask bit
    is clear. *)
Theorem plane_mask_spill :
  exists s s',
    port_writes [(VGA_MISC_WRITE, VGA_MISC_RAM_ENABLED);
                 (VGA_SEQ_INDEX, VGA_SEQ_MASK_REG); (VGA_SEQ_DATA, 1)]
      vga_reset = Some s
    /\ array_get (VgaSeqRegisters s) VGA_SEQ_MASK_REG = Some 1
    /\ bits 1 (Z.shiftl 1 1) = false
    /\ in_plane 1 0x10000
    /\ VgaMemory_get s 0x10000 = Some 0
    /\ VgaWriteMemory 0xA8000 [0xAA] 1 s = Some s'
    /\ VgaMemory_get s' 0x10000 = Some 0xAA.
Proof.
  do 2 eexists.
  split; [vm_compute; reflexivity|].
  split; [vm_compute; reflexivity|].
  split; [vm_compute; reflexivity|].
  split; [vm_compute; split; congruence|].
  split; [vm_compute; reflexivity|].
  split; vm_compute; reflexivity.
Qed.

End PlanesStd.

(** ** Scenario S2: the register sequence *)

#[local] Arguments to_DWORD : simpl never.
#[local] Arguments to_BYTE : simpl never.
#[local] Arguments to_SHORT : simpl never.
#[local] Arguments to_WORD : simpl never.
#[local] Arguments bits : simpl never.
#[local] Arguments array_get : simpl never.
#[local] Arguments array_set : simpl never.
#[local] Arguments Z.mul : simpl never.
#[local] Arguments Z.add : simpl never.
#[local] Arguments Z.quot : simpl never.
#[local] Arguments Z.rem : simpl never.
#[local] Arguments Z.land : simpl never.
#[local] Arguments Z.lor : simpl never.
#[local] Arguments Z.shiftl : simpl never.
#[local] Arguments Z.shiftr : simpl never.
#[local] Arguments Z.eqb : simpl never.
#[local] Arguments Z.ltb : simpl never.
#[local] Arguments Z.leb : simpl never.
#[local] Arguments Z.to_nat : simpl never.
#[local] Arguments Z.of_nat : simpl never.

(** Two registers at different places of a duplicate-free list differ. *)
Lemma NoDup_lookup_ne (l : list Z) (i j : nat) x y :
  NoDup l -> l !! i = Some x -> l !! j = Some y -> i <> j -> x <> y.
Proof.
  intros Hnd Hi Hj Hne ->. apply Hne. by eapply NoDup_lookup.
Qed.

Ltac index_in x l :=
  lazymatch l with
  | x :: _ => constr:(0%nat)
  | _ :: ?t => let n := index_in x t in constr:(S n)
  end.

(** [x <> y] for two registers of the bank [L], [in_range MAX x] for one. *)
Ltac reg_neq Hnd L :=
  lazymatch goal with
  | |- ?x <> ?y =>
      let l := eval cbv beta delta [seq_regs gc_regs crtc_regs ac_regs] in L in
      let i := index_in x l in
      let j := index_in y l in
      apply (NoDup_lookup_ne L i j x y Hnd eq_refl eq_refl); discriminate
  end.

Ltac reg_range Hrange L :=
  lazymatch goal with
  | |- in_range _ ?x =>
      let l := eval cbv beta delta [seq_regs gc_regs crtc_regs ac_regs] in L in
      let i := index_in x l in
      apply (Forall_lookup_1 _ _ i _ Hrange eq_refl)
  end.

Section Registers.
Context `{vga_h} {Hh : vga_h_ok}.

Ltac regs_range :=
  idtac;
  first [ reg_range constr:(seq_regs_range) constr:(seq_regs)
        | reg_range constr:(gc_regs_range) constr:(gc_regs)
        | reg_range constr:(crtc_regs_range) constr:(crtc_regs)
        | reg_range constr:(ac_regs_range) constr:(ac_regs) ].

Ltac crtc_eqb :=
  repeat match goal with
    | |- context [?a =? ?a] => rewrite (Z.eqb_refl a)
    | |- context [?a =? ?b] =>
        rewrite (proj2 (Z.eqb_neq a b))
          by reg_neq constr:(crtc_regs_NoDup) constr:(crtc_regs)
    end.


Lemma port_writes_app l1 l2 s :
  port_writes (l1 ++ l2) s = s' ← port_writes l1 s; port_writes l2 s'.
Proof.
  revert s. induction l1 as [|[Port Data] l1 IH]; intros s; simpl; [done|].
  destruct (VgaWritePort Port Data s); simpl; [apply IH|done].
Qed.

Lemma array_get_insert_eq (regs : list Z) r v :
  0 <= r < Z.of_nat (length regs) ->
  array_get (<[Z.to_nat r := v]> regs) r = Some v.
Proof.
  intros Hr. unfold array_get. destruct (Z.leb_spec 0 r); [|lia].
  apply list_lookup_insert_eq. lia.
Qed.

Lemma array_get_insert_ne (regs : list Z) r r' v :
  0 <= r -> 0 <= r' -> r <> r' ->
  array_get (<[Z.to_nat r := v]> regs) r' = array_get regs r'.
Proof.
  intros Hr Hr' Hne. unfold array_get. destruct (Z.leb_spec 0 r'); [|lia].
  apply list_lookup_insert_ne. lia.
Qed.

Lemma port_writes_set_gc reg v s :
  in_range VGA_GC_MAX_REG reg ->
  Z.of_nat (length (VgaGcRegisters s)) = VGA_GC_MAX_REG ->
  port_writes (set_gc reg v) s
  = let s' := set_VgaGcRegisters (<[Z.to_nat reg := v]> (VgaGcRegisters s))
                (set_VgaGcIndex reg s) in
    Some (if reg =? VGA_GC_MISC_REG then set_ModeChanged true s' else s').
Proof.
  unfold in_range. intros Hreg Hlen. unfold set_gc. simpl.
  rewrite VgaWritePort_GC_INDEX.
  destruct (Z.ltb_spec reg VGA_GC_MAX_REG) as [Hlt|]; [|lia]. simpl.
  rewrite VgaWritePort_GC_DATA. unfold VgaWriteGc. simpl.
  rewrite (proj2 (Z.ltb_lt _ _) Hlt). simpl.
  rewrite array_set_Some by lia. done.
Qed.

Lemma port_writes_set_seq reg v s :
  in_range VGA_SEQ_MAX_REG reg ->
  Z.of_nat (length (VgaSeqRegisters s)) = VGA_SEQ_MAX_REG ->
  port_writes (set_seq reg v) s
  = Some (set_VgaSeqRegisters (<[Z.to_nat reg := v]> (VgaSeqRegisters s))
            (set_VgaSeqIndex reg s)).
Proof.
  unfold in_range. intros Hreg Hlen. unfold set_seq. simpl.
  rewrite VgaWritePort_SEQ_INDEX.
  destruct (Z.ltb_spec reg VGA_SEQ_MAX_REG) as [Hlt|]; [|lia]. simpl.
  rewrite VgaWritePort_SEQ_DATA. unfold VgaWriteSequencer. simpl.
  rewrite (proj2 (Z.ltb_lt _ _) Hlt). simpl.
  rewrite array_set_Some by lia. done.
Qed.

Lemma port_writes_set_ac reg v s :
  in_range VGA_AC_MAX_REG reg ->
  Z.of_nat (length (VgaAcRegisters s)) = VGA_AC_MAX_REG ->
  VgaAcLatch s = false ->
  port_writes (set_ac reg v) s
  = Some (set_VgaAcRegisters (<[Z.to_nat reg := v]> (VgaAcRegisters s))
            (set_VgaAcLatch false (set_VgaAcIndex reg s))).
Proof.
  unfold in_range. intros Hreg Hlen Hlatch. unfold set_ac. simpl.
  rewrite VgaWritePort_AC_INDEX, Hlatch. simpl. unfold ac_index_set.
  destruct (Z.ltb_spec reg VGA_AC_MAX_REG) as [Hlt|]; [|lia]. simpl.
  rewrite Hlatch. simpl.
  rewrite VgaWritePort_AC_INDEX. simpl. unfold ac_data_write, VgaWriteAc. simpl.
  rewrite (proj2 (Z.ltb_lt _ _) Hlt). simpl.
  rewrite array_set_Some by lia. done.
Qed.

Lemma port_writes_set_crtc reg v s :
  in_range VGA_CRTC_MAX_REG reg ->
  Z.of_nat (length (VgaCrtcRegisters s)) = VGA_CRTC_MAX_REG ->
  VgaGcIndex s < VGA_CRTC_MAX_REG ->
  port_writes (set_crtc reg v) s
  = let s' := set_VgaCrtcRegisters
                (<[Z.to_nat reg := v]> (VgaCrtcRegisters s))
                (set_VgaCrtcIndex reg s) in
    Some (switch reg
            [ (VGA_CRTC_END_HORZ_DISP_REG, set_ModeChanged true s');
              (VGA_CRTC_VERT_DISP_END_REG, set_ModeChanged true s');
              (VGA_CRTC_OVERFLOW_REG, set_ModeChanged true s');
              (VGA_CRTC_CURSOR_LOC_LOW_REG, set_CursorMoved true s');
              (VGA_CRTC_CURSOR_LOC_HIGH_REG, set_CursorMoved true s');
              (VGA_CRTC_CURSOR_START_REG, set_CursorMoved true s');
              (VGA_CRTC_CURSOR_END_REG, set_CursorMoved true s') ]
            s').
Proof.
  unfold in_range. intros Hreg Hlen Hgc. unfold set_crtc.
  cbn [port_writes].
  rewrite VgaWritePort_CRTC_INDEX.
  destruct (Z.ltb_spec reg VGA_CRTC_MAX_REG) as [Hlt|]; [|lia].
  cbn [mbind option_bind].
  rewrite VgaWritePort_CRTC_DATA. unfold VgaWriteCrtc.
  change (VgaGcIndex (set_VgaCrtcIndex reg s)) with (VgaGcIndex s).
  rewrite (proj2 (Z.ltb_lt _ _) Hgc). cbn [ASSERT mbind option_bind].
  change (VgaCrtcRegisters (set_VgaCrtcIndex reg s))
    with (VgaCrtcRegisters s).
  change (VgaCrtcIndex (set_VgaCrtcIndex reg s)) with reg.
  rewrite array_set_Some by lia. done.
Qed.

(** The register sequence of scenario S2 runs without fault and leaves
    [S2_state]. *)
Lemma port_writes_S2_sequence s :
  vga_ok s -> VGA_GC_MAX_REG <= VGA_CRTC_MAX_REG -> VgaAcLatch s = false ->
  port_writes S2_sequence s = Some (S2_state s).
Proof.
  intros Hok Hmax Hlatch. destruct Hok. unfold S2_sequence.
  assert (in_range VGA_GC_MAX_REG VGA_GC_MISC_REG) as Hgc by regs_range.
  assert (VGA_GC_MISC_REG < VGA_CRTC_MAX_REG) by (unfold in_range in Hgc; lia).
  rewrite port_writes_app, port_writes_set_gc by (done || regs_range).
  cbn [mbind option_bind]. rewrite Z.eqb_refl.
  rewrite port_writes_app, port_writes_set_seq by (done || regs_range).
  cbn [mbind option_bind].
  rewrite port_writes_app, port_writes_set_ac by (done || regs_range).
  cbn [mbind option_bind].
  rewrite port_writes_app, port_writes_set_crtc by (done || regs_range).
  cbn [mbind option_bind switch]. crtc_eqb.
  rewrite port_writes_app, port_writes_set_crtc
    by (simpl; rewrite ?length_insert; done || regs_range).
  cbn [mbind option_bind switch]. crtc_eqb.
  rewrite port_writes_app, port_writes_set_crtc
    by (simpl; rewrite ?length_insert; done || regs_range).
  cbn [mbind option_bind switch]. crtc_eqb.
  rewrite port_writes_set_crtc
    by (simpl; rewrite ?length_insert; done || regs_range).
  cbn [mbind option_bind switch]. crtc_eqb.
  reflexivity.
Qed.

Lemma register_bit_byte (i : nat) m :
  register_bits !! i = Some m -> 0 < m < 256.
Proof. intros Hi. apply (Forall_lookup_1 _ _ i _ register_bits_range Hi). Qed.

Lemma vga_ok_S2_state s : vga_ok s -> vga_ok (S2_state s).
Proof.
  intros Hok.
  assert (in_range VGA_GC_MAX_REG VGA_GC_MISC_REG) by regs_range.
  assert (in_range VGA_SEQ_MAX_REG VGA_SEQ_CLOCK_REG) by regs_range.
  assert (in_range VGA_AC_MAX_REG VGA_AC_CONTROL_REG) by regs_range.
  assert (in_range VGA_CRTC_MAX_REG VGA_CRTC_OVERFLOW_REG) by regs_range.
  pose proof (register_bit_byte 5 VGA_GC_MISC_NOALPHA eq_refl).
  pose proof (register_bit_byte 0 VGA_SEQ_CLOCK_98DM eq_refl).
  pose proof (register_bit_byte 10 VGA_AC_CONTROL_8BIT eq_refl).
  unfold in_range in *.
  destruct Hok; split; simpl; rewrite ?length_insert; auto;
    repeat apply Forall_insert; auto; unfold is_BYTE; lia.
Qed.

(** The resolution the mode decoder derives from the registers of scenario
    S2: 39 + 1 = 40 character clocks of 8 dots are 320 dots, halved by the
    8-bit flag to 160; 199 + 1 = 200 scanlines, divided by the 1 + 1 = 2
    scanlines of a row, are 100. *)
Lemma VgaGetDisplayResolution_S2_state s :
  vga_ok s ->
  VgaGetDisplayResolution (S2_state s) = Some {| X := 160; Y := 100 |}.
Proof.
  intros Hok.
  assert (in_range VGA_GC_MAX_REG VGA_GC_MISC_REG) by regs_range.
  assert (in_range VGA_SEQ_MAX_REG VGA_SEQ_CLOCK_REG) by regs_range.
  assert (in_range VGA_AC_MAX_REG VGA_AC_CONTROL_REG) by regs_range.
  assert (in_range VGA_CRTC_MAX_REG VGA_CRTC_OVERFLOW_REG) by regs_range.
  assert (in_range VGA_CRTC_MAX_REG VGA_CRTC_MAX_SCAN_LINE_REG) by regs_range.
  assert (in_range VGA_CRTC_MAX_REG VGA_CRTC_VERT_DISP_END_REG) by regs_range.
  assert (in_range VGA_CRTC_MAX_REG VGA_CRTC_END_HORZ_DISP_REG) by regs_range.
  pose proof (register_bit_byte 5 VGA_GC_MISC_NOALPHA eq_refl).
  pose proof (register_bit_byte 0 VGA_SEQ_CLOCK_98DM eq_refl).
  pose proof (register_bit_byte 10 VGA_AC_CONTROL_8BIT eq_refl).
  unfold in_range in *. destruct Hok.
  unfold VgaGetDisplayResolution, S2_state. simpl.
  repeat first
    [ rewrite array_get_insert_eq by (rewrite ?length_insert; lia)
    | rewrite array_get_insert_ne
        by (lia || reg_neq constr:(crtc_regs_NoDup) constr:(crtc_regs)) ].
  simpl. rewrite ?bits_0, !bits_self by lia. simpl. reflexivity.
Qed.

End Registers.

(** ** The scan-out of a graphics mode *)

Ltac by_registers :=
  let H1 := fresh in let H2 := fresh in let H3 := fresh in
  let H4 := fresh in let H5 := fresh in let H6 := fresh in
  let H7 := fresh in let H8 := fresh in let H9 := fresh in
  let H10 := fresh in let H11 := fresh in let H12 := fresh in
  let H13 := fresh in let H14 := fresh in
  intros [= H1 H2 H3 H4 H5 H6 H7 H8 H9 H10 H11 H12 H13 H14];
  rewrite ?H1, ?H2, ?H3, ?H4, ?H5, ?H6, ?H7, ?H8, ?H9, ?H10, ?H11, ?H12,
    ?H13, ?H14;
  reflexivity.

Section Decoder.
Context `{vga_h}.

(** The mode decoder and the pixel reconstruction read the register file
    and the video memory only. *)
Lemma registers_VgaGetDisplayResolution a b :
  registers a = registers b ->
  VgaGetDisplayResolution a = VgaGetDisplayResolution b.
Proof. unfold registers, VgaGetDisplayResolution. by_registers. Qed.

Lemma registers_VgaGetAddressSize a b :
  registers a = registers b -> VgaGetAddressSize a = VgaGetAddressSize b.
Proof. unfold registers, VgaGetAddressSize. by_registers. Qed.

Lemma registers_VgaCrtcRegisters a b :
  registers a = registers b -> VgaCrtcRegisters a = VgaCrtcRegisters b.
Proof. unfold registers. by_registers. Qed.

Lemma registers_VgaGcRegisters a b :
  registers a = registers b -> VgaGcRegisters a = VgaGcRegisters b.
Proof. unfold registers. by_registers. Qed.

Lemma registers_VgaPixelData a b Address AddressSize j :
  registers a = registers b ->
  VgaPixelData a Address AddressSize j = VgaPixelData b Address AddressSize j.
Proof. unfold registers, VgaPixelData, VgaMemory_get. by_registers. Qed.

Lemma registers_scan_window_fits a b :
  registers a = registers b -> scan_window_fits b -> scan_window_fits a.
Proof.
  intros Hr. unfold scan_window_fits.
  by rewrite (registers_VgaGetDisplayResolution _ _ Hr),
    (registers_VgaGetAddressSize _ _ Hr), (registers_VgaCrtcRegisters _ _ Hr).
Qed.

End Decoder.

Section Scan.
Context `{vga_h} {Hh : vga_h_ok}.
Variables (s : vga) (Resolution : COORD) (AddressSize high low offset : Z).
Hypothesis Hok : vga_ok s.
Hypothesis HResolution : VgaGetDisplayResolution s = Some Resolution.
Hypothesis HX : 0 <= X Resolution.
Hypothesis HY : 0 <= Y Resolution.
Hypothesis HAddressSize : VgaGetAddressSize s = Some AddressSize.
Hypothesis Hhigh :
  array_get (VgaCrtcRegisters s) VGA_CRTC_START_ADDR_HIGH_REG = Some high.
Hypothesis Hlow :
  array_get (VgaCrtcRegisters s) VGA_CRTC_START_ADDR_LOW_REG = Some low.
Hypothesis Hoffset :
  array_get (VgaCrtcRegisters s) VGA_CRTC_OFFSET_REG = Some offset.
Hypothesis Hfits :
  (high * 256 + low + Y Resolution * (offset * 2) + X Resolution)
  * AddressSize <= VGA_BANK_SIZE.

Lemma array_get_byte (regs : list Z) r v :
  Forall is_BYTE regs -> array_get regs r = Some v -> is_BYTE v.
Proof.
  intros Hb Hr. unfold array_get in Hr. destruct (0 <=? r); [|done].
  by eapply Forall_lookup_1.
Qed.

Lemma AddressSize_range : 1 <= AddressSize <= 4.
Proof.
  destruct (VgaGetAddressSize_cases s Hok) as (size & Hsize & Hcases).
  rewrite HAddressSize in Hsize. injection Hsize as <-. lia.
Qed.

Lemma plane_byte_defined Address bank column :
  0 <= Address -> 0 <= bank < VGA_NUM_BANKS -> 0 <= column ->
  (Address + column) * AddressSize < VGA_BANK_SIZE ->
  is_Some
    (VgaMemory_get s
       (to_DWORD (bank * VGA_BANK_SIZE
                  + to_DWORD (to_DWORD (Address + column) * AddressSize)))).
Proof.
  intros HA Hbank Hcol Hlt.
  pose proof AddressSize_range. pose proof VgaMemory_DWORD.
  pose proof VGA_BANK_SIZE_pos.
  rewrite (to_DWORD_id (Address + column)) by nia.
  rewrite (to_DWORD_id ((Address + column) * AddressSize)) by nia.
  rewrite to_DWORD_id by nia.
  unfold VgaMemory_get.
  destruct (Z.leb_spec 0 (bank * VGA_BANK_SIZE
                          + (Address + column) * AddressSize)); [|nia].
  destruct (Z.ltb_spec (bank * VGA_BANK_SIZE
                        + (Address + column) * AddressSize)
              (VGA_NUM_BANKS * VGA_BANK_SIZE)); [|nia].
  by eexists.
Qed.

Lemma quot_le j d : 0 <= j -> 0 < d -> 0 <= Z.quot j d <= j.
Proof.
  intros Hj Hd. rewrite Z.quot_div_nonneg by lia.
  split; [apply Z.div_pos; lia|].
  apply Z.div_le_upper_bound; [lia|nia].
Qed.

(** The byte of a pixel is reconstructed without fault when the addresses
    up to its column lie inside a plane. *)
Lemma VgaPixelData_defined Address j :
  0 <= Address -> 0 <= j ->
  (Address + j) * AddressSize < VGA_BANK_SIZE ->
  is_Some (VgaPixelData s Address AddressSize j).
Proof.
  intros HA Hj Hlt. pose proof AddressSize_range as Hsize.
  pose proof VGA_NUM_BANKS_pos as HNB.
  assert (forall bank d, 0 <= bank < VGA_NUM_BANKS -> 0 < d ->
            is_Some
              (VgaMemory_get s
                 (to_DWORD (bank * VGA_BANK_SIZE
                            + to_DWORD (to_DWORD (Address + Z.quot j d)
                                        * AddressSize))))) as Hbyte.
  { intros bank d Hbank Hd. pose proof (quot_le j d Hj Hd).
    apply plane_byte_defined; [done|done|lia|nia]. }
  unfold VgaPixelData. cbv zeta.
  destruct (register_get (VgaGcRegisters s) gc_regs VGA_GC_MAX_REG
              2%nat VGA_GC_MODE_REG gc_regs_range eq_refl)
    as (mode & ->); [by destruct Hok|].
  destruct (register_get (VgaAcRegisters s) ac_regs VGA_AC_MAX_REG
              1%nat VGA_AC_CONTROL_REG ac_regs_range eq_refl)
    as (control & Hcontrol); [by destruct Hok|].
  cbn [mbind option_bind].
  destruct (bits mode VGA_GC_MODE_SHIFT256).
  - rewrite Hcontrol. cbn [mbind option_bind].
    pose proof (Z.rem_bound_pos j VGA_NUM_BANKS Hj HNB).
    destruct (bits control VGA_AC_CONTROL_8BIT).
    + apply Hbyte; lia.
    + destruct (Hbyte (Z.rem j VGA_NUM_BANKS) (VGA_NUM_BANKS * 2))
        as [PixelData ->]; [lia|lia|].
      cbn [mbind option_bind]. by destruct (_ =? _).
  - destruct (bits mode VGA_GC_MODE_SHIFTREG); [done|].
    rewrite Hcontrol. cbn [mbind option_bind].
    destruct (bits control VGA_AC_CONTROL_8BIT).
    + edestruct (for_loop_defined (fun _ (_ : Z) => True))
        as (PixelData & -> & _); [|done|done].
      intros k PixelData Hk _.
      destruct (Hbyte k 4) as [PlaneData ->]; [lia|lia|].
      cbn [mbind option_bind]. eauto.
    + edestruct (for_loop_defined (fun _ (_ : Z) => True))
        as (PixelData & -> & _); [|done|done].
      intros k PixelData Hk _.
      destruct (Hbyte k 8) as [PlaneData ->]; [lia|lia|].
      cbn [mbind option_bind]. eauto.
Qed.

(** One pixel of the scan. *)
Lemma VgaUpdatePixel_defined Address i j a :
  scan_inv s Resolution a ->
  0 <= Address -> 0 <= i < Y Resolution -> 0 <= j < X Resolution ->
  (Address + j) * AddressSize < VGA_BANK_SIZE ->
  exists b,
    VgaUpdatePixel Resolution Address AddressSize i j a = Some b
    /\ scan_inv s Resolution b.
Proof.
  intros [Hregs (pixels & Hfb & Hlen)] HA Hi Hj Hlt.
  unfold VgaUpdatePixel.
  rewrite (registers_VgaPixelData _ _ _ _ _ Hregs).
  destruct (VgaPixelData_defined Address j) as [PixelData ->]; [lia..|].
  cbn [mbind option_bind].
  assert (0 <= i * X Resolution + j < Z.of_nat (length pixels)) as Hidx
    by nia.
  unfold GraphicsBuffer_get, GraphicsBuffer_set. rewrite Hfb.
  destruct (array_get_Some pixels _ Hidx) as [old ->].
  cbn [mbind option_bind].
  destruct (old =? PixelData).
  - eexists. split; [done|]. split; [done|]. by exists pixels.
  - rewrite array_set_Some by done. cbn [mbind option_bind].
    eexists. split; [done|]. split; [by rewrite <- Hregs|].
    eexists. split; [done|]. by rewrite length_insert.
Qed.

(** The scan of the whole window. *)
Lemma VgaScan_graphics_defined a :
  scan_inv s Resolution a ->
  exists b,
    VgaScan (fun Address i j =>
               VgaUpdatePixel Resolution Address AddressSize i j)
      Resolution (to_DWORD (offset * 2))
      (to_DWORD (Z.shiftl high 8 + low)) a = Some b
    /\ scan_inv s Resolution b.
Proof.
  intros Ha. pose proof AddressSize_range as Hsize.
  pose proof VgaMemory_DWORD as HDW. pose proof VGA_NUM_BANKS_pos.
  pose proof VGA_BANK_SIZE_pos.
  destruct Hok as [_ _ _ _ _ _ _ Hbytes _ _ _ _ _ _ _].
  pose proof (array_get_byte _ _ _ Hbytes Hhigh) as Hh8.
  pose proof (array_get_byte _ _ _ Hbytes Hlow) as Hl8.
  pose proof (array_get_byte _ _ _ Hbytes Hoffset) as Ho8.
  unfold is_BYTE in *.
  rewrite Z.shiftl_mul_pow2 by lia. change (2 ^ 8) with 256.
  assert (high * 256 + low + Y Resolution * (offset * 2) + X Resolution
          <= VGA_BANK_SIZE) as Hfits' by nia.
  assert (VGA_BANK_SIZE <= 4294967296) as HBANK by nia.
  rewrite !to_DWORD_id by nia.
  unfold VgaScan.
  edestruct (for_loop_defined
               (fun i (p : Z * vga) =>
                  (0 < X Resolution ->
                   p.1 = high * 256 + low + i * (offset * 2))
                  /\ scan_inv s Resolution p.2))
    as ([A b] & -> & _ & Hb).
  - intros i [A c] Hi [HA Hc]. simpl in HA, Hc.
    assert (0 <= i * (offset * 2)) as Hrow0 by nia.
    assert ((i + 1) * (offset * 2) <= Y Resolution * (offset * 2)) as Hrow1
      by (apply Z.mul_le_mono_nonneg_r; lia).
    edestruct (for_loop_defined (fun _ c' => scan_inv s Resolution c'))
      as (d & -> & Hd); [|exact Hc|].
    + intros j c' Hj Hc'. rewrite HA by lia.
      apply VgaUpdatePixel_defined; [done|lia|lia|lia|].
      eapply Z.lt_le_trans; [|exact Hfits].
      apply Z.mul_lt_mono_pos_r; lia.
    + cbn [mbind option_bind]. eexists. split; [done|]. simpl.
      split; [|done]. intros HX0. rewrite HA by done.
      rewrite to_DWORD_id by lia. lia.
  - simpl. split; [lia|done].
  - simpl. by exists b.
Qed.

(** In a graphics mode, with a bitmap of the size of the resolution and the
    display window inside a plane, the scan-out runs without fault. *)
Lemma VgaUpdateFramebuffer_graphics_defined misc pixels :
  array_get (VgaGcRegisters s) VGA_GC_MISC_REG = Some misc ->
  bits misc VGA_GC_MISC_NOALPHA = true ->
  ConsoleFramebuffer s = GraphicsBuffer pixels ->
  Z.of_nat (length pixels) = X Resolution * Y Resolution ->
  exists s', VgaUpdateFramebuffer s = Some s'.
Proof.
  intros Hmisc Hgraphics Hfb Hlen. unfold VgaUpdateFramebuffer.
  rewrite HResolution, HAddressSize. cbn [mbind option_bind].
  rewrite Hhigh, Hlow. cbn [mbind option_bind].
  rewrite Hoffset. cbn [mbind option_bind].
  rewrite Hmisc. cbn [mbind option_bind]. rewrite Hgraphics.
  destruct (VgaScan_graphics_defined (call WaitForSingleObject s))
    as (b & -> & _).
  - split; [done|]. by exists pixels.
  - cbn [mbind option_bind]. eauto.
Qed.

End Scan.

(** ** Scenario S2: the refresh *)

Section Refresh.
Context `{vga_h} {Hh : vga_h_ok}.

(** The mode switch into a graphics mode, the console creating the
    graphics buffer. *)
Lemma VgaUpdateMode_graphics a Resolution misc h :
  VgaGetDisplayResolution a = Some Resolution ->
  array_get (VgaGcRegisters a) VGA_GC_MISC_REG = Some misc ->
  bits misc VGA_GC_MISC_NOALPHA = true ->
  CreateConsoleScreenBuffer_ok h = true ->
  exists a',
    VgaUpdateMode h a = Some a'
    /\ registers a' = registers a
    /\ TextMode a' = false
    /\ CursorMoved a' = CursorMoved a
    /\ ConsoleFramebuffer a'
       = GraphicsBuffer
           (replicate (Z.to_nat (to_DWORD (X Resolution * Y Resolution))) 0).
Proof.
  intros HR Hmisc Hgraphics Hhost. unfold VgaUpdateMode.
  rewrite HR. cbn [mbind option_bind].
  assert (forall b, registers b = registers a ->
            array_get (VgaGcRegisters b) VGA_GC_MISC_REG = Some misc) as Hb.
  { intros b Hr. by rewrite (registers_VgaGcRegisters _ _ Hr). }
  rewrite Hb.
  - cbn [mbind option_bind]. rewrite Hgraphics.
    unfold VgaEnterGraphicsMode. rewrite Hhost. simpl.
    eexists. split; [done|]. simpl.
    destruct (TextMode a); simpl; [done|].
    unfold VgaLeaveGraphicsMode. simpl. by destruct (ConsoleFramebuffer a).
  - destruct (TextMode a); simpl; [done|].
    unfold VgaLeaveGraphicsMode. simpl. by destruct (ConsoleFramebuffer a).
Qed.

(** C1, as amended.  The register sequence of scenario S2 runs without
    fault and leaves registers from which the mode decoder derives the
    resolution 160 x 100.  When the cursor has not been moved, the display
    window lies inside a plane and the console creates the graphics buffer,
    the refresh that follows runs without fault and leaves the text mode
    flag cleared. *)
Theorem S2_resolution_and_mode (s : vga) :
  vga_ok s ->
  VGA_GC_MAX_REG <= VGA_CRTC_MAX_REG ->
  VgaAcLatch s = false ->
  exists s1,
    port_writes S2_sequence s = Some s1
    /\ VgaGetDisplayResolution s1 = Some {| X := 160; Y := 100 |}
    /\ forall h,
         CreateConsoleScreenBuffer_ok h = true ->
         CursorMoved s = false ->
         scan_window_fits s1 ->
         exists s2, VgaRefreshDisplay h s1 = Some s2 /\ TextMode s2 = false.
Proof.
  intros Hok Hmax Hlatch. exists (S2_state s).
  pose proof (vga_ok_S2_state s Hok) as Hok1.
  pose proof (VgaGetDisplayResolution_S2_state s Hok) as HR.
  split; [by apply port_writes_S2_sequence|]. split; [done|].
  intros h Hhost Hcursor Hfits.
  assert (in_range VGA_GC_MAX_REG VGA_GC_MISC_REG) as Hmisc_range
    by reg_range constr:(gc_regs_range) constr:(gc_regs).
  pose proof (register_bit_byte 5 VGA_GC_MISC_NOALPHA eq_refl) as Hnoalpha.
  assert (array_get (VgaGcRegisters (S2_state s)) VGA_GC_MISC_REG
          = Some VGA_GC_MISC_NOALPHA) as Hmisc.
  { unfold S2_state. simpl. apply array_get_insert_eq.
    destruct Hok. unfold in_range in Hmisc_range. lia. }
  destruct (VgaUpdateMode_graphics (S2_state s) _ _ h HR Hmisc)
    as (s1' & Hmode & Hregs & Htext & Hcur & Hfb);
    [apply bits_self; lia|done|].
  unfold VgaRefreshDisplay. rewrite HR. cbn [mbind option_bind].
  change (ModeChanged (S2_state s)) with true. cbv iota.
  rewrite Hmode. cbn [mbind option_bind].
  set (s2 := set_ModeChanged false s1').
  assert (registers s2 = registers (S2_state s)) as Hregs2 by done.
  assert (CursorMoved s2 = false) as -> by (simpl; by rewrite Hcur).
  cbn [mbind option_bind].
  destruct (registers_scan_window_fits s2 _ Hregs2 Hfits)
    as (R & size & high & low & offset & HR2 & Hsize & Hhigh & Hlow & Hoff
        & Hwindow).
  assert (R = {| X := 160; Y := 100 |}) as ->.
  { rewrite (registers_VgaGetDisplayResolution _ _ Hregs2), HR in HR2.
    by injection HR2. }
  assert (vga_ok s2) as Hok2 by (by eapply vga_ok_registers).
  assert (array_get (VgaGcRegisters s2) VGA_GC_MISC_REG
          = Some VGA_GC_MISC_NOALPHA) as Hmisc2
    by (by rewrite (registers_VgaGcRegisters _ _ Hregs2)).
  assert (exists s3, VgaUpdateFramebuffer s2 = Some s3) as (s3 & Hs3).
  { eapply (VgaUpdateFramebuffer_graphics_defined s2 {| X := 160; Y := 100 |});
      try eassumption; try (simpl; lia); try (apply bits_self; lia);
      try (by rewrite length_replicate). }
  rewrite Hs3. cbn [mbind option_bind].
  pose proof (VgaUpdateFramebuffer_scan_only _ _ Hs3) as Hscan.
  pose proof (scan_only_TextMode _ _ Hscan) as Htext3.
  pose proof (scan_only_registers _ _ Hscan) as Hregs3.
  change (NeedsUpdate (set_InVerticalRetrace true s3))
    with (NeedsUpdate s3).
  change (VgaGcRegisters (set_InVerticalRetrace true s3))
    with (VgaGcRegisters s3).
  destruct (NeedsUpdate s3); cbn [negb].
  - rewrite (registers_VgaGcRegisters _ _ Hregs3), Hmisc2.
    cbn [mbind option_bind]. eexists. split; [done|].
    destruct (bits _ _); simpl; by rewrite Htext3.
  - eexists. split; [done|]. simpl. by rewrite Htext3.
Qed.

End Refresh.

Section RefreshStd.
#[local] Existing Instance vga_h_std.

Lemma S2_resolution_and_mode_witness :
  exists s1 s2,
    port_writes S2_sequence vga_reset = Some s1
    /\ VgaGetDisplayResolution s1 = Some {| X := 160; Y := 100 |}
    /\ VgaRefreshDisplay host_ok s1 = Some s2
    /\ TextMode s2 = false.
Proof.
  destruct (@S2_resolution_and_mode vga_h_std vga_h_std_ok vga_reset
              vga_reset_std_ok ltac:(vm_compute; congruence) eq_refl)
    as (s1 & Hs1 & HR & Hrefresh).
  destruct (Hrefresh host_ok eq_refl eq_refl) as (s2 & Hs2 & Htext).
  - vm_compute in Hs1. injection Hs1 as <-.
    exists {| X := 160; Y := 100 |}, 2, 0, 0, 0.
    repeat split; try (vm_compute; reflexivity).
    vm_compute. congruence.
  - exact (ex_intro _ s1 (ex_intro _ s2
             (conj Hs1 (conj HR (conj Hs2 Htext))))).
Defined.

(** C1 as stated fails: from the static initialisers the register sequence
    leaves the resolution 160 x 100, not 320 x 200. *)
Lemma S2_resolution_counterexample :
  exists s1,
    port_writes S2_sequence vga_reset = Some s1
    /\ VgaGetDisplayResolution s1 = Some {| X := 160; Y := 100 |}
    /\ VgaGetDisplayResolution s1 <> Some {| X := 320; Y := 200 |}.
Proof.
  eexists. split; [vm_compute; reflexivity|].
  split; [vm_compute; reflexivity|].
  vm_compute. congruence.
Qed.

End RefreshStd.

(** * Further properties *)

(** ** The mode decoder *)

Section ModeDecoder.
Context `{vga_h} {Hh : vga_h_ok}.

Lemma to_SHORT_id z : -32768 <= z < 32768 -> to_SHORT z = z.
Proof. intros. unfold to_SHORT. rewrite Z.mod_small; lia. Qed.

(** A register of a bank holds a byte. *)
Lemma bank_get (regs : list Z) (MAX r : Z) :
  Z.of_nat (length regs) = MAX -> Forall is_BYTE regs -> in_range MAX r ->
  exists v, array_get regs r = Some v /\ is_BYTE v.
Proof.
  intros Hlen Hbytes Hr. unfold in_range in Hr.
  destruct (array_get_Some regs r) as [v Hv]; [lia|].
  exists v. split; [done|].
  unfold array_get in Hv. destruct (0 <=? r); [|done].
  by apply (Forall_lookup_1 _ _ _ _ Hbytes Hv).
Qed.

Lemma seq_get s (i : nat) r :
  vga_ok s -> seq_regs !! i = Some r ->
  exists v, array_get (VgaSeqRegisters s) r = Some v /\ is_BYTE v.
Proof.
  intros Hok Hi. apply (bank_get _ VGA_SEQ_MAX_REG); [by destruct Hok..|].
  apply (Forall_lookup_1 _ _ i _ seq_regs_range Hi).
Qed.

Lemma gc_get s (i : nat) r :
  vga_ok s -> gc_regs !! i = Some r ->
  exists v, array_get (VgaGcRegisters s) r = Some v /\ is_BYTE v.
Proof.
  intros Hok Hi. apply (bank_get _ VGA_GC_MAX_REG); [by destruct Hok..|].
  apply (Forall_lookup_1 _ _ i _ gc_regs_range Hi).
Qed.

Lemma crtc_get s (i : nat) r :
  vga_ok s -> crtc_regs !! i = Some r ->
  exists v, array_get (VgaCrtcRegisters s) r = Some v /\ is_BYTE v.
Proof.
  intros Hok Hi. apply (bank_get _ VGA_CRTC_MAX_REG); [by destruct Hok..|].
  apply (Forall_lookup_1 _ _ i _ crtc_regs_range Hi).
Qed.

Lemma ac_get s (i : nat) r :
  vga_ok s -> ac_regs !! i = Some r ->
  exists v, array_get (VgaAcRegisters s) r = Some v /\ is_BYTE v.
Proof.
  intros Hok Hi. apply (bank_get _ VGA_AC_MAX_REG); [by destruct Hok..|].
  apply (Forall_lookup_1 _ _ i _ ac_regs_range Hi).
Qed.

Lemma lor_bit_lt y n :
  0 <= n -> 0 <= y < 2 ^ (n + 1) -> 0 <= Z.lor y (Z.shiftl 1 n) < 2 ^ (n + 1).
Proof.
  intros Hn Hy. rewrite Z.shiftl_1_l.
  assert (0 < 2 ^ n) by (apply Z.pow_pos_nonneg; lia).
  assert (2 ^ (n + 1) = 2 * 2 ^ n) as Hp by (rewrite Z.pow_add_r; lia).
  split; [apply Z.lor_nonneg; lia|].
  assert (0 < Z.lor y (2 ^ n)).
  { pose proof (Z.lor_nonneg y (2 ^ n)).
    destruct (Z.eq_dec (Z.lor y (2 ^ n)) 0) as [Hz|]; [|lia].
    apply Z.lor_eq_0_iff in Hz. lia. }
  apply Z.log2_lt_pow2; [done|].
  rewrite Z.log2_lor, Z.log2_pow2 by lia.
  apply Z.max_lub_lt; [|lia].
  destruct (Z.eq_dec y 0) as [->|]; [simpl; lia|].
  apply Z.log2_lt_pow2; lia.
Qed.

(** The resolution of a state that satisfies the invariant. *)
Lemma Resolution_range (s : vga) :
  vga_ok s ->
  exists Resolution,
    VgaGetDisplayResolution s = Some Resolution
    /\ 1 <= X Resolution <= 2304
    /\ 0 <= Y Resolution <= 1024.
Proof.
  intros Hok. unfold VgaGetDisplayResolution.
  destruct (crtc_get s 3 _ Hok eq_refl) as (msl & -> & Hmsl).
  destruct (crtc_get s 1 _ Hok eq_refl) as (x & -> & Hx).
  destruct (crtc_get s 10 _ Hok eq_refl) as (y & -> & Hy).
  destruct (crtc_get s 2 _ Hok eq_refl) as (overflow & -> & Hoverflow).
  destruct (gc_get s 3 _ Hok eq_refl) as (misc & -> & Hmisc).
  destruct (seq_get s 1 _ Hok eq_refl) as (clock & Hclock & _).
  destruct (ac_get s 1 _ Hok eq_refl) as (control & Hcontrol & _).
  cbn [mbind option_bind]. unfold is_BYTE in *.
  (* the divisor *)
  assert (1 <= to_BYTE (1 + Z.land msl 31) <= 32) as Hdiv.
  { assert (Z.land msl 31 = msl mod 32) as -> by (apply (Z.land_ones msl 5); lia).
    pose proof (Z.mod_pos_bound msl 32). rewrite to_BYTE_id; lia. }
  set (d := to_BYTE (1 + Z.land msl 31)) in *.
  (* the scanlines *)
  pose proof (lor_bit_lt y 8 ltac:(lia) ltac:(change (2 ^ (8 + 1)) with 512; lia))
    as Hy8.
  change (2 ^ (8 + 1)) with 512 in Hy8.
  set (y1 := if bits overflow VGA_CRTC_OVERFLOW_VDE8
             then to_SHORT (Z.lor y (Z.shiftl 1 8)) else y).
  assert (0 <= y1 < 512) as Hy1.
  { unfold y1. destruct (bits overflow _); [|lia].
    rewrite to_SHORT_id; lia. }
  pose proof (lor_bit_lt y1 9 ltac:(lia)
                ltac:(change (2 ^ (9 + 1)) with 1024; lia)) as Hy9.
  change (2 ^ (9 + 1)) with 1024 in Hy9.
  set (y2 := if bits overflow VGA_CRTC_OVERFLOW_VDE9
             then to_SHORT (Z.lor y1 (Z.shiftl 1 9)) else y1).
  assert (0 <= y2 < 1024) as Hy2.
  { unfold y2. destruct (bits overflow VGA_CRTC_OVERFLOW_VDE9); [|lia].
    rewrite to_SHORT_id; lia. }
  assert (0 <= to_SHORT (Z.quot (to_SHORT (y2 + 1)) d) <= 1024) as HY.
  { rewrite (to_SHORT_id (y2 + 1)) by lia.
    rewrite Z.quot_div_nonneg by lia.
    assert (0 <= (y2 + 1) / d <= y2 + 1).
    { split; [apply Z.div_pos; lia|].
      apply Z.div_le_upper_bound; [lia|]. nia. }
    rewrite to_SHORT_id; lia. }
  rewrite (to_SHORT_id (x + 1)) by lia.
  destruct (bits misc VGA_GC_MISC_NOALPHA).
  - rewrite Hclock, Hcontrol. cbn [mbind option_bind].
    eexists. split; [reflexivity|]. cbn [X Y]. split; [|exact HY].
    assert (8 <= to_SHORT ((x + 1) * (if bits clock VGA_SEQ_CLOCK_98DM
                                      then 8 else 9)) <= 2304) as Hx1.
    { destruct (bits clock _); rewrite to_SHORT_id; lia. }
    destruct (bits control _); [|lia].
    rewrite Z.quot_div_nonneg by lia.
    assert (4 <= to_SHORT ((x + 1) * (if bits clock VGA_SEQ_CLOCK_98DM
                                      then 8 else 9)) / 2 <= 1152)
      by (split; [apply Z.div_le_lower_bound|apply Z.div_le_upper_bound]; lia).
    rewrite to_SHORT_id; lia.
  - cbn [mbind option_bind]. eexists. split; [reflexivity|]. cbn [X Y].
    split; [lia|exact HY].
Qed.

(** The aperture of a state that satisfies the invariant. *)
Lemma aperture_range (s : vga) :
  vga_ok s ->
  exists base limit,
    VgaGetVideoBaseAddress s = Some base
    /\ VgaGetVideoLimitAddress s = Some limit
    /\ 0xA0000 <= base /\ base < limit /\ limit <= 0xBFFFF
    /\ base mod 0x8000 = 0
    /\ (limit - base + 1 = 0x10000 \/ limit - base + 1 = 0x8000).
Proof.
  intros Hok. unfold VgaGetVideoBaseAddress, VgaGetVideoLimitAddress.
  destruct (gc_get s 3 _ Hok eq_refl) as (misc & -> & Hmisc).
  cbn [mbind option_bind]. rewrite land_3.
  pose proof (Z.mod_pos_bound (Z.shiftr misc 2) 4 ltac:(lia)) as Hk.
  assert (Z.shiftr misc 2 mod 4 = 0 \/ Z.shiftr misc 2 mod 4 = 1
          \/ Z.shiftr misc 2 mod 4 = 2 \/ Z.shiftr misc 2 mod 4 = 3)
    as [-> | [-> | [-> | ->]]] by lia;
    eexists _, _; (split; [reflexivity|]); (split; [reflexivity|]);
    vm_compute; intuition congruence.
Qed.

(** X1.  In every state the emulator reaches the resolution is defined: the
    width is at least one dot and at most 256 character clocks of 9 dots,
    the height at most 1024 scanlines, and both fit a [SHORT]. *)
Theorem VgaGetDisplayResolution_bounds (s : vga) :
  reachable s ->
  exists Resolution,
    VgaGetDisplayResolution s = Some Resolution
    /\ 1 <= X Resolution <= 2304
    /\ 0 <= Y Resolution <= 1024
    /\ to_SHORT (X Resolution) = X Resolution
    /\ to_SHORT (Y Resolution) = Y Resolution.
Proof.
  intros Hok%reachable_vga_ok.
  destruct (Resolution_range s Hok) as (Resolution & HR & HX & HY).
  exists Resolution. split; [done|]. split; [done|]. split; [done|].
  split; apply to_SHORT_id; lia.
Qed.

(** X2.  In every state the emulator reaches the address size is 1, 2 or 4. *)
Theorem VgaGetAddressSize_range (s : vga) :
  reachable s ->
  exists size,
    VgaGetAddressSize s = Some size /\ (size = 1 \/ size = 2 \/ size = 4).
Proof.
  intros Hok%reachable_vga_ok.
  destruct (VgaGetAddressSize_cases s Hok) as (size & Hsize & Hcases).
  by exists size.
Qed.

(** X3.  In every state the emulator reaches the aperture the memory map field
    selects is not empty: it lies in the window 0xA0000 to 0xBFFFF, starts
    at a multiple of 32 KiB and is 64 or 32 KiB long. *)
Theorem aperture_in_window (s : vga) :
  reachable s ->
  exists base limit,
    VgaGetVideoBaseAddress s = Some base
    /\ VgaGetVideoLimitAddress s = Some limit
    /\ 0xA0000 <= base /\ base < limit /\ limit <= 0xBFFFF
    /\ base mod 0x8000 = 0
    /\ (limit - base + 1 = 0x10000 \/ limit - base + 1 = 0x8000).
Proof.
  intros Hok%reachable_vga_ok.
  destruct (aperture_range s Hok) as (base & limit & Hfacts).
  by exists base, limit.
Qed.

End ModeDecoder.

Section ModeDecoderStd.
#[local] Existing Instance vga_h_std.

Lemma VgaGetDisplayResolution_bounds_witness :
  exists Resolution,
    VgaGetDisplayResolution vga_reset = Some Resolution
    /\ 1 <= X Resolution <= 2304
    /\ 0 <= Y Resolution <= 1024
    /\ to_SHORT (X Resolution) = X Resolution
    /\ to_SHORT (Y Resolution) = Y Resolution.
Proof.
  apply (@VgaGetDisplayResolution_bounds vga_h_std vga_h_std_ok vga_reset).
  apply rtc_refl.
Defined.

Lemma VgaGetAddressSize_range_witness :
  exists size,
    VgaGetAddressSize vga_reset = Some size
    /\ (size = 1 \/ size = 2 \/ size = 4).
Proof.
  apply (@VgaGetAddressSize_range vga_h_std vga_h_std_ok vga_reset).
  apply rtc_refl.
Defined.

Lemma aperture_in_window_witness :
  exists base limit,
    VgaGetVideoBaseAddress vga_reset = Some base
    /\ VgaGetVideoLimitAddress vga_reset = Some limit
    /\ 0xA0000 <= base /\ base < limit /\ limit <= 0xBFFFF
    /\ base mod 0x8000 = 0
    /\ (limit - base + 1 = 0x10000 \/ limit - base + 1 = 0x8000).
Proof.
  apply (@aperture_in_window vga_h_std vga_h_std_ok vga_reset).
  apply rtc_refl.
Defined.

End ModeDecoderStd.

(** ** The ports *)

Lemma switch_miss {A} x (cases : list (Z * A)) d :
  x ∉ cases.*1 -> switch x cases d = d.
Proof.
  induction cases as [|[l a] cases IH]; [done|]. simpl. intros Hx.
  apply not_elem_of_cons in Hx as [Hne Hx].
  destruct (Z.eqb_spec x l); [done|]. by apply IH.
Qed.

Lemma switch_cases_at {A} (P : A -> Prop) x (cases : list (Z * A)) d :
  Forall (fun c => x = c.1 -> P c.2) cases -> (x ∉ cases.*1 -> P d) ->
  P (switch x cases d).
Proof.
  intros Hcases. induction Hcases as [|[l a] cases Hc _ IH]; intros Hd.
  - apply Hd, not_elem_of_nil.
  - simpl. destruct (Z.eqb_spec x l); [by apply Hc|].
    apply IH. intros Hx. apply Hd. by apply not_elem_of_cons.
Qed.

Ltac label_neq Hnd L :=
  lazymatch goal with
  | |- ?x <> ?y =>
      let l := eval cbv beta delta [read_labels write_labels] in L in
      let i := index_in x l in
      let j := index_in y l in
      apply (NoDup_lookup_ne L i j x y Hnd eq_refl eq_refl); discriminate
  end.

Section PortFrame.
Context `{vga_h} {Hh : vga_h_ok}.

(** X4.  A port outside the table reads as 0 and ignores what is written to it;
    neither access changes the state. *)
Theorem unknown_port (Port : Z) :
  (Port ∉ read_labels -> forall s, VgaReadPort Port s = Some (0, s))
  /\ (Port ∉ write_labels ->
      forall Data s, VgaWritePort Port Data s = Some s).
Proof.
  split.
  - intros HPort s. unfold VgaReadPort. by apply switch_miss.
  - intros HPort Data s. unfold VgaWritePort. by apply switch_miss.
Qed.

(** X5.  A port read changes at most the DAC index, the AC latch and the two
    retrace flags, and only a read of the DAC data port or of a status port
    changes anything. *)
Theorem VgaReadPort_frame (Port : Z) (s : vga) (v : Z) (s' : vga) :
  VgaReadPort Port s = Some (v, s') ->
  s' = set_InHorizontalRetrace (InHorizontalRetrace s')
         (set_InVerticalRetrace (InVerticalRetrace s')
            (set_VgaAcLatch (VgaAcLatch s')
               (set_VgaDacIndex (VgaDacIndex s') s)))
  /\ (Port <> VGA_DAC_DATA -> Port <> VGA_STAT_MONO ->
      Port <> VGA_STAT_COLOR -> s' = s).
Proof.
  unfold VgaReadPort.
  apply (switch_cases_at
           (fun r => r = Some (v, s') ->
              s' = set_InHorizontalRetrace (InHorizontalRetrace s')
                     (set_InVerticalRetrace (InVerticalRetrace s')
                        (set_VgaAcLatch (VgaAcLatch s')
                           (set_VgaDacIndex (VgaDacIndex s') s)))
              /\ (Port <> VGA_DAC_DATA -> Port <> VGA_STAT_MONO ->
                  Port <> VGA_STAT_COLOR -> s' = s))).
  - repeat (apply Forall_cons_2 || apply Forall_nil_2);
      cbn [fst snd]; intros HPort Hr;
      repeat match type of Hr with
        | context [array_get ?a ?i] => destruct (array_get a i)
        | context [negb (VgaDacReadWrite ?x)] =>
            destruct (VgaDacReadWrite x); cbn [negb] in Hr
        | context [negb (VgaAcLatch ?x)] =>
            destruct (VgaAcLatch x); cbn [negb] in Hr
        end;
      cbn [mbind option_bind negb] in Hr; try discriminate Hr;
      injection Hr as _ <-; (split; [by destruct s|]); try done;
      intros; congruence.
  - intros _ [= _ <-]. split; [by destruct s|done].
Qed.

(** X6.  A port write changes the register file and the two change flags, which
    it only ever sets: video memory, the framebuffer, the text mode flag,
    the update request, the retrace flags and the host are out of its
    reach. *)
Theorem VgaWritePort_frame (Port Data : Z) (s s' : vga) :
  VgaWritePort Port Data s = Some s' ->
  VgaMemory s' = VgaMemory s
  /\ ConsoleFramebuffer s' = ConsoleFramebuffer s
  /\ TextMode s' = TextMode s
  /\ NeedsUpdate s' = NeedsUpdate s
  /\ UpdateRectangle s' = UpdateRectangle s
  /\ InVerticalRetrace s' = InVerticalRetrace s
  /\ InHorizontalRetrace s' = InHorizontalRetrace s
  /\ HostCalls s' = HostCalls s
  /\ (ModeChanged s = true -> ModeChanged s' = true)
  /\ (CursorMoved s = true -> CursorMoved s' = true).
Proof.
  unfold VgaWritePort.
  apply (switch_cases
           (fun r => r = Some s' ->
              VgaMemory s' = VgaMemory s
              /\ ConsoleFramebuffer s' = ConsoleFramebuffer s
              /\ TextMode s' = TextMode s
              /\ NeedsUpdate s' = NeedsUpdate s
              /\ UpdateRectangle s' = UpdateRectangle s
              /\ InVerticalRetrace s' = InVerticalRetrace s
              /\ InHorizontalRetrace s' = InHorizontalRetrace s
              /\ HostCalls s' = HostCalls s
              /\ (ModeChanged s = true -> ModeChanged s' = true)
              /\ (CursorMoved s = true -> CursorMoved s' = true))).
  - repeat (apply Forall_cons_2 || apply Forall_nil_2); cbn [snd];
      unfold VgaWriteAc, VgaWriteSequencer, VgaWriteDac, VgaWriteCrtc,
        VgaWriteGc; intros Hr;
      repeat match type of Hr with
        | context [ASSERT ?b] => destruct b; cbn [ASSERT] in Hr
        | context [array_set ?a ?i ?v] => destruct (array_set a i v)
        | context [negb (VgaDacReadWrite ?x)] =>
            destruct (VgaDacReadWrite x); cbn [negb] in Hr
        | context [negb (VgaAcLatch ?x)] =>
            destruct (VgaAcLatch x); cbn [negb] in Hr
        | context [if VgaDacReadWrite ?b then _ else _] =>
            destruct (VgaDacReadWrite b)
        end;
      cbn [mbind option_bind negb] in Hr; try discriminate Hr;
      injection Hr as <-;
      repeat match goal with
        | |- context [if ?c then _ else _] => destruct c
        | |- context [switch ?x ?l ?d] =>
            apply (switch_cases
                     (fun r : vga => VgaMemory r = _ /\ _));
            [repeat (apply Forall_cons_2 || apply Forall_nil_2)|]
        end;
      cbn; repeat split; auto.
  - intros [= <-]. repeat split; auto.
Qed.

End PortFrame.

Section Flags.
Context `{vga_h} {Hh : vga_h_ok}.

Ltac crtc_absurd :=
  match goal with
  | Heq : ?a = ?b |- _ =>
      exfalso; revert Heq; change (a <> b); reg_neq constr:(crtc_regs_NoDup) constr:(crtc_regs)
  end.

Ltac port_absurd :=
  match goal with
  | Heq : ?a = ?b |- _ =>
      exfalso; revert Heq; change (a <> b);
      label_neq constr:(write_labels_NoDup) constr:(write_labels)
  end.

Lemma VgaWriteGc_flags Data s s' :
  VgaWriteGc Data s = Some s' ->
  (ModeChanged s' = true <->
     ModeChanged s = true \/ VgaGcIndex s = VGA_GC_MISC_REG)
  /\ CursorMoved s' = CursorMoved s.
Proof.
  unfold VgaWriteGc. destruct (_ <? _); [|done]. cbn [ASSERT mbind option_bind].
  destruct (array_set _ _ _); [|done]. cbn [mbind option_bind switch].
  intros [= <-]. cbn [VgaGcIndex set_VgaGcRegisters].
  destruct (Z.eqb_spec (VgaGcIndex s) VGA_GC_MISC_REG); cbn; intuition.
Qed.

Lemma VgaWriteCrtc_flags Data s s' :
  VgaWriteCrtc Data s = Some s' ->
  (ModeChanged s' = true <->
     ModeChanged s = true \/ VgaCrtcIndex s ∈ mode_registers)
  /\ (CursorMoved s' = true <->
     CursorMoved s = true \/ VgaCrtcIndex s ∈ cursor_registers).
Proof.
  unfold VgaWriteCrtc. destruct (_ <? _); [|done].
  cbn [ASSERT mbind option_bind].
  destruct (array_set _ _ _); [|done]. cbn [mbind option_bind switch].
  intros [= <-]. cbn [VgaCrtcIndex set_VgaCrtcRegisters].
  unfold mode_registers, cursor_registers.
  repeat match goal with
    | |- context [?a =? ?b] => destruct (Z.eqb_spec a b) as [Heq|?]
    end; cbn [ModeChanged CursorMoved set_ModeChanged set_CursorMoved
              set_VgaCrtcRegisters];
    rewrite ?Heq, !elem_of_cons, elem_of_nil.
  all: split; split; try tauto.
  all: intros [?|Hin]; [done|];
    repeat (destruct Hin as [Hin|Hin]); try done; try crtc_absurd;
    congruence.
Qed.

(** X7.  [ModeChanged] is set by a data write to the GC miscellaneous register
    or to one of the three CRTC registers that hold the display size,
    [CursorMoved] by a data write to one of the four CRTC cursor registers;
    no other port write changes either flag. *)
Theorem change_flags (Port Data : Z) (s s' : vga) :
  VgaWritePort Port Data s = Some s' ->
  (ModeChanged s' = true <->
     ModeChanged s = true
     \/ (Port = VGA_GC_DATA /\ VgaGcIndex s = VGA_GC_MISC_REG)
     \/ (Port = VGA_CRTC_DATA /\ VgaCrtcIndex s ∈ mode_registers))
  /\ (CursorMoved s' = true <->
     CursorMoved s = true
     \/ (Port = VGA_CRTC_DATA /\ VgaCrtcIndex s ∈ cursor_registers)).
Proof.
  unfold VgaWritePort.
  apply (switch_cases_at
           (fun r => r = Some s' ->
              (ModeChanged s' = true <->
                 ModeChanged s = true
                 \/ (Port = VGA_GC_DATA /\ VgaGcIndex s = VGA_GC_MISC_REG)
                 \/ (Port = VGA_CRTC_DATA /\ VgaCrtcIndex s ∈ mode_registers))
              /\ (CursorMoved s' = true <->
                 CursorMoved s = true
                 \/ (Port = VGA_CRTC_DATA
                     /\ VgaCrtcIndex s ∈ cursor_registers)))).
  - repeat (apply Forall_cons_2 || apply Forall_nil_2); cbn [fst snd];
      intros -> Hr.
    11: { apply VgaWriteGc_flags in Hr as [HM HC]. rewrite HM, HC.
          split; split; try tauto.
          - intros [?|[[_ ?]|[? _]]]; [tauto..|port_absurd].
          - intros [?|[? _]]; [tauto|port_absurd]. }
    9: { apply VgaWriteCrtc_flags in Hr as [HM HC]. rewrite HM, HC.
         split; split; try tauto.
         intros [?|[[? _]|[_ ?]]]; [tauto|port_absurd|tauto]. }
    all: assert (ModeChanged s' = ModeChanged s
                 /\ CursorMoved s' = CursorMoved s) as [-> ->].
    all: try (split; split; try tauto;
              [intros [?|[[? _]|[? _]]]; [tauto|port_absurd..]
              |intros [?|[? _]]; [tauto|port_absurd]]).
    all: unfold VgaWriteAc, VgaWriteSequencer, VgaWriteDac in Hr;
      repeat match type of Hr with
        | context [ASSERT ?b] => destruct b; cbn [ASSERT] in Hr
        | context [array_set ?a ?i ?v] => destruct (array_set a i v)
        | context [negb (VgaAcLatch ?x)] =>
            destruct (VgaAcLatch x); cbn [negb] in Hr
        | context [if VgaDacReadWrite ?b then _ else _] =>
            destruct (VgaDacReadWrite b)
        end;
      cbn [mbind option_bind negb] in Hr; try discriminate Hr;
      injection Hr as <-;
      repeat match goal with
        | |- context [if ?c then _ else _] => destruct c
        end; done.
  - intros HPort [= <-]. cbn [fmap list_fmap fst] in HPort.
    rewrite !not_elem_of_cons in HPort.
    split; split; try tauto.
Qed.

End Flags.

(** ** Registers written and read back *)

Section RoundTrips.
Context `{vga_h} {Hh : vga_h_ok}.

Lemma VgaReadPort_AC_INDEX s :
  VgaReadPort VGA_AC_INDEX s = Some (VgaAcIndex s, s).
Proof. read_port 0%nat. Qed.

Lemma VgaReadPort_AC_READ s :
  VgaReadPort VGA_AC_READ s
  = Data ← array_get (VgaAcRegisters s) (VgaAcIndex s); Some (Data, s).
Proof. read_port 1%nat. Qed.

Lemma VgaReadPort_SEQ_INDEX s :
  VgaReadPort VGA_SEQ_INDEX s = Some (VgaSeqIndex s, s).
Proof. read_port 2%nat. Qed.

Lemma VgaReadPort_SEQ_DATA s :
  VgaReadPort VGA_SEQ_DATA s
  = Data ← array_get (VgaSeqRegisters s) (VgaSeqIndex s); Some (Data, s).
Proof. read_port 3%nat. Qed.

Lemma VgaReadPort_CRTC_INDEX s :
  VgaReadPort VGA_CRTC_INDEX s = Some (VgaCrtcIndex s, s).
Proof. read_port 8%nat. Qed.

Lemma VgaReadPort_CRTC_DATA s :
  VgaReadPort VGA_CRTC_DATA s
  = Data ← array_get (VgaCrtcRegisters s) (VgaCrtcIndex s); Some (Data, s).
Proof. read_port 9%nat. Qed.

Lemma VgaReadPort_GC_INDEX s :
  VgaReadPort VGA_GC_INDEX s = Some (VgaGcIndex s, s).
Proof. read_port 10%nat. Qed.

Lemma VgaReadPort_GC_DATA s :
  VgaReadPort VGA_GC_DATA s
  = Data ← array_get (VgaGcRegisters s) (VgaGcIndex s); Some (Data, s).
Proof. read_port 11%nat. Qed.

(** X8.  A sequencer register written through the index and the data port is
    read back from the data port, the index from the index port, and the
    other registers of the bank keep their values. *)
Theorem seq_write_read (s : vga) (reg v : Z) :
  vga_ok s -> in_range VGA_SEQ_MAX_REG reg ->
  exists s',
    port_writes (set_seq reg v) s = Some s'
    /\ VgaReadPort VGA_SEQ_INDEX s' = Some (reg, s')
    /\ VgaReadPort VGA_SEQ_DATA s' = Some (v, s')
    /\ forall r, 0 <= r -> r <> reg ->
         array_get (VgaSeqRegisters s') r = array_get (VgaSeqRegisters s) r.
Proof.
  intros Hok Hreg. pose proof (VgaSeqRegisters_size s Hok) as Hlen.
  rewrite port_writes_set_seq by done. eexists. split; [reflexivity|].
  unfold in_range in Hreg.
  rewrite VgaReadPort_SEQ_INDEX, VgaReadPort_SEQ_DATA.
  cbn [VgaSeqIndex VgaSeqRegisters set_VgaSeqRegisters set_VgaSeqIndex].
  rewrite array_get_insert_eq by lia.
  split; [done|]. split; [done|].
  intros r Hr Hne. apply array_get_insert_ne; lia.
Qed.

(** X9.  A graphics controller register written through the index and the
    data port is read back from the data port, the index from the index
    port, and the other registers of the bank keep their values. *)
Theorem gc_write_read (s : vga) (reg v : Z) :
  vga_ok s -> in_range VGA_GC_MAX_REG reg ->
  exists s',
    port_writes (set_gc reg v) s = Some s'
    /\ VgaReadPort VGA_GC_INDEX s' = Some (reg, s')
    /\ VgaReadPort VGA_GC_DATA s' = Some (v, s')
    /\ forall r, 0 <= r -> r <> reg ->
         array_get (VgaGcRegisters s') r = array_get (VgaGcRegisters s) r.
Proof.
  intros Hok Hreg. pose proof (VgaGcRegisters_size s Hok) as Hlen.
  rewrite port_writes_set_gc by done. eexists. split; [reflexivity|].
  unfold in_range in Hreg.
  rewrite VgaReadPort_GC_INDEX, VgaReadPort_GC_DATA.
  destruct (reg =? VGA_GC_MISC_REG);
    cbn [VgaGcIndex VgaGcRegisters set_VgaGcRegisters set_VgaGcIndex
         set_ModeChanged];
    rewrite array_get_insert_eq by lia;
    (split; [done|]); (split; [done|]);
    intros r Hr Hne; apply array_get_insert_ne; lia.
Qed.

(** X10.  A CRTC register written through the index and the data port is
    read back from the data port, the index from the index port, and the
    other registers of the bank keep their values, in a header whose CRTC
    bank is not smaller than the GC bank: the assertion of [VgaWriteCrtc]
    bounds the GC index by the size of the CRTC bank. *)
Theorem crtc_write_read (s : vga) (reg v : Z) :
  vga_ok s -> VGA_GC_MAX_REG <= VGA_CRTC_MAX_REG ->
  in_range VGA_CRTC_MAX_REG reg ->
  exists s',
    port_writes (set_crtc reg v) s = Some s'
    /\ VgaReadPort VGA_CRTC_INDEX s' = Some (reg, s')
    /\ VgaReadPort VGA_CRTC_DATA s' = Some (v, s')
    /\ forall r, 0 <= r -> r <> reg ->
         array_get (VgaCrtcRegisters s') r = array_get (VgaCrtcRegisters s) r.
Proof.
  intros Hok Hmax Hreg. pose proof (VgaCrtcRegisters_size s Hok) as Hlen.
  pose proof (VgaGcIndex_range s Hok).
  rewrite port_writes_set_crtc by (done || lia).
  eexists. split; [reflexivity|]. unfold in_range in Hreg.
  rewrite VgaReadPort_CRTC_INDEX, VgaReadPort_CRTC_DATA.
  match goal with
  | |- context [switch reg ?l ?d] =>
      apply (switch_cases
               (fun a : vga =>
                  Some (VgaCrtcIndex a, a) = Some (reg, a)
                  /\ (Data ← array_get (VgaCrtcRegisters a) (VgaCrtcIndex a);
                      Some (Data, a)) = Some (v, a)
                  /\ forall r, 0 <= r -> r <> reg ->
                       array_get (VgaCrtcRegisters a) r
                       = array_get (VgaCrtcRegisters s) r) reg l d)
  end.
  - repeat (apply Forall_cons_2 || apply Forall_nil_2);
      cbn [snd VgaCrtcIndex VgaCrtcRegisters set_VgaCrtcRegisters
           set_VgaCrtcIndex set_ModeChanged set_CursorMoved];
      rewrite array_get_insert_eq by lia;
      (split; [done|]); (split; [done|]);
      intros r Hr Hne; apply array_get_insert_ne; lia.
  - cbn [VgaCrtcIndex VgaCrtcRegisters set_VgaCrtcRegisters set_VgaCrtcIndex].
    rewrite array_get_insert_eq by lia.
    split; [done|]. split; [done|].
    intros r Hr Hne. apply array_get_insert_ne; lia.
Qed.

(** X11.  An attribute controller register is written by two writes to the one
    port, the index first, once the latch is reset; it is read back from
    the read port, and the latch is reset again. *)
Theorem ac_write_read (s : vga) (reg v : Z) :
  vga_ok s -> VgaAcLatch s = false -> in_range VGA_AC_MAX_REG reg ->
  exists s',
    port_writes (set_ac reg v) s = Some s'
    /\ VgaReadPort VGA_AC_INDEX s' = Some (reg, s')
    /\ VgaReadPort VGA_AC_READ s' = Some (v, s')
    /\ VgaAcLatch s' = false
    /\ forall r, 0 <= r -> r <> reg ->
         array_get (VgaAcRegisters s') r = array_get (VgaAcRegisters s) r.
Proof.
  intros Hok Hlatch Hreg. pose proof (VgaAcRegisters_size s Hok) as Hlen.
  rewrite port_writes_set_ac by done. eexists. split; [reflexivity|].
  unfold in_range in Hreg.
  rewrite VgaReadPort_AC_INDEX, VgaReadPort_AC_READ.
  cbn [VgaAcIndex VgaAcRegisters VgaAcLatch set_VgaAcRegisters set_VgaAcIndex
       set_VgaAcLatch].
  rewrite array_get_insert_eq by lia.
  split; [done|]. split; [done|]. split; [done|].
  intros r Hr Hne. apply array_get_insert_ne; lia.
Qed.

End RoundTrips.

(** ** The palette written and read back *)

Section Palette.
Context `{vga_h} {Hh : vga_h_ok}.

(** X12.  In read mode the DAC data port ignores what is written to it. *)
Theorem VgaWritePort_DAC_DATA_read_mode (s : vga) (Data : Z) :
  dac_mode s = DacRead -> VgaWritePort VGA_DAC_DATA Data s = Some s.
Proof.
  unfold dac_mode. intros Hmode. rewrite VgaWritePort_DAC_DATA.
  by destruct (VgaDacReadWrite s).
Qed.

Lemma dac_data_reads n : forall s m,
  vga_ok s -> VgaDacReadWrite s = false -> VgaDacIndex s = m mod dac_period ->
  exists vs,
    port_reads VGA_DAC_DATA n s
    = Some (vs, set_VgaDacIndex ((m + Z.of_nat n) mod dac_period) s)
    /\ length vs = n
    /\ forall j : nat, (j < n)%nat ->
         vs !! j
         = VgaDacRegisters s !! Z.to_nat ((m + Z.of_nat j) mod dac_period).
Proof.
  pose proof dac_period_pos as Hp.
  induction n as [|n IH]; intros s m Hok Hmode Hidx.
  - exists []. cbn [port_reads]. rewrite Z.add_0_r, <- Hidx.
    split; [by destruct s|]. split; [done|]. lia.
  - cbn [port_reads]. rewrite VgaReadPort_DAC_DATA, Hmode. cbn [negb].
    pose proof (Z.mod_pos_bound m dac_period Hp) as Hm.
    destruct (array_get_Some (VgaDacRegisters s) (VgaDacIndex s)) as [d Hd].
    { rewrite (VgaDacRegisters_size s Hok).
      pose proof (VgaDacIndex_range s Hok). lia. }
    rewrite Hd. cbn [mbind option_bind VgaDacIndex set_VgaDacIndex].
    rewrite dac_index_next by lia.
    rewrite Hidx, Zplus_mod_idemp_l.
    change (set_VgaDacIndex ?a (set_VgaDacIndex ?b s))
      with (set_VgaDacIndex a s).
    set (s1 := set_VgaDacIndex ((m + 1) mod dac_period) s).
    destruct (IH s1 (m + 1)) as (vs & Hvs & Hlen & Hget).
    { pose proof (Z.mod_pos_bound (m + 1) dac_period Hp).
      unfold dac_period in *.
      destruct Hok; split; simpl; auto; lia. }
    { done. }
    { done. }
    rewrite Hvs. cbn [mbind option_bind]. exists (d :: vs).
    split; [|split].
    + do 2 f_equal. unfold s1.
      replace (m + 1 + Z.of_nat n) with (m + Z.of_nat (S n)) by lia.
      reflexivity.
    + simpl. by rewrite Hlen.
    + intros [|j] Hj.
      * cbn [lookup list_lookup]. rewrite Z.add_0_r, <- Hidx.
        unfold array_get in Hd. destruct (0 <=? _); [|done]. by rewrite Hd.
      * cbn [lookup list_lookup]. rewrite Hget by lia. unfold s1.
        cbn [VgaDacRegisters set_VgaDacIndex].
        do 3 f_equal. lia.
Qed.

(** X13.  At most [dac_period] bytes written to the DAC data port from an index
    on are read back from that index on, each cut to its low six bits; the
    reads leave the palette as it is and the index behind the last byte. *)
Theorem dac_write_read (s : vga) (k : Z) (ds : list Z) :
  vga_ok s -> is_BYTE k -> Forall is_BYTE ds ->
  Z.of_nat (length ds) <= dac_period ->
  exists s1 s2,
    port_writes ((VGA_DAC_WRITE_INDEX, k) :: writes_to VGA_DAC_DATA ds) s
    = Some s1
    /\ (s ← VgaWritePort VGA_DAC_READ_INDEX k s1;
        port_reads VGA_DAC_DATA (length ds) s)
       = Some ((fun d => Z.land d 0x3F) <$> ds, s2)
    /\ VgaDacIndex s2 = (k + Z.of_nat (length ds)) mod dac_period
    /\ VgaDacRegisters s2 = VgaDacRegisters s1.
Proof.
  intros Hok Hk Hds Hlen.
  destruct (dac_writes_index k ds s Hok Hk Hds) as (s1 & Hs1 & _ & Hstored).
  assert (vga_ok s1) as Hok1.
  { apply (vga_ok_port_writes _ _ _ Hok) in Hs1; [done|].
    apply Forall_cons_2; [done|]. unfold writes_to.
    apply Forall_fmap. by apply (Forall_impl _ _ _ Hds). }
  exists s1. rewrite VgaWritePort_DAC_READ_INDEX. cbn [mbind option_bind].
  set (s1' := set_VgaDacIndex _ _).
  assert (vga_ok s1') as Hok1'.
  { apply (vga_ok_VgaWritePort VGA_DAC_READ_INDEX k s1); [done..|].
    apply VgaWritePort_DAC_READ_INDEX. }
  destruct (dac_data_reads (length ds) s1' k Hok1') as (vs & Hvs & Hn & Hget).
  { done. }
  { unfold s1'. cbn [VgaDacIndex set_VgaDacIndex]. by apply dac_index_start. }
  eexists. split; [done|]. rewrite Hvs.
  assert (vs = (fun d => Z.land d 0x3F) <$> ds) as ->.
  { apply list_eq. intros j. rewrite list_lookup_fmap.
    destruct (decide (j < length ds)%nat) as [Hj|Hj].
    - rewrite Hget by done. destruct (lookup_lt_is_Some_2 ds j Hj) as [d Hd].
      rewrite Hd. cbn [fmap option_fmap option_map].
      unfold s1'. cbn [VgaDacRegisters set_VgaDacIndex set_VgaDacReadWrite].
      apply Hstored; [done|]. pose proof dac_period_pos. lia.
    - rewrite !lookup_ge_None_2; [done|lia..]. }
  split; [reflexivity|]. split; reflexivity.
Qed.

End Palette.

(** ** Video memory written and read back *)

Lemma shiftr_le o k : 0 <= o -> 0 <= k -> 0 <= Z.shiftr o k <= o.
Proof.
  intros Ho Hk. rewrite Z.shiftr_div_pow2 by lia.
  assert (0 < 2 ^ k) by (apply Z.pow_pos_nonneg; lia).
  split; [apply Z.div_pos; lia|].
  apply Z.div_le_upper_bound; [lia|]. nia.
Qed.

Lemma plane_index_inj B o j o' j' :
  0 <= o < B -> 0 <= o' < B -> o + j * B = o' + j' * B -> o = o' /\ j = j'.
Proof.
  intros Ho Ho' Heq.
  assert (j = j') as <- by (destruct (Z.lt_trichotomy j j') as [|[|]]; nia).
  lia.
Qed.

Section MemoryPath.
Context `{vga_h} {Hh : vga_h_ok}.
Variables (s : vga) (mask mem mode sel asz base limit : Z).
Hypothesis Hok : vga_ok s.
Hypothesis Hbanks : VGA_NUM_BANKS = 4.
Hypothesis Hmask :
  array_get (VgaSeqRegisters s) VGA_SEQ_MASK_REG = Some mask.
Hypothesis Hmem : array_get (VgaSeqRegisters s) VGA_SEQ_MEM_REG = Some mem.
Hypothesis Hmode : array_get (VgaGcRegisters s) VGA_GC_MODE_REG = Some mode.
Hypothesis Hsel :
  array_get (VgaGcRegisters s) VGA_GC_READ_MAP_SEL_REG = Some sel.
Hypothesis Hasz : VgaGetAddressSize s = Some asz.
Hypothesis Hbase : VgaGetVideoBaseAddress s = Some base.
Hypothesis Hlimit : VgaGetVideoLimitAddress s = Some limit.

Lemma only_memory_set m a :
  only_memory s a -> only_memory s (set_VgaMemory m a).
Proof. unfold only_memory. intros Ha. rewrite Ha. reflexivity. Qed.

(** One pass of the loop over the planes. *)
Lemma VgaWritePlane_spec Address Buffer V i j a B :
  only_memory s a -> 0 <= j < 4 -> 0 <= V < VGA_BANK_SIZE ->
  array_get Buffer i = Some B ->
  VgaWritePlane Address Buffer V i j a
  = Some (if plane_written mask mem mode (to_DWORD (Address + i)) j
          then set_VgaMemory (<[V + j * VGA_BANK_SIZE := B]> (VgaMemory a)) a
          else a).
Proof.
  intros Ha Hj HV HB. unfold VgaWritePlane, plane_written.
  assert (VgaSeqRegisters a = VgaSeqRegisters s) as -> by (by rewrite Ha).
  assert (VgaGcRegisters a = VgaGcRegisters s) as -> by (by rewrite Ha).
  rewrite Hmask, Hmem, Hmode, HB. cbn [mbind option_bind].
  destruct (bits mask _); cbn [negb andb]; [|done].
  destruct (bits mem _ && negb _); cbn [negb andb]; [done|].
  destruct (bits mode _ && negb _); cbn [negb andb]; [done|].
  pose proof VgaMemory_DWORD as HDW. rewrite Hbanks in HDW.
  rewrite to_DWORD_id by nia.
  unfold VgaMemory_set. rewrite Hbanks.
  destruct (Z.leb_spec 0 (V + j * VGA_BANK_SIZE)); [|nia].
  destruct (Z.ltb_spec (V + j * VGA_BANK_SIZE) (4 * VGA_BANK_SIZE)); [|nia].
  done.
Qed.

(** The loop over the planes, for one byte of the buffer. *)
Lemma byte_write Address Buffer V i a B :
  only_memory s a -> 0 <= V < VGA_BANK_SIZE -> array_get Buffer i = Some B ->
  exists a',
    for_loop (Z.to_nat VGA_NUM_BANKS) 0 (VgaWritePlane Address Buffer V i) a
    = Some a'
    /\ only_memory s a'
    /\ (forall Index,
          (forall j, 0 <= j < 4 ->
             plane_written mask mem mode (to_DWORD (Address + i)) j = true ->
             Index <> V + j * VGA_BANK_SIZE) ->
          VgaMemory a' !! Index = VgaMemory a !! Index)
    /\ (forall j, 0 <= j < 4 ->
          plane_written mask mem mode (to_DWORD (Address + i)) j = true ->
          VgaMemory a' !! (V + j * VGA_BANK_SIZE) = Some B).
Proof.
  intros Ha HV HB. pose proof VGA_BANK_SIZE_pos as HBANK.
  destruct (for_loop_defined
              (fun k a' =>
                 only_memory s a'
                 /\ (forall Index,
                       (forall j, 0 <= j < k ->
                          plane_written mask mem mode
                            (to_DWORD (Address + i)) j = true ->
                          Index <> V + j * VGA_BANK_SIZE) ->
                       VgaMemory a' !! Index = VgaMemory a !! Index)
                 /\ (forall j, 0 <= j < k ->
                       plane_written mask mem mode
                         (to_DWORD (Address + i)) j = true ->
                       VgaMemory a' !! (V + j * VGA_BANK_SIZE) = Some B))
              (VgaWritePlane Address Buffer V i) (Z.to_nat VGA_NUM_BANKS) 0 a)
    as (a' & Hloop & Ha' & Hframe & Hwritten).
  - intros k c Hk (Hc & Hfr & Hwr). rewrite Hbanks in Hk.
    rewrite (VgaWritePlane_spec _ _ _ _ _ c B) by (done || lia).
    eexists. split; [reflexivity|].
    destruct (plane_written mask mem mode (to_DWORD (Address + i)) k)
      eqn:Hpw.
    + split; [by apply only_memory_set|]. split.
      * intros Index HI. cbn [VgaMemory set_VgaMemory].
        rewrite lookup_insert_ne.
        -- apply Hfr. intros j Hj Hpwj. apply HI; [lia|done].
        -- apply not_eq_sym, HI; [lia|done].
      * intros j Hj Hpwj. cbn [VgaMemory set_VgaMemory].
        destruct (decide (j = k)) as [->|Hne]; [apply lookup_insert_eq|].
        rewrite lookup_insert_ne by nia. apply Hwr; [lia|done].
    + split; [done|]. split.
      * intros Index HI. apply Hfr. intros j Hj Hpwj. apply HI; [lia|done].
      * intros j Hj Hpwj. apply Hwr; [|done].
        assert (j <> k) by (intros ->; congruence). lia.
  - split; [done|]. split; [done|]. intros; lia.
  - exists a'. split; [done|]. split; [done|].
    assert (0 + Z.of_nat (Z.to_nat VGA_NUM_BANKS) = 4) as Hn
      by (rewrite Hbanks; lia).
    split.
    + intros Index HI. apply Hframe. intros j Hj. apply HI. lia.
    + intros j Hj. apply Hwritten. lia.
Qed.

(** The four apertures start at a multiple of four and are at most 64 KiB
    long. *)
Lemma aperture_size :
  0 <= base /\ base mod 4 = 0 /\ limit - base < 0x10000
  /\ limit < 4294967296.
Proof.
  revert Hbase Hlimit. unfold VgaGetVideoBaseAddress, VgaGetVideoLimitAddress.
  destruct (array_get (VgaGcRegisters s) VGA_GC_MISC_REG) as [misc|]; [|done].
  cbn [mbind option_bind]. rewrite land_3.
  pose proof (Z.mod_pos_bound (Z.shiftr misc 2) 4 ltac:(lia)) as Hk.
  assert (Z.shiftr misc 2 mod 4 = 0 \/ Z.shiftr misc 2 mod 4 = 1
          \/ Z.shiftr misc 2 mod 4 = 2 \/ Z.shiftr misc 2 mod 4 = 3)
    as [-> | [-> | [-> | ->]]] by lia;
    intros H1 H2; vm_compute in H1, H2;
    injection H1 as <-; injection H2 as <-;
    repeat split; (reflexivity || lia).
Qed.

Lemma asz_range : 1 <= asz <= 4.
Proof.
  destruct (VgaGetAddressSize_cases s Hok) as (size & Hsize & Hsizes).
  rewrite Hasz in Hsize. injection Hsize as <-. lia.
Qed.

Lemma VgaTranslateWriteAddress_aperture A :
  base <= A <= limit ->
  VgaTranslateWriteAddress A s
  = Some (Z.shiftr (A - base) (plane_shift mem mode) * asz).
Proof.
  intros HA. destruct aperture_size as (Hb0 & Hb4 & Hsz & Hl).
  pose proof asz_range.
  unfold VgaTranslateWriteAddress, plane_shift. rewrite Hbase, Hmem.
  cbn [mbind option_bind]. rewrite (to_DWORD_id (A - base)) by lia.
  destruct (bits mem VGA_SEQ_MEM_C4).
  - cbn [mbind option_bind]. rewrite Hasz. cbn [mbind option_bind].
    f_equal. apply to_DWORD_id.
    pose proof (shiftr_le (A - base) 2). nia.
  - rewrite Hmode. cbn [mbind option_bind].
    destruct (bits mode VGA_GC_MODE_OE); cbn [mbind option_bind];
      rewrite Hasz; cbn [mbind option_bind]; f_equal.
    + apply to_DWORD_id. pose proof (shiftr_le (A - base) 1). nia.
    + rewrite Z.shiftr_0_r. apply to_DWORD_id. nia.
Qed.

Lemma plane_read_range A : 0 <= plane_read mem mode sel A < 4.
Proof.
  unfold plane_read.
  destruct (bits mem _); [rewrite land_3; apply Z.mod_pos_bound; lia|].
  destruct (bits mode _); [|rewrite land_3; apply Z.mod_pos_bound; lia].
  rewrite land_1. pose proof (Z.mod_pos_bound A 2). lia.
Qed.

Lemma VgaTranslateReadAddress_aperture A :
  base <= A <= limit ->
  Z.shiftr (A - base) (plane_shift mem mode) * asz < VGA_BANK_SIZE ->
  VgaTranslateReadAddress A s
  = Some (Z.shiftr (A - base) (plane_shift mem mode) * asz
          + plane_read mem mode sel A * VGA_BANK_SIZE).
Proof.
  intros HA HV. destruct aperture_size as (Hb0 & Hb4 & Hsz & Hl).
  pose proof asz_range. pose proof (plane_read_range A) as Hp. revert Hp HV.
  pose proof VgaMemory_DWORD as HDW. rewrite Hbanks in HDW.
  assert (Z.land (A - base) 3 = Z.land A 3) as H3.
  { rewrite !land_3. Z.div_mod_to_equations. lia. }
  assert (Z.land (A - base) 1 = Z.land A 1) as H1.
  { rewrite !land_1. Z.div_mod_to_equations. lia. }
  unfold VgaTranslateReadAddress, plane_shift, plane_read.
  rewrite Hbase, Hmem.
  cbn [mbind option_bind]. rewrite (to_DWORD_id (A - base)) by lia.
  destruct (bits mem VGA_SEQ_MEM_C4).
  - cbn [mbind option_bind]. rewrite Hasz. cbn [mbind option_bind].
    intros Hp HV. rewrite H3, (to_BYTE_id (Z.land A 3)) by lia.
    pose proof (shiftr_le (A - base) 2).
    rewrite (to_DWORD_id (_ * asz)) by nia. f_equal. apply to_DWORD_id. nia.
  - rewrite Hmode. cbn [mbind option_bind].
    destruct (bits mode VGA_GC_MODE_OE); cbn [mbind option_bind].
    + rewrite Hasz. cbn [mbind option_bind].
      intros Hp HV. rewrite H1, (to_BYTE_id (Z.land A 1)) by lia.
      pose proof (shiftr_le (A - base) 1).
      rewrite (to_DWORD_id (_ * asz)) by nia. f_equal. apply to_DWORD_id. nia.
    + rewrite Hsel. cbn [mbind option_bind]. rewrite Hasz.
      cbn [mbind option_bind]. rewrite Z.shiftr_0_r.
      intros Hp HV. rewrite (to_BYTE_id (Z.land sel 3)) by lia.
      assert (0 <= (A - base) * asz) by nia.
      rewrite (to_DWORD_id (_ * asz)) by lia. f_equal. apply to_DWORD_id. nia.
Qed.

(** With the four planes enabled, a write reaches the plane a read of the
    same address selects. *)
Lemma plane_written_plane_read A :
  Z.land mask 0x0F = 0x0F ->
  plane_written mask mem mode A (plane_read mem mode sel A) = true.
Proof.
  intros Hall. pose proof (plane_read_range A) as Hp. revert Hp.
  unfold plane_written, plane_read. intros Hp.
  rewrite (plane_mask_all mask _ Hall Hp). cbn [andb].
  destruct (bits mem _), (bits mode _); cbn [andb negb];
    rewrite ?Z.eqb_refl; cbn [andb negb]; try done.
  - assert (Z.land A 1 = Z.land (Z.land A 3) 1) as <-; [|by rewrite Z.eqb_refl].
    rewrite !land_1, land_3. Z.div_mod_to_equations. lia.
  - assert (Z.land A 1 = Z.land (Z.land A 1) 1) as <-; [|by rewrite Z.eqb_refl].
    rewrite !land_1. Z.div_mod_to_equations. lia.
Qed.

(** Inside the aperture, the write of another address does not reach the
    byte a read of this address selects. *)
Lemma plane_read_other A A' j :
  base <= A <= limit -> base <= A' <= limit -> A <> A' ->
  Z.shiftr (A - base) (plane_shift mem mode) * asz < VGA_BANK_SIZE ->
  Z.shiftr (A' - base) (plane_shift mem mode) * asz < VGA_BANK_SIZE ->
  0 <= j < 4 ->
  plane_written mask mem mode A' j = true ->
  Z.shiftr (A - base) (plane_shift mem mode) * asz
  + plane_read mem mode sel A * VGA_BANK_SIZE
  <> Z.shiftr (A' - base) (plane_shift mem mode) * asz + j * VGA_BANK_SIZE.
Proof.
  intros HA HA' Hne HV HV' Hj Hpw Heq.
  destruct aperture_size as (Hb0 & Hb4 & Hsz & Hl).
  pose proof asz_range as Hs. pose proof (plane_read_range A) as Hp.
  pose proof VGA_BANK_SIZE_pos as HBANK.
  assert (0 <= plane_shift mem mode) as Hk
    by (unfold plane_shift;
        destruct (bits mem VGA_SEQ_MEM_C4), (bits mode VGA_GC_MODE_OE); lia).
  pose proof (shiftr_le (A - base) (plane_shift mem mode) ltac:(lia) Hk).
  pose proof (shiftr_le (A' - base) (plane_shift mem mode) ltac:(lia) Hk).
  assert (plane_read mem mode sel A = j) as Hpj by nia.
  assert (Z.shiftr (A - base) (plane_shift mem mode)
          = Z.shiftr (A' - base) (plane_shift mem mode)) as Hsh by nia.
  clear Heq HV HV'. revert Hpj Hsh Hpw.
  unfold plane_read, plane_shift, plane_written.
  rewrite !andb_true_iff, !negb_true_iff, !andb_false_iff, !negb_false_iff.
  destruct (bits mem VGA_SEQ_MEM_C4).
  - intros <- Hsh [[_ [?|Hb3]] _]; [done|]. apply Z.eqb_eq in Hb3.
    rewrite !land_3 in Hb3. rewrite !Z.shiftr_div_pow2 in Hsh by lia.
    change (2 ^ 2) with 4 in Hsh. apply Hne.
    Z.div_mod_to_equations. lia.
  - destruct (bits mode VGA_GC_MODE_OE).
    + intros <- Hsh [_ [?|Hb1]]; [done|]. apply Z.eqb_eq in Hb1.
      rewrite !land_1 in Hb1. rewrite !Z.shiftr_div_pow2 in Hsh by lia.
      change (2 ^ 1) with 2 in Hsh. apply Hne.
      Z.div_mod_to_equations. lia.
    + intros _ Hsh _. rewrite !Z.shiftr_0_r in Hsh. lia.
Qed.

(** The bytes of a buffer written into the aperture are each where a read
    of its address finds it. *)
Lemma write_loop Address Buffer :
  Z.land mask 0x0F = 0x0F ->
  base <= Address -> Address + Z.of_nat (length Buffer) <= limit + 1 ->
  (forall i, 0 <= i < Z.of_nat (length Buffer) ->
     Z.shiftr (Address + i - base) (plane_shift mem mode) * asz
     < VGA_BANK_SIZE) ->
  exists s',
    for_loop (length Buffer) 0
      (fun i a =>
         VideoAddress ← VgaTranslateWriteAddress (to_DWORD (Address + i)) a;
         for_loop (Z.to_nat VGA_NUM_BANKS) 0
           (VgaWritePlane Address Buffer VideoAddress i) a) s
    = Some s'
    /\ only_memory s s'
    /\ forall i d,
         0 <= i -> array_get Buffer i = Some d ->
         VgaMemory s'
         !! (Z.shiftr (Address + i - base) (plane_shift mem mode) * asz
             + plane_read mem mode sel (Address + i) * VGA_BANK_SIZE)
         = Some d.
Proof.
  intros Hall HA Hend Hfits.
  destruct aperture_size as (Hb0 & Hb4 & Hsz & Hl).
  destruct (for_loop_defined
              (fun k a =>
                 only_memory s a
                 /\ forall i d,
                      0 <= i < k -> array_get Buffer i = Some d ->
                      VgaMemory a
                      !! (Z.shiftr (Address + i - base) (plane_shift mem mode)
                          * asz
                          + plane_read mem mode sel (Address + i)
                            * VGA_BANK_SIZE)
                      = Some d)
              (fun i a =>
                 VideoAddress ←
                   VgaTranslateWriteAddress (to_DWORD (Address + i)) a;
                 for_loop (Z.to_nat VGA_NUM_BANKS) 0
                   (VgaWritePlane Address Buffer VideoAddress i) a)
              (length Buffer) 0 s) as (s' & Hloop & Hs' & Hstored).
  - intros k a Hk [Ha Hst].
    rewrite (VgaTranslateWriteAddress_only_memory _ _ _ Ha).
    rewrite (to_DWORD_id (Address + k)) by lia.
    rewrite VgaTranslateWriteAddress_aperture by lia.
    cbn [mbind option_bind].
    destruct (array_get_Some Buffer k) as [B HB]; [lia|].
    pose proof (Hfits k ltac:(lia)) as HVk.
    pose proof (shiftr_le (Address + k - base) (plane_shift mem mode)
                  ltac:(lia)) as Hsh.
    pose proof asz_range.
    destruct (byte_write Address Buffer
                (Z.shiftr (Address + k - base) (plane_shift mem mode) * asz)
                k a B Ha) as (a' & Hloop & Ha' & Hfr & Hwr).
    { split; [|exact HVk].
      assert (0 <= plane_shift mem mode)
        by (unfold plane_shift;
            destruct (bits mem VGA_SEQ_MEM_C4), (bits mode VGA_GC_MODE_OE);
            lia).
      specialize (Hsh ltac:(done)). nia. }
    { done. }
    rewrite (to_DWORD_id (Address + k)) in Hfr, Hwr by lia.
    exists a'. split; [exact Hloop|]. split; [done|].
    intros i d Hi Hd. destruct (decide (i = k)) as [->|Hne].
    + rewrite Hd in HB. injection HB as ->.
      apply Hwr; [apply plane_read_range|by apply plane_written_plane_read].
    + rewrite Hfr; [apply Hst; [lia|done]|].
      assert (i < Z.of_nat (length Buffer)).
      { unfold array_get in Hd. destruct (0 <=? i); [|done].
        apply lookup_lt_Some in Hd. lia. }
      intros j Hj Hpw.
      apply plane_read_other; try done; try lia; apply Hfits; lia.
  - split; [apply only_memory_refl|]. intros; lia.
  - exists s'. split; [done|]. split; [done|].
    intros i d Hi Hd. apply Hstored; [|done].
    unfold array_get in Hd. destruct (0 <=? i); [|done].
    apply lookup_lt_Some in Hd. lia.
Qed.

Lemma VgaTranslateReadAddress_only_memory Address s' :
  only_memory s s' ->
  VgaTranslateReadAddress Address s' = VgaTranslateReadAddress Address s.
Proof. unfold only_memory. by intros ->. Qed.

(** The read of the bytes a state holds where the reads find them. *)
Lemma read_loop Address Buffer Buffer0 s' :
  only_memory s s' ->
  base <= Address -> Address + Z.of_nat (length Buffer) <= limit + 1 ->
  (forall i, 0 <= i < Z.of_nat (length Buffer) ->
     Z.shiftr (Address + i - base) (plane_shift mem mode) * asz
     < VGA_BANK_SIZE) ->
  (forall i d,
     0 <= i -> array_get Buffer i = Some d ->
     VgaMemory s'
     !! (Z.shiftr (Address + i - base) (plane_shift mem mode) * asz
         + plane_read mem mode sel (Address + i) * VGA_BANK_SIZE)
     = Some d) ->
  length Buffer0 = length Buffer ->
  for_loop (length Buffer) 0
    (fun i Buffer =>
       VideoAddress ← VgaTranslateReadAddress (to_DWORD (Address + i)) s';
       Data ← VgaMemory_get s' VideoAddress;
       array_set Buffer i Data) Buffer0
  = Some Buffer.
Proof.
  intros Hs' HA Hend Hfits Hstored Hlen.
  destruct aperture_size as (Hb0 & Hb4 & Hsz & Hl).
  pose proof VgaMemory_DWORD as HDW. rewrite Hbanks in HDW.
  destruct (for_loop_defined
              (fun k Buf =>
                 length Buf = length Buffer
                 /\ forall i : nat, Z.of_nat i < k -> Buf !! i = Buffer !! i)
              (fun i Buffer =>
                 VideoAddress ←
                   VgaTranslateReadAddress (to_DWORD (Address + i)) s';
                 Data ← VgaMemory_get s' VideoAddress;
                 array_set Buffer i Data)
              (length Buffer) 0 Buffer0) as (Buf & Hloop & HBuf & Hsame).
  - intros k Buf Hk [HlenB Hsm].
    rewrite (VgaTranslateReadAddress_only_memory _ _ Hs').
    rewrite (to_DWORD_id (Address + k)) by lia.
    pose proof (Hfits k ltac:(lia)) as HVk.
    rewrite VgaTranslateReadAddress_aperture by (lia || done).
    cbn [mbind option_bind].
    destruct (array_get_Some Buffer k) as [d Hd]; [lia|].
    pose proof (Hstored k d ltac:(lia) Hd) as Hget.
    pose proof (plane_read_range (Address + k)) as Hp.
    assert (0 <= Z.shiftr (Address + k - base) (plane_shift mem mode) * asz)
      as HV0.
    { assert (0 <= plane_shift mem mode)
        by (unfold plane_shift;
            destruct (bits mem VGA_SEQ_MEM_C4), (bits mode VGA_GC_MODE_OE);
            lia).
      pose proof (shiftr_le (Address + k - base) (plane_shift mem mode)
                    ltac:(lia) ltac:(done)).
      pose proof asz_range. nia. }
    unfold VgaMemory_get. rewrite Hbanks.
    match goal with
    | |- context [(0 <=? ?R) && (?R <? ?M)] =>
        destruct (Z.leb_spec 0 R); [|nia];
        destruct (Z.ltb_spec R M); [|nia]
    end.
    cbn [andb mbind option_bind]. rewrite Hget. cbn [default].
    rewrite array_set_Some by lia.
    eexists. split; [reflexivity|]. split; [by rewrite length_insert|].
    intros i Hi. destruct (decide (i = Z.to_nat k)) as [->|Hne].
    + rewrite list_lookup_insert_eq by lia.
      unfold array_get in Hd. destruct (0 <=? k); [|done]. by rewrite Hd.
    + rewrite list_lookup_insert_ne by done. apply Hsm. lia.
  - split; [done|]. intros; lia.
  - rewrite Hloop. f_equal. apply list_eq. intros i.
    destruct (decide (i < length Buffer)%nat) as [Hi|Hi].
    + apply Hsame. lia.
    + rewrite !lookup_ge_None_2; [done|lia..].
Qed.

End MemoryPath.

Section MemoryTheorems.
Context `{vga_h} {Hh : vga_h_ok}.

Lemma plane_mask_none mask j :
  Z.land mask 0x0F = 0 -> 0 <= j < 4 -> bits mask (Z.shiftl 1 j) = false.
Proof.
  intros Hmask Hj. unfold bits. apply negb_false_iff, Z.eqb_eq.
  apply Z.bits_inj'. intros n Hn.
  rewrite Z.land_spec, Z.bits_0, Z.shiftl_1_l, Z.pow2_bits_eqb by lia.
  destruct (Z.eqb_spec j n) as [<-|]; [|apply andb_false_r].
  rewrite andb_true_r.
  assert (Z.testbit (Z.land mask 0x0F) j = false) as Hb
    by (by rewrite Hmask, Z.bits_0).
  rewrite Z.land_spec in Hb.
  assert (j = 0 \/ j = 1 \/ j = 2 \/ j = 3) as Hc by lia.
  destruct Hc as [->|[->|[->| ->]]];
    change (Z.testbit 15 _) with true in Hb; by rewrite andb_true_r in Hb.
Qed.

(** What the write of one byte does to the video memory. *)
Lemma write_byte s Address B V mask mem mode :
  VGA_NUM_BANKS = 4 ->
  bits (VgaMiscRegister s) VGA_MISC_RAM_ENABLED = true ->
  array_get (VgaSeqRegisters s) VGA_SEQ_MASK_REG = Some mask ->
  array_get (VgaSeqRegisters s) VGA_SEQ_MEM_REG = Some mem ->
  array_get (VgaGcRegisters s) VGA_GC_MODE_REG = Some mode ->
  0 <= Address < 4294967296 ->
  VgaTranslateWriteAddress Address s = Some V -> V < VGA_BANK_SIZE ->
  exists s',
    VgaWriteMemory Address [B] 1 s = Some s'
    /\ only_memory s s'
    /\ (forall Index,
          (forall j, 0 <= j < 4 ->
             plane_written mask mem mode Address j = true ->
             Index <> V + j * VGA_BANK_SIZE) ->
          VgaMemory s' !! Index = VgaMemory s !! Index)
    /\ (forall j, 0 <= j < 4 ->
          plane_written mask mem mode Address j = true ->
          VgaMemory s' !! (V + j * VGA_BANK_SIZE) = Some B).
Proof.
  intros Hbanks Hram Hmask Hmem Hmode HA HV HV1.
  pose proof (VgaTranslateWriteAddress_nonneg _ _ _ HV) as HV0.
  unfold VgaWriteMemory. rewrite Hram, Hmask. cbn [negb mbind option_bind].
  destruct (Z.eqb_spec (Z.land mask 15) 0) as [Hnone|Hsome].
  - exists s. split; [done|]. split; [apply only_memory_refl|].
    split; [done|]. intros j Hj. unfold plane_written.
    by rewrite (plane_mask_none mask j Hnone Hj).
  - change (Z.to_nat 1) with 1%nat. cbn [for_loop].
    rewrite Z.add_0_r, (to_DWORD_id Address), HV by done.
    cbn [mbind option_bind].
    destruct (byte_write s mask mem mode Hbanks Hmask Hmem Hmode Address [B]
                V 0 s B (only_memory_refl s) ltac:(lia) eq_refl)
      as (s' & -> & Hs' & Hfr & Hwr).
    rewrite Z.add_0_r, (to_DWORD_id Address) in Hfr, Hwr by done.
    by exists s'.
Qed.

(** X14.  With video RAM enabled, the write of one byte whose translated address
    [V] lies inside a plane stores the byte at the offset [V] of each plane
    that [plane_written] selects: the planes the mask enables, of them in
    chain-4 mode the plane [Address & 3] and in odd-even mode the planes of
    the parity of [Address].  Every other byte of the four planes keeps its
    value, and so does the rest of the state. *)
Theorem VgaWriteMemory_byte (s : vga) (Address B V mask mem mode : Z) :
  VGA_NUM_BANKS = 4 ->
  bits (VgaMiscRegister s) VGA_MISC_RAM_ENABLED = true ->
  array_get (VgaSeqRegisters s) VGA_SEQ_MASK_REG = Some mask ->
  array_get (VgaSeqRegisters s) VGA_SEQ_MEM_REG = Some mem ->
  array_get (VgaGcRegisters s) VGA_GC_MODE_REG = Some mode ->
  0 <= Address < 4294967296 ->
  VgaTranslateWriteAddress Address s = Some V -> V < VGA_BANK_SIZE ->
  exists s',
    VgaWriteMemory Address [B] 1 s = Some s'
    /\ only_memory s s'
    /\ forall j o, 0 <= j < 4 -> 0 <= o < VGA_BANK_SIZE ->
         VgaMemory_get s' (o + j * VGA_BANK_SIZE)
         = if (o =? V) && plane_written mask mem mode Address j then Some B
           else VgaMemory_get s (o + j * VGA_BANK_SIZE).
Proof.
  intros Hbanks Hram Hmask Hmem Hmode HA HV HV1.
  pose proof (VgaTranslateWriteAddress_nonneg _ _ _ HV) as HV0.
  destruct (write_byte s Address B V mask mem mode)
    as (s' & Hw & Hs' & Hfr & Hwr); try done.
  exists s'. split; [done|]. split; [done|].
  intros j o Hj Ho. unfold VgaMemory_get. rewrite Hbanks.
  destruct (Z.leb_spec 0 (o + j * VGA_BANK_SIZE)); [|nia].
  destruct (Z.ltb_spec (o + j * VGA_BANK_SIZE) (4 * VGA_BANK_SIZE)); [|nia].
  cbn [andb].
  destruct (Z.eqb_spec o V) as [->|Hne]; cbn [andb].
  - destruct (plane_written mask mem mode Address j) eqn:Hpw.
    + by rewrite (Hwr j Hj Hpw).
    + rewrite Hfr; [done|]. intros j' Hj' Hpw' Heq.
      apply plane_index_inj in Heq as [_ ->]; [congruence|lia..].
  - rewrite Hfr; [done|]. intros j' Hj' Hpw' Heq.
    apply plane_index_inj in Heq as [? _]; [done|lia..].
Qed.

(** X15.  In odd-even mode with chain-4 off and the four planes enabled, a byte
    written at an even address lands in the planes 0 and 2 and a byte
    written at an odd address in the planes 1 and 3, at the translated
    offset; the other two planes keep their bytes. *)
Theorem odd_even_planes (s : vga) (Address B V mask mem mode : Z) :
  VGA_NUM_BANKS = 4 ->
  bits (VgaMiscRegister s) VGA_MISC_RAM_ENABLED = true ->
  array_get (VgaSeqRegisters s) VGA_SEQ_MASK_REG = Some mask ->
  Z.land mask 0x0F = 0x0F ->
  array_get (VgaSeqRegisters s) VGA_SEQ_MEM_REG = Some mem ->
  bits mem VGA_SEQ_MEM_C4 = false ->
  array_get (VgaGcRegisters s) VGA_GC_MODE_REG = Some mode ->
  bits mode VGA_GC_MODE_OE = true ->
  0 <= Address < 4294967296 ->
  VgaTranslateWriteAddress Address s = Some V -> V < VGA_BANK_SIZE ->
  exists s',
    VgaWriteMemory Address [B] 1 s = Some s'
    /\ forall j o, 0 <= j < 4 -> 0 <= o < VGA_BANK_SIZE ->
         VgaMemory_get s' (o + j * VGA_BANK_SIZE)
         = if (o =? V) && (j mod 2 =? Address mod 2) then Some B
           else VgaMemory_get s (o + j * VGA_BANK_SIZE).
Proof.
  intros Hbanks Hram Hmask Hall Hmem HC4 Hmode HOE HA HV HV1.
  pose proof (VgaTranslateWriteAddress_nonneg _ _ _ HV) as HV0.
  destruct (write_byte s Address B V mask mem mode)
    as (s' & Hw & _ & Hfr & Hwr); try done.
  assert (forall j, 0 <= j < 4 ->
            plane_written mask mem mode Address j
            = (j mod 2 =? Address mod 2)) as Hpw.
  { intros j Hj. unfold plane_written.
    rewrite (plane_mask_all mask j Hall Hj), HC4, HOE. cbn [andb negb].
    by rewrite negb_involutive, !land_1, (Z.eqb_sym (j mod 2)). }
  exists s'. split; [done|].
  intros j o Hj Ho. unfold VgaMemory_get. rewrite Hbanks.
  destruct (Z.leb_spec 0 (o + j * VGA_BANK_SIZE)); [|nia].
  destruct (Z.ltb_spec (o + j * VGA_BANK_SIZE) (4 * VGA_BANK_SIZE)); [|nia].
  cbn [andb]. rewrite <- (Hpw j Hj).
  destruct (Z.eqb_spec o V) as [->|Hne]; cbn [andb].
  - destruct (plane_written mask mem mode Address j) eqn:Hj'.
    + by rewrite (Hwr j Hj Hj').
    + rewrite Hfr; [done|]. intros j' Hj'' Hpw' Heq.
      apply plane_index_inj in Heq as [_ ->]; [congruence|lia..].
  - rewrite Hfr; [done|]. intros j' Hj' Hpw' Heq.
    apply plane_index_inj in Heq as [? _]; [done|lia..].
Qed.

(** X16.  In chain-4 mode with the four planes enabled, four bytes written from
    an address of the aperture that is a multiple of four on land in the
    planes 0, 1, 2 and 3, each at the one offset. *)
Theorem chain4_linear_write (s : vga) (q b0 b1 b2 b3 : Z)
    (mask mem base limit size : Z) :
  vga_ok s ->
  VGA_NUM_BANKS = 4 ->
  bits (VgaMiscRegister s) VGA_MISC_RAM_ENABLED = true ->
  array_get (VgaSeqRegisters s) VGA_SEQ_MASK_REG = Some mask ->
  Z.land mask 0x0F = 0x0F ->
  array_get (VgaSeqRegisters s) VGA_SEQ_MEM_REG = Some mem ->
  bits mem VGA_SEQ_MEM_C4 = true ->
  VgaGetVideoBaseAddress s = Some base ->
  VgaGetVideoLimitAddress s = Some limit ->
  VgaGetAddressSize s = Some size ->
  0 <= q -> base + 4 * q + 3 <= limit -> q * size < VGA_BANK_SIZE ->
  exists s',
    VgaWriteMemory (base + 4 * q) [b0; b1; b2; b3] 4 s = Some s'
    /\ VgaMemory_get s' (q * size + 0 * VGA_BANK_SIZE) = Some b0
    /\ VgaMemory_get s' (q * size + 1 * VGA_BANK_SIZE) = Some b1
    /\ VgaMemory_get s' (q * size + 2 * VGA_BANK_SIZE) = Some b2
    /\ VgaMemory_get s' (q * size + 3 * VGA_BANK_SIZE) = Some b3.
Proof.
  intros Hok Hbanks Hram Hmask Hall Hmem HC4 Hbase Hlimit Hsize Hq Hend HV.
  destruct (gc_get s 2 _ Hok eq_refl) as (mode & Hmode & _).
  destruct (aperture_size s base limit Hbase Hlimit) as (Hb0 & Hb4 & Hsz & Hl).
  destruct (VgaGetAddressSize_cases s Hok) as (size' & Hsize' & Hsizes).
  rewrite Hsize in Hsize'. injection Hsize' as <-.
  assert (plane_shift mem mode = 2) as Hshift
    by (unfold plane_shift; by rewrite HC4).
  assert (forall i, 0 <= i < 4 ->
            Z.shiftr (base + 4 * q + i - base) 2 = q) as Hsh.
  { intros i Hi. rewrite Z.shiftr_div_pow2 by lia. change (2 ^ 2) with 4.
    Z.div_mod_to_equations. lia. }
  assert (forall i, 0 <= i < 4 ->
            plane_read mem mode 0 (base + 4 * q + i) = i) as Hplane.
  { intros i Hi. unfold plane_read. rewrite HC4, land_3.
    Z.div_mod_to_equations. lia. }
  destruct (write_loop s mask mem mode 0 size base limit Hok Hbanks Hmask Hmem
              Hmode Hsize Hbase Hlimit (base + 4 * q) [b0; b1; b2; b3])
    as (s' & Hloop & Hs' & Hstored).
  { done. }
  { lia. }
  { cbn [length]. lia. }
  { cbn [length]. intros i Hi. rewrite Hshift, Hsh by lia. done. }
  exists s'. split.
  - unfold VgaWriteMemory. rewrite Hram, Hmask. cbn [negb mbind option_bind].
    destruct (Z.eqb_spec (Z.land mask 15) 0) as [Hnone|_]; [lia|].
    exact Hloop.
  - pose proof VgaMemory_DWORD as HDW. rewrite Hbanks in HDW.
    assert (0 <= q * size) by nia.
    assert (forall i d, 0 <= i < 4 -> array_get [b0; b1; b2; b3] i = Some d ->
              VgaMemory_get s' (q * size + i * VGA_BANK_SIZE) = Some d)
      as Hget.
    { intros i d Hi Hd. pose proof (Hstored i d ltac:(lia) Hd) as Hst.
      rewrite Hshift, Hsh, Hplane in Hst by lia.
      unfold VgaMemory_get. rewrite Hbanks.
      destruct (Z.leb_spec 0 (q * size + i * VGA_BANK_SIZE)); [|nia].
      destruct (Z.ltb_spec (q * size + i * VGA_BANK_SIZE)
                  (4 * VGA_BANK_SIZE)); [|nia].
      cbn [andb]. by rewrite Hst. }
    repeat split; apply Hget; (lia || reflexivity).
Qed.

(** X17.  With video RAM enabled and the four planes enabled, a buffer written
    into the aperture is the buffer read back from there, in chain-4, in
    odd-even and in planar addressing alike, provided the translated
    address of each byte lies inside a plane. *)
Theorem VgaWriteMemory_VgaReadMemory (s : vga) (Address : Z)
    (Buffer Buffer0 : list Z) (mask base limit : Z) :
  vga_ok s ->
  VGA_NUM_BANKS = 4 ->
  bits (VgaMiscRegister s) VGA_MISC_RAM_ENABLED = true ->
  array_get (VgaSeqRegisters s) VGA_SEQ_MASK_REG = Some mask ->
  Z.land mask 0x0F = 0x0F ->
  VgaGetVideoBaseAddress s = Some base ->
  VgaGetVideoLimitAddress s = Some limit ->
  base <= Address -> Address + Z.of_nat (length Buffer) <= limit + 1 ->
  (forall i V,
     0 <= i < Z.of_nat (length Buffer) ->
     VgaTranslateWriteAddress (Address + i) s = Some V ->
     V < VGA_BANK_SIZE) ->
  length Buffer0 = length Buffer ->
  exists s',
    VgaWriteMemory Address Buffer (Z.of_nat (length Buffer)) s = Some s'
    /\ VgaReadMemory Address Buffer0 (Z.of_nat (length Buffer)) s'
       = Some Buffer.
Proof.
  intros Hok Hbanks Hram Hmask Hall Hbase Hlimit HA Hend Hfits Hlen.
  destruct (seq_get s 3 _ Hok eq_refl) as (mem & Hmem & _).
  destruct (gc_get s 2 _ Hok eq_refl) as (mode & Hmode & _).
  destruct (gc_get s 1 _ Hok eq_refl) as (sel & Hsel & _).
  destruct (VgaGetAddressSize_cases s Hok) as (size & Hsize & _).
  assert (forall i, 0 <= i < Z.of_nat (length Buffer) ->
            Z.shiftr (Address + i - base) (plane_shift mem mode) * size
            < VGA_BANK_SIZE) as Hfits'.
  { intros i Hi. apply (Hfits i); [done|].
    apply (VgaTranslateWriteAddress_aperture s mem mode size base limit);
      (done || lia). }
  destruct (write_loop s mask mem mode sel size base limit Hok Hbanks Hmask
              Hmem Hmode Hsize Hbase Hlimit Address Buffer Hall HA Hend Hfits')
    as (s' & Hloop & Hs' & Hstored).
  exists s'. split.
  - unfold VgaWriteMemory. rewrite Hram, Hmask. cbn [negb mbind option_bind].
    destruct (Z.eqb_spec (Z.land mask 15) 0) as [Hnone|_]; [lia|].
    rewrite Nat2Z.id. exact Hloop.
  - unfold VgaReadMemory.
    assert (VgaMiscRegister s' = VgaMiscRegister s) as ->
      by (by rewrite Hs').
    rewrite Hram. cbn [negb]. rewrite Nat2Z.id.
    by apply (read_loop s mem mode sel size base limit).
Qed.

End MemoryTheorems.

(** ** The update rectangle *)

Lemma VgaMarkForUpdate_in_rect Row Column s :
  is_SHORT Row -> is_SHORT Column ->
  in_rect (UpdateRectangle (VgaMarkForUpdate Row Column s)) Row Column.
Proof.
  unfold is_SHORT, SHRT_MIN, SHRT_MAX, in_rect, VgaMarkForUpdate.
  intros HR HC. cbn [UpdateRectangle set_NeedsUpdate set_UpdateRectangle].
  destruct (NeedsUpdate s); cbn [Left Top Right Bottom]; lia.
Qed.

Lemma VgaMarkForUpdate_grows Row Column s :
  NeedsUpdate s = true ->
  rect_le (UpdateRectangle s) (UpdateRectangle (VgaMarkForUpdate Row Column s)).
Proof.
  unfold rect_le, VgaMarkForUpdate. intros ->.
  cbn [UpdateRectangle set_NeedsUpdate set_UpdateRectangle Left Top Right
       Bottom]. lia.
Qed.

Lemma rect_le_refl r : rect_le r r.
Proof. unfold rect_le. lia. Qed.

Lemma rect_le_trans r1 r2 r3 : rect_le r1 r2 -> rect_le r2 r3 -> rect_le r1 r3.
Proof. unfold rect_le. lia. Qed.

Lemma in_rect_le r r' Row Column :
  rect_le r r' -> in_rect r Row Column -> in_rect r' Row Column.
Proof. unfold rect_le, in_rect. lia. Qed.

(** Marking from a state whose update request is set. *)
Lemma marks_grow pts : forall s,
  NeedsUpdate s = true ->
  NeedsUpdate (marks pts s) = true
  /\ rect_le (UpdateRectangle s) (UpdateRectangle (marks pts s))
  /\ (forall q, q ∈ pts -> in_rect (UpdateRectangle (marks pts s)) q.1 q.2)
  /\ (Left (UpdateRectangle (marks pts s)) = Left (UpdateRectangle s)
      \/ exists q, q ∈ pts /\ q.2 = Left (UpdateRectangle (marks pts s)))
  /\ (Right (UpdateRectangle (marks pts s)) = Right (UpdateRectangle s)
      \/ exists q, q ∈ pts /\ q.2 = Right (UpdateRectangle (marks pts s)))
  /\ (Top (UpdateRectangle (marks pts s)) = Top (UpdateRectangle s)
      \/ exists q, q ∈ pts /\ q.1 = Top (UpdateRectangle (marks pts s)))
  /\ (Bottom (UpdateRectangle (marks pts s)) = Bottom (UpdateRectangle s)
      \/ exists q, q ∈ pts /\ q.1 = Bottom (UpdateRectangle (marks pts s)))
  /\ marks pts s
     = set_NeedsUpdate true
         (set_UpdateRectangle (UpdateRectangle (marks pts s)) s).
Proof.
  induction pts as [|[Row Column] pts IH]; intros s Hs.
  - cbn [marks foldl]. split; [done|]. split; [apply rect_le_refl|].
    split; [by intros q ?%elem_of_nil|].
    do 4 (split; [by left|]). rewrite <- Hs. by destruct s.
  - change (marks ((Row, Column) :: pts) s)
      with (marks pts (VgaMarkForUpdate Row Column s)).
    set (s1 := VgaMarkForUpdate Row Column s).
    destruct (IH s1 eq_refl) as (Hn & Hle & Hin & HL & HR & HT & HB & Heq).
    pose proof (VgaMarkForUpdate_grows Row Column s Hs) as Hle1. fold s1 in Hle1.
    assert (UpdateRectangle s1
            = {| Left := Z.min (Left (UpdateRectangle s)) Column;
                 Top := Z.min (Top (UpdateRectangle s)) Row;
                 Right := Z.max (Right (UpdateRectangle s)) Column;
                 Bottom := Z.max (Bottom (UpdateRectangle s)) Row |}) as HR1
      by (unfold s1, VgaMarkForUpdate; by rewrite Hs).
    split; [done|]. split; [by eapply rect_le_trans|].
    split; [|split; [|split; [|split; [|split]]]].
    + intros q [->|Hq]%elem_of_cons; [|by apply Hin].
      apply (in_rect_le _ _ _ _ Hle). cbn [fst snd]. rewrite HR1.
      unfold in_rect. cbn [Left Top Right Bottom]. lia.
    + destruct HL as [HL|(q & Hq & HL)].
      * rewrite HL, HR1. cbn [Left].
        destruct (Z.min_spec (Left (UpdateRectangle s)) Column) as [[_ ->]|[_ ->]];
          [by left|right].
        exists (Row, Column). split; [apply list_elem_of_here|done].
      * right. exists q. split; [by apply list_elem_of_further|done].
    + destruct HR as [HR|(q & Hq & HR)].
      * rewrite HR, HR1. cbn [Right].
        destruct (Z.max_spec (Right (UpdateRectangle s)) Column) as [[_ ->]|[_ ->]];
          [right|by left].
        exists (Row, Column). split; [apply list_elem_of_here|done].
      * right. exists q. split; [by apply list_elem_of_further|done].
    + destruct HT as [HT|(q & Hq & HT)].
      * rewrite HT, HR1. cbn [Top].
        destruct (Z.min_spec (Top (UpdateRectangle s)) Row) as [[_ ->]|[_ ->]];
          [by left|right].
        exists (Row, Column). split; [apply list_elem_of_here|done].
      * right. exists q. split; [by apply list_elem_of_further|done].
    + destruct HB as [HB|(q & Hq & HB)].
      * rewrite HB, HR1. cbn [Bottom].
        destruct (Z.max_spec (Bottom (UpdateRectangle s)) Row) as [[_ ->]|[_ ->]];
          [right|by left].
        exists (Row, Column). split; [apply list_elem_of_here|done].
      * right. exists q. split; [by apply list_elem_of_further|done].
    + rewrite Heq at 1. reflexivity.
Qed.

(** X18.  From a state without an update request, [VgaMarkForUpdate] leaves the
    bounding box of the points it is called with: the rectangle holds each
    of them, each of its four bounds is the coordinate of one of them, the
    update request is set and nothing else changes. *)
Theorem VgaMarkForUpdate_bounding_box (s : vga) (p : Z * Z)
    (pts : list (Z * Z)) :
  NeedsUpdate s = false ->
  is_SHORT p.1 -> is_SHORT p.2 ->
  NeedsUpdate (marks (p :: pts) s) = true
  /\ (forall q, q ∈ p :: pts ->
        in_rect (UpdateRectangle (marks (p :: pts) s)) q.1 q.2)
  /\ (exists q, q ∈ p :: pts
        /\ q.2 = Left (UpdateRectangle (marks (p :: pts) s)))
  /\ (exists q, q ∈ p :: pts
        /\ q.2 = Right (UpdateRectangle (marks (p :: pts) s)))
  /\ (exists q, q ∈ p :: pts
        /\ q.1 = Top (UpdateRectangle (marks (p :: pts) s)))
  /\ (exists q, q ∈ p :: pts
        /\ q.1 = Bottom (UpdateRectangle (marks (p :: pts) s)))
  /\ marks (p :: pts) s
     = set_NeedsUpdate true
         (set_UpdateRectangle (UpdateRectangle (marks (p :: pts) s)) s).
Proof.
  destruct p as [Row Column]. cbn [fst snd]. intros Hs HRow HColumn.
  change (marks ((Row, Column) :: pts) s)
    with (marks pts (VgaMarkForUpdate Row Column s)).
  set (s1 := VgaMarkForUpdate Row Column s).
  destruct (marks_grow pts s1 eq_refl)
    as (Hn & Hle & Hin & HL & HR & HT & HB & Heq).
  assert (UpdateRectangle s1
          = {| Left := Column; Top := Row; Right := Column; Bottom := Row |})
    as HR1.
  { unfold s1, VgaMarkForUpdate. rewrite Hs.
    cbn [UpdateRectangle set_NeedsUpdate set_UpdateRectangle Left Top Right
         Bottom].
    unfold is_SHORT, SHRT_MIN, SHRT_MAX in *. f_equal; lia. }
  rewrite HR1 in HL, HR, HT, HB. cbn [Left Top Right Bottom] in *.
  assert ((Row, Column) ∈ (Row, Column) :: pts) as Hhere
    by apply list_elem_of_here.
  split; [done|]. split; [|split; [|split; [|split; [|split]]]].
  - intros q [->|Hq]%elem_of_cons; [|by apply Hin].
    apply (in_rect_le _ _ _ _ Hle). rewrite HR1. unfold in_rect.
    cbn [fst snd Left Top Right Bottom]. lia.
  - destruct HL as [HL|(q & Hq & HL)];
      [by exists (Row, Column)|exists q; split; [by apply list_elem_of_further|done]].
  - destruct HR as [HR|(q & Hq & HR)];
      [by exists (Row, Column)|exists q; split; [by apply list_elem_of_further|done]].
  - destruct HT as [HT|(q & Hq & HT)];
      [by exists (Row, Column)|exists q; split; [by apply list_elem_of_further|done]].
  - destruct HB as [HB|(q & Hq & HB)];
      [by exists (Row, Column)|exists q; split; [by apply list_elem_of_further|done]].
  - rewrite Heq at 1. reflexivity.
Qed.

(** ** The scan-out *)

Lemma for_loop_indexed {St} (P : Z -> St -> Prop) body n i (st st' : St) :
  (forall j a b, i <= j < i + Z.of_nat n -> body j a = Some b ->
     P j a -> P (j + 1) b) ->
  for_loop n i body st = Some st' -> P i st -> P (i + Z.of_nat n) st'.
Proof.
  revert i st. induction n as [|n IH]; intros i st Hbody Hloop HP.
  - injection Hloop as <-. change (Z.of_nat 0) with 0. by rewrite Z.add_0_r.
  - cbn [for_loop] in Hloop. apply bind_Some in Hloop as (st1 & Hb & Hloop).
    replace (i + Z.of_nat (S n)) with (i + 1 + Z.of_nat n) by lia.
    eapply IH; [|exact Hloop|].
    + intros j a b Hj. apply Hbody. lia.
    + eapply Hbody; [|exact Hb|exact HP]. lia.
Qed.

Lemma cell_index_inj Xr i j i' j' :
  0 <= j < Xr -> 0 <= j' < Xr -> i * Xr + j = i' * Xr + j' ->
  i = i' /\ j = j'.
Proof.
  intros Hj Hj' Heq.
  destruct (plane_index_inj Xr j i j' i' Hj Hj') as [-> ->]; [lia|done].
Qed.

Lemma VgaScanline_0 Address ScanlineSize :
  0 <= Address < 4294967296 -> VgaScanline Address ScanlineSize 0 = Address.
Proof.
  intros HA. unfold VgaScanline. rewrite Z.mul_0_l, Z.add_0_r.
  by apply to_DWORD_id.
Qed.

Lemma VgaScanline_next Address ScanlineSize i :
  to_DWORD (VgaScanline Address ScanlineSize i + ScanlineSize)
  = VgaScanline Address ScanlineSize (i + 1).
Proof.
  unfold VgaScanline, to_DWORD. rewrite Zplus_mod_idemp_l. f_equal. lia.
Qed.

Section ScanOut.
Context `{vga_h} {T : Type}.
Variables (get : vga -> Z -> option T) (new : Z -> Z -> option T).
Variable update : Z -> Z -> Z -> vga -> option vga.
Variable Inv : vga -> Prop.
Variables (Resolution : COORD) (ScanlineSize Address : Z) (s0 : vga).
Hypothesis HX : 0 < X Resolution <= SHRT_MAX.
Hypothesis HY : 0 <= Y Resolution <= SHRT_MAX.
Hypothesis HAddress : 0 <= Address < 4294967296.

(** What one call of [update] does: the cell stays if it holds what [new]
    gives, and is written and marked if not. *)
Hypothesis Hupdate : forall A i j a b,
  0 <= i < Y Resolution -> 0 <= j < X Resolution -> Inv a ->
  update A i j a = Some b ->
  Inv b
  /\ exists v old,
       new A j = Some v
       /\ get a (i * X Resolution + j) = Some old
       /\ ((old = v /\ b = a)
           \/ (old <> v
               /\ exists a1,
                    b = VgaMarkForUpdate i j a1
                    /\ get a1 (i * X Resolution + j) = Some v
                    /\ (forall idx, 0 <= idx -> idx <> i * X Resolution + j ->
                          get a1 idx = get a idx)
                    /\ NeedsUpdate a1 = NeedsUpdate a
                    /\ UpdateRectangle a1 = UpdateRectangle a)).
Hypothesis Hget_mark : forall r c a idx,
  get (VgaMarkForUpdate r c a) idx = get a idx.

Lemma scan_progress_start :
  scan_progress get new Resolution Address ScanlineSize s0 0 0 s0.
Proof.
  split.
  - unfold scan_done. intros i' j' Hi' Hj' Hdone. lia.
  - done.
  - intros Hn. split; [done|apply rect_le_refl].
  - unfold scan_done. intros i' j' Hi' Hj' Hdone. lia.
  - done.
Qed.

Lemma scan_progress_row i a :
  scan_progress get new Resolution Address ScanlineSize s0 i (X Resolution) a ->
  scan_progress get new Resolution Address ScanlineSize s0 (i + 1) 0 a.
Proof.
  intros [Hc Hp Hr Hd Hcl].
  assert (forall i' j', 0 <= j' < X Resolution ->
            scan_done (i + 1) 0 i' j' <-> scan_done i (X Resolution) i' j')
    as Hdone by (unfold scan_done; lia).
  split.
  - intros i' j' Hi' Hj' ?. apply Hc; [done..|]. by apply Hdone.
  - intros i' j' Hi' Hj' ?. apply Hp; [done..|]. by rewrite <- Hdone.
  - done.
  - intros i' j' Hi' Hj' ?. apply Hd; [done..|]. by apply Hdone.
  - intros Hall. apply Hcl. intros i' j' Hi' Hj' ?.
    apply Hall; [done..|]. by apply Hdone.
Qed.

Lemma scan_progress_step i j a b :
  0 <= i < Y Resolution -> 0 <= j < X Resolution -> Inv a ->
  update (VgaScanline Address ScanlineSize i) i j a = Some b ->
  scan_progress get new Resolution Address ScanlineSize s0 i j a ->
  Inv b
  /\ scan_progress get new Resolution Address ScanlineSize s0 i (j + 1) b.
Proof.
  intros Hi Hj Ha Hb [Hc Hp Hr Hd Hcl].
  destruct (Hupdate _ _ _ _ _ Hi Hj Ha Hb)
    as (Hinv & v & old & Hnew & Hold & Hcase).
  split; [done|].
  assert (forall i' j', scan_done i (j + 1) i' j'
            <-> scan_done i j i' j' \/ (i' = i /\ j' = j))
    as Hdone by (unfold scan_done; lia).
  assert (~ scan_done i j i j) as Hnow by (unfold scan_done; lia).
  assert (is_SHORT i /\ is_SHORT j) as [HSi HSj]
    by (unfold is_SHORT, SHRT_MIN, SHRT_MAX in *; lia).
  assert (get s0 (i * X Resolution + j) = Some old) as Hold0
    by (by rewrite <- Hp).
  assert (forall i' j', 0 <= i' < Y Resolution -> 0 <= j' < X Resolution ->
            (i', j') <> (i, j) ->
            get b (i' * X Resolution + j') = get a (i' * X Resolution + j'))
    as Hother.
  { intros i' j' Hi' Hj' Hne.
    destruct Hcase as [[_ ->]|(_ & a1 & -> & _ & Hfr & _)]; [done|].
    rewrite Hget_mark. apply Hfr; [nia|].
    intros Heq. apply cell_index_inj in Heq as [-> ->]; done. }
  assert (get b (i * X Resolution + j) = Some v) as Hcell.
  { destruct Hcase as [[<- ->]|(_ & a1 & -> & Hv & _)]; [done|].
    by rewrite Hget_mark. }
  assert (NeedsUpdate a = true ->
          NeedsUpdate b = true
          /\ rect_le (UpdateRectangle a) (UpdateRectangle b)) as Hgrow.
  { intros Hn. destruct Hcase as [[_ ->]|(_ & a1 & -> & _ & _ & Hn1 & Hr1)].
    - split; [done|apply rect_le_refl].
    - split; [done|]. rewrite <- Hr1. apply VgaMarkForUpdate_grows.
      by rewrite Hn1. }
  split.
  - intros i' j' Hi' Hj' [Hbefore|[-> ->]]%Hdone.
    + destruct (Hc i' j' Hi' Hj' Hbefore) as (v' & Hnew' & Hget').
      exists v'. split; [done|]. rewrite Hother; [done..|].
      intros [= -> ->]. done.
    + by exists v.
  - intros i' j' Hi' Hj' Hnot. rewrite Hdone in Hnot.
    rewrite Hother; [|done..|intros [= -> ->]; tauto].
    apply Hp; [done..|tauto].
  - intros Hn0. destruct (Hr Hn0) as [Hn Hle].
    destruct (Hgrow Hn) as [Hnb Hleb]. split; [done|].
    by eapply rect_le_trans.
  - intros i' j' Hi' Hj' [Hbefore|[-> ->]]%Hdone Hne.
    + destruct (Hd i' j' Hi' Hj' Hbefore Hne) as [Hn Hin].
      destruct (Hgrow Hn) as [Hnb Hleb]. split; [done|].
      by eapply in_rect_le.
    + rewrite Hold0, Hnew in Hne.
      destruct Hcase as [[-> _]|(_ & a1 & -> & _)]; [done|].
      split; [done|]. by apply VgaMarkForUpdate_in_rect.
  - intros Hall.
    assert (a = s0) as ->.
    { apply Hcl. intros i' j' Hi' Hj' Hbefore. apply Hall; [done..|].
      apply Hdone. by left. }
    pose proof (Hall i j Hi Hj ltac:(apply Hdone; by right)) as Hsame.
    rewrite Hold, Hnew in Hsame. injection Hsame as ->.
    by destruct Hcase as [[_ ->]|[? _]].
Qed.

(** The scan-out, if it returns: the framebuffer holds what [new] gives,
    and the update rectangle holds each cell that changed. *)
Lemma VgaScan_progress s' :
  Inv s0 ->
  VgaScan update Resolution ScanlineSize Address s0 = Some s' ->
  Inv s' /\ scan_progress get new Resolution Address ScanlineSize s0 (Y Resolution) 0 s'.
Proof.
  intros Hinv Hscan. unfold VgaScan in Hscan.
  apply fmap_Some in Hscan as ([A' a'] & Hloop & ->). cbn [snd].
  apply (for_loop_indexed
           (fun i '(A, a) =>
              A = VgaScanline Address ScanlineSize i /\ Inv a
              /\ scan_progress get new Resolution Address ScanlineSize s0
                   i 0 a)) in Hloop.
  - rewrite Z.add_0_l, Z2Nat.id in Hloop by lia. by destruct Hloop as (_ & ? & ?).
  - intros i [A a] [A1 a1] Hi Hbody (-> & Ha & Hprog).
    rewrite Z.add_0_l, Z2Nat.id in Hi by lia.
    apply bind_Some in Hbody as (a2 & Hrow & [= <- <-]).
    split; [apply VgaScanline_next|].
    apply (for_loop_indexed
             (fun j a =>
                Inv a
                /\ scan_progress get new Resolution Address ScanlineSize s0
                     i j a)) in Hrow.
    + rewrite Z.add_0_l, Z2Nat.id in Hrow by lia.
      destruct Hrow as [? ?]. split; [done|]. by apply scan_progress_row.
    + intros j c d Hj Hd [Hc Hp]. rewrite Z.add_0_l, Z2Nat.id in Hj by lia.
      by eapply scan_progress_step.
    + done.
  - split; [by rewrite VgaScanline_0|]. split; [done|].
    apply scan_progress_start.
Qed.

(** A call of [update] on a cell that holds what [new] gives returns the
    state as it is. *)
Hypothesis Hsame : forall A i j a v,
  0 <= i < Y Resolution -> 0 <= j < X Resolution -> Inv a ->
  new A j = Some v -> get a (i * X Resolution + j) = Some v ->
  update A i j a = Some a.

(** The scan-out of a framebuffer that holds what [new] gives returns, and
    changes nothing. *)
Lemma VgaScan_clean :
  Inv s0 ->
  (forall i j, 0 <= i < Y Resolution -> 0 <= j < X Resolution ->
     exists v,
       new (VgaScanline Address ScanlineSize i) j = Some v
       /\ get s0 (i * X Resolution + j) = Some v) ->
  VgaScan update Resolution ScanlineSize Address s0 = Some s0.
Proof.
  intros Hinv Hcells. unfold VgaScan.
  destruct (for_loop_defined
              (fun i '(A, a) =>
                 A = VgaScanline Address ScanlineSize i /\ a = s0)
              (fun i '(Address, s) =>
                 s ← for_loop (Z.to_nat (X Resolution)) 0 (update Address i) s;
                 Some (to_DWORD (Address + ScanlineSize), s))
              (Z.to_nat (Y Resolution)) 0 (Address, s0))
    as ([A' a'] & -> & _ & ->); [| |done].
  - intros i [A a] Hi [-> ->]. rewrite Z.add_0_l, Z2Nat.id in Hi by lia.
    destruct (for_loop_defined (fun j a => a = s0)
                (update (VgaScanline Address ScanlineSize i) i)
                (Z.to_nat (X Resolution)) 0 s0) as (a & -> & ->); [|done|].
    + intros j a Hj ->. rewrite Z.add_0_l, Z2Nat.id in Hj by lia.
      destruct (Hcells i j Hi Hj) as (v & Hnew & Hget).
      exists s0. split; [|done]. by eapply Hsame.
    + cbn [mbind option_bind]. eexists (_, _). split; [reflexivity|].
      split; [apply VgaScanline_next|done].
  - split; [by rewrite VgaScanline_0|done].
Qed.

End ScanOut.

Lemma registers_VgaMemory a b : registers a = registers b -> VgaMemory a = VgaMemory b.
Proof. by intros [= -> _]. Qed.

Section Cells.
Context `{vga_h}.
Variables (s0 : vga) (Resolution : COORD) (AddressSize : Z).
Hypothesis HX : 0 < X Resolution <= SHRT_MAX.
Hypothesis HY : 0 <= Y Resolution <= SHRT_MAX.

Lemma registers_VgaCellData a Address j :
  registers a = registers s0 ->
  VgaCellData a Address AddressSize j = VgaCellData s0 Address AddressSize j.
Proof.
  intros Ha%registers_VgaMemory. unfold VgaCellData, VgaMemory_get.
  by rewrite Ha.
Qed.

(** [VgaUpdatePixel] is an update of the scan-out. *)
Lemma VgaUpdatePixel_spec A i j a b :
  0 <= i < Y Resolution -> 0 <= j < X Resolution ->
  registers a = registers s0 ->
  VgaUpdatePixel Resolution A AddressSize i j a = Some b ->
  registers b = registers s0
  /\ exists v old,
       VgaPixelData s0 A AddressSize j = Some v
       /\ GraphicsBuffer_get a (i * X Resolution + j) = Some old
       /\ ((old = v /\ b = a)
           \/ (old <> v
               /\ exists a1,
                    b = VgaMarkForUpdate i j a1
                    /\ GraphicsBuffer_get a1 (i * X Resolution + j) = Some v
                    /\ (forall idx, 0 <= idx -> idx <> i * X Resolution + j ->
                          GraphicsBuffer_get a1 idx = GraphicsBuffer_get a idx)
                    /\ NeedsUpdate a1 = NeedsUpdate a
                    /\ UpdateRectangle a1 = UpdateRectangle a)).
Proof.
  intros Hi Hj Ha Hb. unfold VgaUpdatePixel in Hb.
  rewrite (registers_VgaPixelData a s0 _ _ _ Ha) in Hb.
  apply bind_Some in Hb as (v & Hv & Hb).
  apply bind_Some in Hb as (old & Hold & Hb).
  rewrite !to_SHORT_id in Hb by (unfold SHRT_MAX in *; lia).
  destruct (Z.eqb_spec old v) as [->|Hne].
  - injection Hb as <-. split; [done|]. exists v, v. by repeat split; auto.
  - apply bind_Some in Hb as (a1 & Ha1 & [= <-]).
    unfold GraphicsBuffer_set in Ha1. unfold GraphicsBuffer_get in *.
    destruct (ConsoleFramebuffer a) as [| |pixels|] eqn:Hfb; try done.
    apply bind_Some in Ha1 as (pixels' & Hset & [= <-]).
    split; [by rewrite <- Ha|].
    exists v, old. split; [done|]. split; [done|]. right. split; [done|].
    eexists. split; [reflexivity|].
    cbn [ConsoleFramebuffer set_ConsoleFramebuffer NeedsUpdate UpdateRectangle].
    split; [by eapply array_get_set_eq|].
    split; [|done]. intros idx Hidx Hneq. by eapply array_get_set_ne.
Qed.

Lemma VgaUpdatePixel_same A i j a v :
  0 <= i < Y Resolution -> 0 <= j < X Resolution ->
  registers a = registers s0 ->
  VgaPixelData s0 A AddressSize j = Some v ->
  GraphicsBuffer_get a (i * X Resolution + j) = Some v ->
  VgaUpdatePixel Resolution A AddressSize i j a = Some a.
Proof.
  intros Hi Hj Ha Hv Hget. unfold VgaUpdatePixel.
  rewrite (registers_VgaPixelData a s0 _ _ _ Ha), Hv. cbn [mbind option_bind].
  rewrite Hget. cbn [mbind option_bind]. by rewrite Z.eqb_refl.
Qed.

(** [VgaUpdateCell] is an update of the scan-out. *)
Lemma VgaUpdateCell_spec A i j a b :
  0 <= i < Y Resolution -> 0 <= j < X Resolution ->
  registers a = registers s0 ->
  VgaUpdateCell Resolution A AddressSize i j a = Some b ->
  registers b = registers s0
  /\ exists v old,
       VgaCellData s0 A AddressSize j = Some v
       /\ CharBuffer_get a (i * X Resolution + j) = Some old
       /\ ((old = v /\ b = a)
           \/ (old <> v
               /\ exists a1,
                    b = VgaMarkForUpdate i j a1
                    /\ CharBuffer_get a1 (i * X Resolution + j) = Some v
                    /\ (forall idx, 0 <= idx -> idx <> i * X Resolution + j ->
                          CharBuffer_get a1 idx = CharBuffer_get a idx)
                    /\ NeedsUpdate a1 = NeedsUpdate a
                    /\ UpdateRectangle a1 = UpdateRectangle a)).
Proof.
  intros Hi Hj Ha Hb. rewrite <- (registers_VgaCellData a A j Ha).
  unfold VgaUpdateCell in Hb. unfold VgaCellData.
  apply bind_Some in Hb as (char & -> & Hb).
  apply bind_Some in Hb as (attr & -> & Hb).
  apply bind_Some in Hb as (old & Hold & Hb).
  rewrite !to_SHORT_id in Hb by (unfold SHRT_MAX in *; lia).
  cbn [mbind option_bind].
  destruct (Z.eqb_spec (AsciiChar old) char) as [Hc|Hc];
    [destruct (Z.eqb_spec (Attributes old) attr) as [Hat|Hat]|];
    cbn [andb] in Hb.
  1: { injection Hb as <-. split; [done|]. eexists _, old.
       split; [done|]. split; [done|]. left. split; [|done].
       destruct old. cbn in *. by subst. }
  all: apply bind_Some in Hb as (a1 & Ha1 & [= <-]);
    unfold CharBuffer_set in Ha1; unfold CharBuffer_get in *;
    destruct (ConsoleFramebuffer a) as [| | |cells] eqn:Hfb; try done;
    apply bind_Some in Ha1 as (cells' & Hset & [= <-]);
    (split; [by rewrite <- Ha|]);
    eexists _, old; (split; [done|]); (split; [done|]); right;
    (split; [intros ->; by cbn in *|]);
    eexists; (split; [reflexivity|]);
    cbn [ConsoleFramebuffer set_ConsoleFramebuffer NeedsUpdate
         UpdateRectangle];
    (split; [by eapply array_get_set_eq|]);
    (split; [|done]); intros idx Hidx Hneq; by eapply array_get_set_ne.
Qed.

Lemma VgaUpdateCell_same A i j a v :
  0 <= i < Y Resolution -> 0 <= j < X Resolution ->
  registers a = registers s0 ->
  VgaCellData s0 A AddressSize j = Some v ->
  CharBuffer_get a (i * X Resolution + j) = Some v ->
  VgaUpdateCell Resolution A AddressSize i j a = Some a.
Proof.
  intros Hi Hj Ha Hv Hget. rewrite <- (registers_VgaCellData a A j Ha) in Hv.
  unfold VgaCellData in Hv. unfold VgaUpdateCell.
  apply bind_Some in Hv as (char & -> & Hv).
  apply bind_Some in Hv as (attr & -> & [= <-]).
  cbn [mbind option_bind]. rewrite Hget. cbn [mbind option_bind AsciiChar
                                                 Attributes].
  by rewrite !Z.eqb_refl.
Qed.

End Cells.

Lemma VgaScan_defined (Inv : vga -> Prop) update Resolution ScanlineSize
    Address s :
  0 <= X Resolution -> 0 <= Y Resolution ->
  (forall A i j a,
     0 <= i < Y Resolution -> 0 <= j < X Resolution -> Inv a ->
     exists b, update A i j a = Some b /\ Inv b) ->
  Inv s ->
  exists s',
    VgaScan update Resolution ScanlineSize Address s = Some s' /\ Inv s'.
Proof.
  intros HX HY Hup Hs. unfold VgaScan.
  destruct (for_loop_defined
              (fun (i : Z) (p : Z * vga) => Inv p.2)
              (fun i '(Address, s) =>
                 s ← for_loop (Z.to_nat (X Resolution)) 0 (update Address i) s;
                 Some (to_DWORD (Address + ScanlineSize), s))
              (Z.to_nat (Y Resolution)) 0 (Address, s))
    as ([A' a'] & -> & Ha'); [|done|by exists a'].
  intros i [A a] Hi Ha. rewrite Z.add_0_l, Z2Nat.id in Hi by lia.
  cbn [snd] in Ha.
  destruct (for_loop_defined (fun (j : Z) a => Inv a) (update A i)
              (Z.to_nat (X Resolution)) 0 a) as (b & -> & Hb); [|done|].
  - intros j c Hj Hc. rewrite Z.add_0_l, Z2Nat.id in Hj by lia.
    by apply Hup.
  - cbn [mbind option_bind]. by eexists (_, _).
Qed.

Section Framebuffer.
Context `{vga_h} {Hh : vga_h_ok}.

Lemma to_WORD_range z : 0 <= to_WORD z < 65536.
Proof. unfold to_WORD. by apply Z.mod_pos_bound. Qed.

(** In a header whose planes hold 64 KiB or more, the update of a cell of
    a text mode reads inside the planes 0 and 1. *)
Lemma VgaUpdateCell_defined s Resolution AddressSize A i j a :
  0x10000 <= VGA_BANK_SIZE -> 2 <= VGA_NUM_BANKS ->
  0 <= i < Y Resolution -> 0 <= j < X Resolution ->
  text_inv s Resolution a ->
  exists b,
    VgaUpdateCell Resolution A AddressSize i j a = Some b
    /\ text_inv s Resolution b.
Proof.
  intros HBANK HNB Hi Hj (Hregs & cells & Hfb & Hlen).
  pose proof VgaMemory_DWORD as HDW. unfold VgaUpdateCell, LOWORD.
  set (c := to_WORD _). pose proof (to_WORD_range
    (to_DWORD (to_DWORD (A + j) * AddressSize))) as Hc. fold c in Hc.
  rewrite (to_DWORD_id (c + VGA_BANK_SIZE)) by nia.
  unfold VgaMemory_get.
  destruct (Z.leb_spec 0 c); [|lia].
  destruct (Z.ltb_spec c (VGA_NUM_BANKS * VGA_BANK_SIZE)); [|nia].
  destruct (Z.leb_spec 0 (c + VGA_BANK_SIZE)); [|lia].
  destruct (Z.ltb_spec (c + VGA_BANK_SIZE) (VGA_NUM_BANKS * VGA_BANK_SIZE));
    [|nia].
  cbn [andb mbind option_bind]. unfold CharBuffer_get, CharBuffer_set.
  rewrite Hfb.
  assert (0 <= i * X Resolution + j < Z.of_nat (length cells)) as Hidx by nia.
  destruct (array_get_Some cells _ Hidx) as [old ->].
  cbn [mbind option_bind].
  destruct (_ && _).
  - eexists. split; [reflexivity|]. split; [done|]. by exists cells.
  - rewrite array_set_Some by done. cbn [mbind option_bind].
    eexists. split; [reflexivity|]. split; [by rewrite <- Hregs|].
    eexists. split; [reflexivity|]. by rewrite length_insert.
Qed.

(** X19.  The scan-out of a text mode returns in every state that satisfies the
    invariant and has a block of cells of the size of the resolution, in a
    header whose planes hold 64 KiB or more.  Then
    - each cell of the framebuffer holds the character that plane 0 and the
      attribute that plane 1 hold at the address of the cell;
    - each cell that changed lies in the update rectangle, and the update
      request is set;
    - a rectangle that was requested before is still requested. *)
Theorem VgaUpdateFramebuffer_text (s : vga) (Resolution : COORD)
    (AddressSize high low offset misc : Z) (cells : list CHAR_INFO) :
  vga_ok s ->
  0x10000 <= VGA_BANK_SIZE -> 2 <= VGA_NUM_BANKS ->
  VgaGetDisplayResolution s = Some Resolution ->
  VgaGetAddressSize s = Some AddressSize ->
  array_get (VgaCrtcRegisters s) VGA_CRTC_START_ADDR_HIGH_REG = Some high ->
  array_get (VgaCrtcRegisters s) VGA_CRTC_START_ADDR_LOW_REG = Some low ->
  array_get (VgaCrtcRegisters s) VGA_CRTC_OFFSET_REG = Some offset ->
  array_get (VgaGcRegisters s) VGA_GC_MISC_REG = Some misc ->
  bits misc VGA_GC_MISC_NOALPHA = false ->
  ConsoleFramebuffer s = CharBuffer cells ->
  Z.of_nat (length cells) = X Resolution * Y Resolution ->
  exists s',
    VgaUpdateFramebuffer s = Some s'
    /\ registers s' = registers s
    /\ (forall i j,
          0 <= i < Y Resolution -> 0 <= j < X Resolution ->
          exists v,
            VgaCellData s
              (VgaScanline (to_DWORD (Z.shiftl high 8 + low))
                 (to_DWORD (offset * 2)) i) AddressSize j = Some v
            /\ CharBuffer_get s' (i * X Resolution + j) = Some v)
    /\ (forall i j,
          0 <= i < Y Resolution -> 0 <= j < X Resolution ->
          CharBuffer_get s' (i * X Resolution + j)
          <> CharBuffer_get s (i * X Resolution + j) ->
          NeedsUpdate s' = true /\ in_rect (UpdateRectangle s') i j)
    /\ (NeedsUpdate s = true ->
        NeedsUpdate s' = true
        /\ rect_le (UpdateRectangle s) (UpdateRectangle s')).
Proof.
  intros Hok HBANK HNB HR Hasz Hhigh Hlow Hoffset Hmisc HNA Hfb Hlen.
  destruct (Resolution_range s Hok) as (R' & HR' & HX & HY).
  rewrite HR in HR'. injection HR' as <-.
  assert (0 < X Resolution <= SHRT_MAX) as HXS by (unfold SHRT_MAX; lia).
  assert (0 <= Y Resolution <= SHRT_MAX) as HYS by (unfold SHRT_MAX; lia).
  unfold VgaUpdateFramebuffer.
  rewrite HR, Hasz, Hhigh, Hlow, Hoffset, Hmisc. cbn [mbind option_bind].
  rewrite HNA.
  destruct (VgaScan_defined (text_inv s Resolution)
              (fun Address i j =>
                 VgaUpdateCell Resolution Address AddressSize i j)
              Resolution (to_DWORD (offset * 2))
              (to_DWORD (Z.shiftl high 8 + low)) s) as (s' & Hscan & _).
  { lia. }
  { lia. }
  { intros A i j a Hi Hj Ha. by apply VgaUpdateCell_defined. }
  { split; [done|]. by exists cells. }
  exists s'. split; [done|].
  destruct (VgaScan_progress CharBuffer_get
              (fun A j => VgaCellData s A AddressSize j)
              (fun Address i j =>
                 VgaUpdateCell Resolution Address AddressSize i j)
              (fun a => registers a = registers s)
              Resolution (to_DWORD (offset * 2))
              (to_DWORD (Z.shiftl high 8 + low)) s HXS HYS
              (to_DWORD_range _)) with (s' := s')
    as [Hregs [Hc Hp Hr Hd Hcl]].
  { intros A i j a b Hi Hj Ha Hb.
    by apply (VgaUpdateCell_spec s Resolution AddressSize HXS HYS A i j a b). }
  { done. }
  { done. }
  { done. }
  assert (forall i j, 0 <= i < Y Resolution -> 0 <= j < X Resolution ->
            scan_done (Y Resolution) 0 i j) as Hdone
    by (unfold scan_done; lia).
  split; [done|]. split; [|split; [|done]].
  - intros i j Hi Hj. by apply Hc; [..|apply Hdone].
  - intros i j Hi Hj Hne. apply Hd; [done..|by apply Hdone|].
    destruct (Hc i j Hi Hj (Hdone i j Hi Hj)) as (v & <- & Hv). congruence.
Qed.


End Framebuffer.

(** ** The refresh *)

Section RefreshTwice.
Context `{vga_h} {Hh : vga_h_ok}.

Lemma scan_only_ModeChanged s s' :
  scan_only s s' -> ModeChanged s' = ModeChanged s.
Proof. by intros (fb & nu & ur & hc & ->). Qed.

Lemma VgaUpdateTextCursor_flags s s' :
  VgaUpdateTextCursor s = Some s' -> ModeChanged s' = ModeChanged s.
Proof.
  unfold VgaUpdateTextCursor. intros Hu.
  repeat (apply bind_Some in Hu as (? & _ & Hu)).
  destruct (_ <? _); apply bind_Some in Hu as (? & _ & Hu);
    by injection Hu as <-.
Qed.

(** The steps of a refresh: the state [b] the scan-out starts in, the
    state [c] it leaves, and what the publication of the update rectangle
    changes. *)
Lemma VgaRefreshDisplay_steps h s s' :
  VgaRefreshDisplay h s = Some s' ->
  exists b c,
    registers b = registers s
    /\ VgaUpdateFramebuffer b = Some c
    /\ ModeChanged c = false /\ CursorMoved c = false
    /\ registers s' = registers c
    /\ ConsoleFramebuffer s' = ConsoleFramebuffer c
    /\ ModeChanged s' = false /\ CursorMoved s' = false
    /\ NeedsUpdate s' = false /\ InVerticalRetrace s' = true.
Proof.
  unfold VgaRefreshDisplay.
  intros (Resolution & _ & (s1 & Hs1 & (s2 & Hs2 & Hr)%bind_Some)%bind_Some)
    %bind_Some.
  assert (registers s1 = registers s /\ ModeChanged s1 = false) as [Hr1 Hm1].
  { destruct (ModeChanged s) eqn:Hm; [|by injection Hs1 as <-].
    apply bind_Some in Hs1 as (s0 & Hs0 & [= <-]).
    by apply VgaUpdateMode_registers in Hs0. }
  assert (registers s2 = registers s1 /\ ModeChanged s2 = false
          /\ CursorMoved s2 = false) as (Hr2 & Hm2 & Hc2).
  { destruct (CursorMoved s1) eqn:Hc; [|by injection Hs2 as <-].
    apply bind_Some in Hs2 as (s0 & Hs0 & [= <-]).
    split; [by apply VgaUpdateTextCursor_registers in Hs0|].
    split; [|done]. apply VgaUpdateTextCursor_flags in Hs0.
    cbn [ModeChanged set_CursorMoved]. congruence. }
  apply bind_Some in Hr as (s3 & Hs3 & Hr).
  pose proof (VgaUpdateFramebuffer_scan_only _ _ Hs3) as Hscan.
  exists s2, s3. split; [congruence|]. split; [done|].
  split; [by rewrite (scan_only_ModeChanged _ _ Hscan)|].
  split; [by rewrite (scan_only_CursorMoved _ _ Hscan)|].
  assert (ModeChanged s3 = false) as Hm3
    by (by rewrite (scan_only_ModeChanged _ _ Hscan)).
  assert (CursorMoved s3 = false) as Hc3
    by (by rewrite (scan_only_CursorMoved _ _ Hscan)).
  cbn [NeedsUpdate set_InVerticalRetrace] in Hr.
  destruct (NeedsUpdate s3) eqn:Hn; cbn [negb] in Hr.
  - apply bind_Some in Hr as (misc & _ & [= <-]).
    by destruct (bits misc VGA_GC_MISC_NOALPHA).
  - by injection Hr as <-.
Qed.

Lemma bits_lor_r a b : b <> 0 -> bits (Z.lor a b) b = true.
Proof.
  intros Hb. unfold bits. rewrite Z.lor_comm, land_lor_same.
  by destruct (Z.eqb_spec b 0).
Qed.

(** X21.  A refresh that returns leaves the video memory and the register file
    as they are; it has reset the mode change, the cursor move and the
    update request and set the vertical retrace, so that the next read of a
    status port reports a display disabled in vertical retrace. *)
Theorem VgaRefreshDisplay_flags (h : host) (s s' : vga) :
  VgaRefreshDisplay h s = Some s' ->
  registers s' = registers s
  /\ ModeChanged s' = false /\ CursorMoved s' = false
  /\ NeedsUpdate s' = false /\ InVerticalRetrace s' = true
  /\ forall Port,
       Port = VGA_STAT_MONO \/ Port = VGA_STAT_COLOR ->
       exists r s'',
         VgaReadPort Port s' = Some (r, s'')
         /\ bits r VGA_STAT_DD = true
         /\ bits r VGA_STAT_VRETRACE = true
         /\ InVerticalRetrace s'' = false.
Proof.
  intros Hr. pose proof (VgaRefreshDisplay_registers _ _ _ Hr) as Hregs.
  destruct (VgaRefreshDisplay_steps _ _ _ Hr)
    as (b & c & _ & _ & _ & _ & _ & _ & Hm & Hc & Hn & Hv).
  split; [done|]. split; [done|]. split; [done|]. split; [done|].
  split; [done|].
  intros Port HPort. exists (read_status s').1, (read_status s').2.
  split.
  { destruct HPort as [-> | ->];
      [rewrite VgaReadPort_STAT_MONO|rewrite VgaReadPort_STAT_COLOR];
      by destruct (read_status s'). }
  split; [by rewrite read_status_DD, Hv|]. split; [|done].
  unfold read_status. rewrite Hv. cbn [fst].
  pose proof VGA_STAT_DD_byte as HDD.
  pose proof VGA_STAT_VRETRACE_byte as HVR.
  rewrite Z.lor_0_l, (to_BYTE_id VGA_STAT_DD) by lia.
  rewrite to_BYTE_id by (apply byte_lor; lia).
  apply bits_lor_r. lia.
Qed.

Lemma app_two {A} (l : list A) x y : (l ++ [x]) ++ [y] = l ++ [x; y].
Proof. by rewrite <- app_assoc. Qed.

(** X22.  A refresh that follows a refresh finds each cell of the framebuffer
    as the registers and the video memory give it: it returns, publishes
    nothing and leaves the state as it is, but for taking and releasing the
    mutex of the bitmap in a graphics mode. *)
Theorem VgaRefreshDisplay_twice (h h' : host) (s s1 : vga) (misc : Z) :
  vga_ok s ->
  array_get (VgaGcRegisters s) VGA_GC_MISC_REG = Some misc ->
  VgaRefreshDisplay h s = Some s1 ->
  VgaRefreshDisplay h' s1
  = Some (set_HostCalls
            (HostCalls s1
             ++ (if bits misc VGA_GC_MISC_NOALPHA
                 then [WaitForSingleObject; ReleaseMutex] else [])) s1).
Proof.
  intros Hok Hmisc Hr.
  destruct (VgaRefreshDisplay_steps _ _ _ Hr)
    as (b & c & Hb & Hscan & _ & _ & Hs1c & Hfb & Hm & Hc & Hn & Hv).
  pose proof (VgaUpdateFramebuffer_registers _ _ Hscan) as Hcb.
  assert (registers s1 = registers s) as Hregs by congruence.
  destruct (Resolution_range s Hok) as (Resolution & HR & HX & HY).
  assert (0 < X Resolution <= SHRT_MAX) as HXS by (unfold SHRT_MAX; lia).
  assert (0 <= Y Resolution <= SHRT_MAX) as HYS by (unfold SHRT_MAX; lia).
  (* the first scan-out *)
  unfold VgaUpdateFramebuffer in Hscan.
  rewrite (registers_VgaGetDisplayResolution b s Hb), HR in Hscan.
  rewrite (registers_VgaGetAddressSize b s Hb) in Hscan.
  rewrite (registers_VgaCrtcRegisters b s Hb) in Hscan.
  rewrite (registers_VgaGcRegisters b s Hb), Hmisc in Hscan.
  cbn [mbind option_bind] in Hscan.
  apply bind_Some in Hscan as (AddressSize & Hasz & Hscan).
  apply bind_Some in Hscan as (high & Hhigh & Hscan).
  apply bind_Some in Hscan as (low & Hlow & Hscan).
  apply bind_Some in Hscan as (offset & Hoffset & Hscan).
  cbn [mbind option_bind] in Hscan.
  (* the second refresh *)
  unfold VgaRefreshDisplay.
  rewrite (registers_VgaGetDisplayResolution s1 s Hregs), HR.
  cbn [mbind option_bind]. rewrite Hm. cbn [mbind option_bind].
  rewrite Hc. cbn [mbind option_bind].
  unfold VgaUpdateFramebuffer.
  rewrite (registers_VgaGetDisplayResolution s1 s Hregs), HR.
  rewrite (registers_VgaGetAddressSize s1 s Hregs), Hasz.
  rewrite (registers_VgaCrtcRegisters s1 s Hregs), Hhigh, Hlow, Hoffset.
  rewrite (registers_VgaGcRegisters s1 s Hregs), Hmisc.
  cbn [mbind option_bind].
  destruct (bits misc VGA_GC_MISC_NOALPHA).
  - apply bind_Some in Hscan as (c1 & Hscan & [= <-]).
    destruct (VgaScan_progress GraphicsBuffer_get
                (fun A j => VgaPixelData s A AddressSize j)
                (fun Address i j =>
                   VgaUpdatePixel Resolution Address AddressSize i j)
                (fun a => registers a = registers s)
                Resolution (to_DWORD (offset * 2))
                (to_DWORD (Z.shiftl high 8 + low))
                (call WaitForSingleObject b) HXS HYS
                (to_DWORD_range _)) with (s' := c1)
      as [_ [Hcells _ _ _ _]].
    { intros A i j a a' Hi Hj Ha Ha'.
      by apply (VgaUpdatePixel_spec s Resolution AddressSize HXS HYS A i j
                  a a'). }
    { done. }
    { done. }
    { done. }
    rewrite (VgaScan_clean GraphicsBuffer_get
               (fun A j => VgaPixelData s A AddressSize j)
               (fun Address i j =>
                  VgaUpdatePixel Resolution Address AddressSize i j)
               (fun a => registers a = registers s)
               Resolution (to_DWORD (offset * 2))
               (to_DWORD (Z.shiftl high 8 + low))
               (call WaitForSingleObject s1) HXS HYS (to_DWORD_range _)).
    + cbn [mbind option_bind NeedsUpdate set_InVerticalRetrace call
           set_HostCalls]. rewrite Hn. cbn [negb]. f_equal.
      rewrite <- Hv. destruct s1. rewrite <- app_two. reflexivity.
    + intros A i j a v Hi Hj Ha Hv' Hget.
      by apply (VgaUpdatePixel_same s Resolution AddressSize A i j a v).
    + done.
    + intros i j Hi Hj.
      destruct (Hcells i j Hi Hj ltac:(unfold scan_done; lia))
        as (v & Hnew & Hget).
      exists v. split; [done|]. unfold GraphicsBuffer_get in *.
      cbn [ConsoleFramebuffer call set_HostCalls] in *. by rewrite Hfb.
  - destruct (VgaScan_progress CharBuffer_get
                (fun A j => VgaCellData s A AddressSize j)
                (fun Address i j =>
                   VgaUpdateCell Resolution Address AddressSize i j)
                (fun a => registers a = registers s)
                Resolution (to_DWORD (offset * 2))
                (to_DWORD (Z.shiftl high 8 + low)) b HXS HYS
                (to_DWORD_range _)) with (s' := c)
      as [_ [Hcells _ _ _ _]].
    { intros A i j a a' Hi Hj Ha Ha'.
      by apply (VgaUpdateCell_spec s Resolution AddressSize HXS HYS A i j
                  a a'). }
    { done. }
    { done. }
    { done. }
    rewrite (VgaScan_clean CharBuffer_get
               (fun A j => VgaCellData s A AddressSize j)
               (fun Address i j =>
                  VgaUpdateCell Resolution Address AddressSize i j)
               (fun a => registers a = registers s)
               Resolution (to_DWORD (offset * 2))
               (to_DWORD (Z.shiftl high 8 + low)) s1 HXS HYS
               (to_DWORD_range _)).
    + cbn [mbind option_bind NeedsUpdate set_InVerticalRetrace].
      rewrite Hn. cbn [negb]. f_equal.
      rewrite <- Hv. destruct s1. rewrite app_nil_r. reflexivity.
    + intros A i j a v Hi Hj Ha Hv' Hget.
      by apply (VgaUpdateCell_same s Resolution AddressSize A i j a v).
    + done.
    + intros i j Hi Hj.
      destruct (Hcells i j Hi Hj ltac:(unfold scan_done; lia))
        as (v & Hnew & Hget).
      exists v. split; [done|]. unfold CharBuffer_get in *. by rewrite Hfb.
Qed.

End RefreshTwice.

(** ** The ports never fault *)

Section PortsDefined.
Context `{vga_h} {Hh : vga_h_ok}.

Lemma VgaReadPort_defined Port s : vga_ok s -> is_Some (VgaReadPort Port s).
Proof.
  intros Hok. unfold VgaReadPort. apply switch_cases; [|done].
  pose proof (VgaSeqIndex_range s Hok). pose proof (VgaGcIndex_range s Hok).
  pose proof (VgaCrtcIndex_range s Hok). pose proof (VgaAcIndex_range s Hok).
  pose proof (VgaDacIndex_range s Hok).
  pose proof (VgaSeqRegisters_size s Hok).
  pose proof (VgaGcRegisters_size s Hok).
  pose proof (VgaCrtcRegisters_size s Hok).
  pose proof (VgaAcRegisters_size s Hok).
  pose proof (VgaDacRegisters_size s Hok).
  repeat (apply Forall_cons_2 || apply Forall_nil_2); cbn [snd]; try done;
    try match goal with
      | |- context [negb ?b] => destruct b; cbn [negb]; [done|]
      end;
    match goal with
    | |- context [array_get ?a ?i] =>
        destruct (array_get_Some a i) as [v ->]; [lia|done]
    end.
Qed.

Lemma VgaWritePort_defined Port Data s :
  vga_ok s -> VGA_GC_MAX_REG <= VGA_CRTC_MAX_REG ->
  is_Some (VgaWritePort Port Data s).
Proof.
  intros Hok Hmax. unfold VgaWritePort. apply switch_cases; [|done].
  pose proof (VgaSeqIndex_range s Hok). pose proof (VgaGcIndex_range s Hok).
  pose proof (VgaCrtcIndex_range s Hok). pose proof (VgaAcIndex_range s Hok).
  pose proof (VgaDacIndex_range s Hok).
  pose proof (VgaSeqRegisters_size s Hok).
  pose proof (VgaGcRegisters_size s Hok).
  pose proof (VgaCrtcRegisters_size s Hok).
  pose proof (VgaAcRegisters_size s Hok).
  pose proof (VgaDacRegisters_size s Hok).
  repeat (apply Forall_cons_2 || apply Forall_nil_2); cbn [snd]; try done;
    unfold VgaWriteAc, VgaWriteSequencer, VgaWriteDac, VgaWriteCrtc,
      VgaWriteGc;
    try match goal with
      | |- context [negb (VgaAcLatch s)] =>
          destruct (VgaAcLatch s); cbn [negb]; [|done]
      | |- context [if VgaDacReadWrite s then _ else _] =>
          destruct (VgaDacReadWrite s); [|done]
      end;
    repeat match goal with
      | |- context [ASSERT (?a <? ?b)] =>
          destruct (Z.ltb_spec a b); [|lia]; cbn [ASSERT mbind option_bind]
      | |- context [array_set ?a ?i ?v] =>
          rewrite (array_set_Some a i v) by lia; cbn [mbind option_bind]
      end; done.
Qed.

(** X23.  In a state the emulator reaches, no read and no write of a port
    faults: the assertions of the register writes hold and the indices lie
    inside the register arrays.  For the CRTC this needs a header whose
    CRTC bank is not smaller than the GC bank. *)
Theorem port_access_defined (s : vga) (Port Data : Z) :
  reachable s -> VGA_GC_MAX_REG <= VGA_CRTC_MAX_REG ->
  is_Some (VgaReadPort Port s) /\ is_Some (VgaWritePort Port Data s).
Proof.
  intros Hok%reachable_vga_ok Hmax. split.
  - by apply VgaReadPort_defined.
  - by apply VgaWritePort_defined.
Qed.

Lemma port_writes_defined l : forall s,
  vga_ok s -> VGA_GC_MAX_REG <= VGA_CRTC_MAX_REG ->
  Forall (fun w => is_BYTE w.2) l ->
  exists s', port_writes l s = Some s' /\ vga_ok s'.
Proof.
  induction l as [|[Port Data] l IH]; intros s Hok Hmax Hl.
  - by exists s.
  - apply Forall_cons in Hl as [HData Hl]. cbn [port_writes].
    destruct (VgaWritePort_defined Port Data s Hok Hmax) as [s1 Hs1].
    rewrite Hs1. cbn [mbind option_bind]. apply IH; [|done..].
    by eapply vga_ok_VgaWritePort.
Qed.

End PortsDefined.

(** ** The mode switch *)

Section ModeSwitch.
Context `{vga_h} {Hh : vga_h_ok}.

(** X24.  [VgaUpdateMode] returns in every state that satisfies the invariant,
    and leaves the registers, the video memory and the two change flags as
    they are.  If the host gives the new surface, the text mode flag is the
    complement of the NOALPHA bit, the framebuffer is cleared and has one
    cell for each position of the resolution, and the whole screen is
    requested for update.  If the host refuses, the text mode flag and the
    update request stay, but the old framebuffer is gone: no bitmap is
    left, and after a text mode no framebuffer at all. *)
Theorem VgaUpdateMode_cases (h : host) (s : vga) :
  vga_ok s ->
  exists Resolution misc s',
    VgaGetDisplayResolution s = Some Resolution
    /\ array_get (VgaGcRegisters s) VGA_GC_MISC_REG = Some misc
    /\ VgaUpdateMode h s = Some s'
    /\ registers s' = registers s
    /\ ModeChanged s' = ModeChanged s /\ CursorMoved s' = CursorMoved s
    /\ if (if bits misc VGA_GC_MISC_NOALPHA
           then CreateConsoleScreenBuffer_ok h else HeapAlloc_ok h)
       then
         TextMode s' = negb (bits misc VGA_GC_MISC_NOALPHA)
         /\ NeedsUpdate s' = true
         /\ UpdateRectangle s'
            = {| Left := 0; Top := 0;
                 Right := X Resolution; Bottom := Y Resolution |}
         /\ ConsoleFramebuffer s'
            = (if bits misc VGA_GC_MISC_NOALPHA
               then GraphicsBuffer
                      (replicate (Z.to_nat (X Resolution * Y Resolution)) 0)
               else CharBuffer
                      (replicate (Z.to_nat (X Resolution * Y Resolution))
                         {| AsciiChar := 0; Attributes := 0 |}))
       else
         TextMode s' = TextMode s
         /\ NeedsUpdate s' = NeedsUpdate s
         /\ UpdateRectangle s' = UpdateRectangle s
         /\ (forall pixels, ConsoleFramebuffer s' <> GraphicsBuffer pixels)
         /\ (TextMode s = true -> ConsoleFramebuffer s' = NULL).
Proof.
  intros Hok.
  destruct (Resolution_range s Hok) as (Resolution & HR & HX & HY).
  destruct (gc_get s 3 _ Hok eq_refl) as (misc & Hmisc & _).
  exists Resolution, misc. unfold VgaUpdateMode. rewrite HR.
  cbn [mbind option_bind].
  assert (to_DWORD (X Resolution * Y Resolution)
          = X Resolution * Y Resolution) as HDW
    by (apply to_DWORD_id; nia).
  assert (forall a, VgaGcRegisters a = VgaGcRegisters s ->
            array_get (VgaGcRegisters a) VGA_GC_MISC_REG = Some misc) as Hm
    by (by intros a ->).
  destruct (TextMode s) eqn:Htext; cbn [negb].
  - rewrite (Hm (VgaLeaveTextMode s)) by done. cbn [mbind option_bind].
    destruct (bits misc VGA_GC_MISC_NOALPHA) eqn:HNA; cbn [negb].
    + unfold VgaEnterGraphicsMode. rewrite HDW.
      destruct (CreateConsoleScreenBuffer_ok h); cbn [negb mbind option_bind];
        eexists; (split; [done|]); (split; [done|]);
        (split; [reflexivity|]); repeat split; try done.
    + unfold VgaEnterTextMode.
      destruct (HeapAlloc_ok h); cbn [negb mbind option_bind];
        eexists; (split; [done|]); (split; [done|]);
        (split; [reflexivity|]); repeat split; try done.
  - rewrite (Hm (VgaLeaveGraphicsMode s))
      by (unfold VgaLeaveGraphicsMode; cbn;
          by destruct (ConsoleFramebuffer s)).
    cbn [mbind option_bind].
    destruct (bits misc VGA_GC_MISC_NOALPHA) eqn:HNA; cbn [negb].
    + unfold VgaEnterGraphicsMode. rewrite HDW.
      destruct (CreateConsoleScreenBuffer_ok h); cbn [negb mbind option_bind];
        eexists; (split; [done|]); (split; [done|]);
        (split; [reflexivity|]);
        unfold VgaLeaveGraphicsMode; cbn;
        destruct (ConsoleFramebuffer s) eqn:Hcf; repeat split; try done;
        intros pixels; change (ConsoleFramebuffer s <> GraphicsBuffer pixels);
        by rewrite Hcf.
    + unfold VgaEnterTextMode.
      destruct (HeapAlloc_ok h); cbn [negb mbind option_bind];
        eexists; (split; [done|]); (split; [done|]);
        (split; [reflexivity|]);
        unfold VgaLeaveGraphicsMode; cbn;
        destruct (ConsoleFramebuffer s) eqn:Hcf; repeat split; try done;
        intros pixels; change (ConsoleFramebuffer s <> GraphicsBuffer pixels);
        by rewrite Hcf.
Qed.

End ModeSwitch.

(** ** The text cursor *)

Lemma MAKEWORD_bytes lo hi :
  is_BYTE lo -> is_BYTE hi -> MAKEWORD lo hi = lo + 256 * hi.
Proof.
  intros Hlo Hhi. unfold MAKEWORD, is_BYTE in *.
  change 255 with (Z.ones 8). rewrite !Z.land_ones by lia.
  rewrite (Z.mod_small hi) by (change (2 ^ 8) with 256; lia).
  rewrite Z.shiftl_mul_pow2 by lia.
  assert (Z.land (lo mod 2 ^ 8) (hi * 2 ^ 8) = 0) as Hland.
  { apply Z.bits_inj'. intros n Hn. rewrite Z.land_spec, Z.bits_0.
    destruct (Z.lt_ge_cases n 8).
    - rewrite (Z.mul_pow2_bits_low hi 8 n) by lia. apply andb_false_r.
    - rewrite (Z.mod_pow2_bits_high lo 8 n) by lia. done. }
  rewrite <- Z.lxor_lor, <- Z.add_nocarry_lxor by done.
  rewrite (Z.mod_small lo) by (change (2 ^ 8) with 256; lia).
  change (2 ^ 8) with 256. lia.
Qed.

Lemma land_0x1F x : Z.land x 0x1F = x mod 32.
Proof. change 0x1F with (Z.ones 5). by rewrite Z.land_ones. Qed.

Lemma shiftr_5 x : Z.shiftr x 5 = x / 32.
Proof. by rewrite Z.shiftr_div_pow2. Qed.

Lemma cursor_size_range a b c :
  0 <= a -> a < b -> b < 32 -> 0 <= c < 32 ->
  3 <= 100 * (b - a) / (1 + c) <= 3100.
Proof.
  intros Ha Hab Hb Hc. split.
  - apply Z.div_le_lower_bound; lia.
  - apply Z.div_le_upper_bound; lia.
Qed.

Lemma cursor_position L d :
  0 <= L -> 0 < d ->
  0 <= L mod (d * 2) < 2 * d /\ 0 <= L / (d * 2)
  /\ L / (d * 2) * (2 * d) + L mod (d * 2) = L.
Proof.
  intros HL Hd. pose proof (Z.mod_pos_bound L (d * 2)).
  pose proof (Z.div_pos L (d * 2)). pose proof (Z.div_mod L (d * 2)). lia.
Qed.

Section Cursor.
Context `{vga_h} {Hh : vga_h_ok}.

(** X25.  The text cursor is placed from six CRTC registers.  With the offset
    register at zero the scanline size is zero and the position is a division
    by zero.  Otherwise the host is told twice: the cursor is visible exactly
    if its start line (6 bits) is below its end line (5 bits), its size is
    then between 3 and 3100 and zero if it is hidden, and the position is the
    cursor location plus the skew (bits 5 and 6 of the end register), modulo
    65536, split into row and column by the scanline size of twice the
    offset. *)
Theorem VgaUpdateTextCursor_position (s : vga) :
  vga_ok s ->
  exists start end_ offset msl low high,
    array_get (VgaCrtcRegisters s) VGA_CRTC_CURSOR_START_REG = Some start
    /\ array_get (VgaCrtcRegisters s) VGA_CRTC_CURSOR_END_REG = Some end_
    /\ array_get (VgaCrtcRegisters s) VGA_CRTC_OFFSET_REG = Some offset
    /\ array_get (VgaCrtcRegisters s) VGA_CRTC_MAX_SCAN_LINE_REG = Some msl
    /\ array_get (VgaCrtcRegisters s) VGA_CRTC_CURSOR_LOC_LOW_REG = Some low
    /\ array_get (VgaCrtcRegisters s) VGA_CRTC_CURSOR_LOC_HIGH_REG = Some high
    /\ (offset = 0 -> VgaUpdateTextCursor s = None)
    /\ (offset <> 0 ->
        exists dwSize Position,
          VgaUpdateTextCursor s
          = Some (set_HostCalls
                    (HostCalls s
                     ++ [SetConsoleCursorInfo (start mod 64 <? end_ mod 32)
                           dwSize;
                         SetConsoleCursorPosition Position]) s)
          /\ (if start mod 64 <? end_ mod 32
              then dwSize
                   = 100 * (end_ mod 32 - start mod 64) / (1 + msl mod 32)
                   /\ 3 <= dwSize <= 3100
              else dwSize = 0)
          /\ 0 <= X Position < 2 * offset
          /\ 0 <= Y Position
          /\ Y Position * (2 * offset) + X Position
             = (low + 256 * high + end_ / 32 mod 4) mod 65536).
Proof.
  intros Hok.
  destruct (crtc_get s 4 _ Hok eq_refl) as (start & Hstart & Bstart).
  destruct (crtc_get s 5 _ Hok eq_refl) as (end_ & Hend & Bend).
  destruct (crtc_get s 11 _ Hok eq_refl) as (offset & Hoffset & Boffset).
  destruct (crtc_get s 3 _ Hok eq_refl) as (msl & Hmsl & Bmsl).
  destruct (crtc_get s 9 _ Hok eq_refl) as (low & Hlow & Blow).
  destruct (crtc_get s 8 _ Hok eq_refl) as (high & Hhigh & Bhigh).
  exists start, end_, offset, msl, low, high.
  do 6 (split; [done|]).
  unfold VgaUpdateTextCursor.
  rewrite Hstart, Hend, Hoffset, Hmsl, Hlow, Hhigh. cbn [mbind option_bind].
  unfold is_BYTE in *.
  rewrite (MAKEWORD_bytes low high) by done.
  rewrite land_0x3F, land_0x1F, land_0x1F, land_3, shiftr_5.
  rewrite (to_BYTE_id (start mod 64)) by (pose proof (Z.mod_pos_bound start 64); lia).
  rewrite (to_BYTE_id (end_ mod 32)) by (pose proof (Z.mod_pos_bound end_ 32); lia).
  rewrite (to_BYTE_id (1 + msl mod 32)) by (pose proof (Z.mod_pos_bound msl 32); lia).
  rewrite (to_DWORD_id (offset * 2)) by lia.
  set (L := to_WORD (low + 256 * high + end_ / 32 mod 4)).
  assert (0 <= L < 65536) as HL by (apply Z.mod_pos_bound; lia).
  pose proof (Z.mod_pos_bound start 64 eq_refl) as Hs64.
  pose proof (Z.mod_pos_bound end_ 32 eq_refl) as He32.
  pose proof (Z.mod_pos_bound msl 32 eq_refl) as Hm32.
  split.
  - intros ->. unfold nonzero. change (0 * 2 =? 0) with true.
    by destruct (start mod 64 <? end_ mod 32).
  - intros Hoffset0.
    unfold nonzero. destruct (Z.eqb_spec (offset * 2) 0) as [|_]; [lia|].
    rewrite (Z.rem_mod_nonneg L), (Z.quot_div_nonneg L) by lia.
    assert (0 <= L mod (offset * 2) < offset * 2) as HX
      by (apply Z.mod_pos_bound; lia).
    assert (0 <= L / (offset * 2) <= 32767) as HY.
    { split; [apply Z.div_pos; lia|].
      apply Z.lt_succ_r, Z.div_lt_upper_bound; lia. }
    unfold to_SHORT, to_WORD.
    rewrite (Z.mod_small (L mod (offset * 2))) by lia.
    rewrite (Z.mod_small (L / (offset * 2))) by lia.
    rewrite (Z.mod_small (L mod (offset * 2) + 32768)) by lia.
    rewrite (Z.mod_small (L / (offset * 2) + 32768)) by lia.
    rewrite !Z.add_simpl_r.
    destruct (Z.ltb_spec (start mod 64) (end_ mod 32)) as [Hv|Hv];
      cbn [mbind option_bind].
    + exists (Z.quot (100 * (end_ mod 32 - start mod 64)) (1 + msl mod 32)),
        {| X := L mod (offset * 2); Y := L / (offset * 2) |}.
      split; [unfold call, set_HostCalls; cbn; by rewrite <- app_assoc|].
      cbn [X Y]. rewrite Z.quot_div_nonneg by lia. split.
      * split; [done|]. apply cursor_size_range; lia.
      * apply cursor_position; [apply HL|clear -Boffset Hoffset0; lia].
    + exists 0, {| X := L mod (offset * 2); Y := L / (offset * 2) |}.
      split; [unfold call, set_HostCalls; cbn; by rewrite <- app_assoc|].
      cbn [X Y]. split; [done|]. apply cursor_position; [apply HL|clear -Boffset Hoffset0; lia].
Qed.

End Cursor.

(** ** The copy of the console into the video memory *)

Section Store.
Context `{vga_h} {Hh : vga_h_ok}.
Variables (Resolution : COORD) (ScanlineSize AddressSize : Z) (s0 : vga).
Variable cells : list CHAR_INFO.
Hypothesis HX : 0 < X Resolution.
Hypothesis HY : 0 <= Y Resolution.
Hypothesis HAS : 0 < AddressSize.
Hypothesis HSS : X Resolution <= ScanlineSize.
Hypothesis Hfit : Y Resolution * ScanlineSize * AddressSize <= 0x10000.
Hypothesis HBANK : 0x10000 <= VGA_BANK_SIZE.
Hypothesis HNB : 2 <= VGA_NUM_BANKS.
Hypothesis Hfb : ConsoleFramebuffer s0 = CharBuffer cells.
Hypothesis Hlen : Z.of_nat (length cells) = X Resolution * Y Resolution.








End Store.


Section Initialize.
Context `{vga_h} {Hh : vga_h_ok}.





End Initialize.

(** ** The properties over the concrete header *)

Section PortsStd.
#[local] Existing Instance vga_h_std.

Lemma unknown_port_witness :
  VgaReadPort 0x3C3 vga_reset = Some (0, vga_reset)
  /\ VgaWritePort 0x3C3 0xFF vga_reset = Some vga_reset.
Proof.
  split.
  - apply (proj1 (unknown_port 0x3C3)).
    apply (bool_decide_unpack _). vm_compute. exact I.
  - apply (proj2 (unknown_port 0x3C3)).
    apply (bool_decide_unpack _). vm_compute. exact I.
Defined.

Lemma VgaReadPort_frame_witness :
  vga_reset
  = set_InHorizontalRetrace (InHorizontalRetrace vga_reset)
      (set_InVerticalRetrace (InVerticalRetrace vga_reset)
         (set_VgaAcLatch (VgaAcLatch vga_reset)
            (set_VgaDacIndex (VgaDacIndex vga_reset) vga_reset)))
  /\ (VGA_SEQ_INDEX <> VGA_DAC_DATA -> VGA_SEQ_INDEX <> VGA_STAT_MONO ->
      VGA_SEQ_INDEX <> VGA_STAT_COLOR -> vga_reset = vga_reset).
Proof.
  apply (@VgaReadPort_frame vga_h_std VGA_SEQ_INDEX vga_reset 0 vga_reset).
  vm_compute. reflexivity.
Defined.

Lemma VgaWritePort_frame_witness :
  VgaMemory (set_VgaMiscRegister 2 vga_reset) = VgaMemory vga_reset
  /\ ConsoleFramebuffer (set_VgaMiscRegister 2 vga_reset)
     = ConsoleFramebuffer vga_reset
  /\ TextMode (set_VgaMiscRegister 2 vga_reset) = TextMode vga_reset
  /\ NeedsUpdate (set_VgaMiscRegister 2 vga_reset) = NeedsUpdate vga_reset
  /\ UpdateRectangle (set_VgaMiscRegister 2 vga_reset)
     = UpdateRectangle vga_reset
  /\ InVerticalRetrace (set_VgaMiscRegister 2 vga_reset)
     = InVerticalRetrace vga_reset
  /\ InHorizontalRetrace (set_VgaMiscRegister 2 vga_reset)
     = InHorizontalRetrace vga_reset
  /\ HostCalls (set_VgaMiscRegister 2 vga_reset) = HostCalls vga_reset
  /\ (ModeChanged vga_reset = true ->
      ModeChanged (set_VgaMiscRegister 2 vga_reset) = true)
  /\ (CursorMoved vga_reset = true ->
      CursorMoved (set_VgaMiscRegister 2 vga_reset) = true).
Proof.
  apply (@VgaWritePort_frame vga_h_std VGA_MISC_WRITE 2 vga_reset).
  vm_compute. reflexivity.
Defined.

Lemma change_flags_witness :
  (ModeChanged (set_VgaMiscRegister 2 vga_reset) = true <->
     ModeChanged vga_reset = true
     \/ (VGA_MISC_WRITE = VGA_GC_DATA
         /\ VgaGcIndex vga_reset = VGA_GC_MISC_REG)
     \/ (VGA_MISC_WRITE = VGA_CRTC_DATA
         /\ VgaCrtcIndex vga_reset ∈ mode_registers))
  /\ (CursorMoved (set_VgaMiscRegister 2 vga_reset) = true <->
     CursorMoved vga_reset = true
     \/ (VGA_MISC_WRITE = VGA_CRTC_DATA
         /\ VgaCrtcIndex vga_reset ∈ cursor_registers)).
Proof.
  apply (@change_flags vga_h_std vga_h_std_ok VGA_MISC_WRITE 2 vga_reset).
  vm_compute. reflexivity.
Defined.

Lemma seq_write_read_witness :
  exists s',
    port_writes (set_seq VGA_SEQ_MASK_REG 0x0F) vga_reset = Some s'
    /\ VgaReadPort VGA_SEQ_INDEX s' = Some (VGA_SEQ_MASK_REG, s')
    /\ VgaReadPort VGA_SEQ_DATA s' = Some (0x0F, s')
    /\ forall r, 0 <= r -> r <> VGA_SEQ_MASK_REG ->
         array_get (VgaSeqRegisters s') r
         = array_get (VgaSeqRegisters vga_reset) r.
Proof.
  apply (@seq_write_read vga_h_std vga_h_std_ok vga_reset VGA_SEQ_MASK_REG).
  - exact vga_reset_std_ok.
  - vm_compute. split; congruence.
Defined.

Lemma gc_write_read_witness :
  exists s',
    port_writes (set_gc VGA_GC_MODE_REG 0x10) vga_reset = Some s'
    /\ VgaReadPort VGA_GC_INDEX s' = Some (VGA_GC_MODE_REG, s')
    /\ VgaReadPort VGA_GC_DATA s' = Some (0x10, s')
    /\ forall r, 0 <= r -> r <> VGA_GC_MODE_REG ->
         array_get (VgaGcRegisters s') r
         = array_get (VgaGcRegisters vga_reset) r.
Proof.
  apply (@gc_write_read vga_h_std vga_h_std_ok vga_reset VGA_GC_MODE_REG).
  - exact vga_reset_std_ok.
  - vm_compute. split; congruence.
Defined.

Lemma crtc_write_read_witness :
  exists s',
    port_writes (set_crtc VGA_CRTC_OFFSET_REG 40) vga_reset = Some s'
    /\ VgaReadPort VGA_CRTC_INDEX s' = Some (VGA_CRTC_OFFSET_REG, s')
    /\ VgaReadPort VGA_CRTC_DATA s' = Some (40, s')
    /\ forall r, 0 <= r -> r <> VGA_CRTC_OFFSET_REG ->
         array_get (VgaCrtcRegisters s') r
         = array_get (VgaCrtcRegisters vga_reset) r.
Proof.
  apply (@crtc_write_read vga_h_std vga_h_std_ok vga_reset VGA_CRTC_OFFSET_REG).
  - exact vga_reset_std_ok.
  - vm_compute. congruence.
  - vm_compute. split; congruence.
Defined.

Lemma ac_write_read_witness :
  exists s',
    port_writes (set_ac VGA_AC_CONTROL_REG 0x40) vga_reset = Some s'
    /\ VgaReadPort VGA_AC_INDEX s' = Some (VGA_AC_CONTROL_REG, s')
    /\ VgaReadPort VGA_AC_READ s' = Some (0x40, s')
    /\ VgaAcLatch s' = false
    /\ forall r, 0 <= r -> r <> VGA_AC_CONTROL_REG ->
         array_get (VgaAcRegisters s') r
         = array_get (VgaAcRegisters vga_reset) r.
Proof.
  apply (@ac_write_read vga_h_std vga_h_std_ok vga_reset VGA_AC_CONTROL_REG).
  - exact vga_reset_std_ok.
  - reflexivity.
  - vm_compute. split; congruence.
Defined.

Lemma VgaWritePort_DAC_DATA_read_mode_witness :
  dac_mode vga_reset = DacRead
  /\ VgaWritePort VGA_DAC_DATA 0x3F vga_reset = Some vga_reset.
Proof.
  split; [reflexivity|].
  apply (@VgaWritePort_DAC_DATA_read_mode vga_h_std vga_h_std_ok vga_reset).
  reflexivity.
Defined.

Lemma dac_write_read_witness :
  exists s1 s2,
    port_writes
      ((VGA_DAC_WRITE_INDEX, 254)
       :: writes_to VGA_DAC_DATA [0x3F; 0x7F; 0x15]) vga_reset
    = Some s1
    /\ (s ← VgaWritePort VGA_DAC_READ_INDEX 254 s1;
        port_reads VGA_DAC_DATA (length [0x3F; 0x7F; 0x15]) s)
       = Some ((fun d => Z.land d 0x3F) <$> [0x3F; 0x7F; 0x15], s2)
    /\ VgaDacIndex s2
       = (254 + Z.of_nat (length [0x3F; 0x7F; 0x15])) mod dac_period
    /\ VgaDacRegisters s2 = VgaDacRegisters s1.
Proof.
  apply (@dac_write_read vga_h_std vga_h_std_ok vga_reset 254
           [0x3F; 0x7F; 0x15]).
  - exact vga_reset_std_ok.
  - vm_compute. split; congruence.
  - repeat constructor; vm_compute; congruence.
  - vm_compute. congruence.
Defined.

End PortsStd.

Section MemoryStd.
#[local] Existing Instance vga_h_std.

Lemma VgaWriteMemory_byte_witness :
  exists s',
    VgaWriteMemory 0xA0005 [0x42] 1 chain4_state = Some s'
    /\ only_memory chain4_state s'
    /\ forall j o, 0 <= j < 4 -> 0 <= o < VGA_BANK_SIZE ->
         VgaMemory_get s' (o + j * VGA_BANK_SIZE)
         = if (o =? 2) && plane_written 15 8 0 0xA0005 j then Some 0x42
           else VgaMemory_get chain4_state (o + j * VGA_BANK_SIZE).
Proof.
  apply (@VgaWriteMemory_byte vga_h_std vga_h_std_ok chain4_state 0xA0005 0x42
           2 15 8 0); try reflexivity; lia.
Defined.

Lemma odd_even_planes_witness :
  exists s',
    VgaWriteMemory 0xA0003 [0x42] 1 odd_even_state = Some s'
    /\ forall j o, 0 <= j < 4 -> 0 <= o < VGA_BANK_SIZE ->
         VgaMemory_get s' (o + j * VGA_BANK_SIZE)
         = if (o =? 2) && (j mod 2 =? 0xA0003 mod 2) then Some 0x42
           else VgaMemory_get odd_even_state (o + j * VGA_BANK_SIZE).
Proof.
  apply (@odd_even_planes vga_h_std vga_h_std_ok odd_even_state 0xA0003 0x42 2
           15 0 16); try reflexivity; lia.
Defined.

Lemma chain4_linear_write_witness :
  exists s',
    VgaWriteMemory (0xA0000 + 4 * 1) [0x11; 0x22; 0x33; 0x44] 4 chain4_state
    = Some s'
    /\ VgaMemory_get s' (1 * 2 + 0 * VGA_BANK_SIZE) = Some 0x11
    /\ VgaMemory_get s' (1 * 2 + 1 * VGA_BANK_SIZE) = Some 0x22
    /\ VgaMemory_get s' (1 * 2 + 2 * VGA_BANK_SIZE) = Some 0x33
    /\ VgaMemory_get s' (1 * 2 + 3 * VGA_BANK_SIZE) = Some 0x44.
Proof.
  apply (@chain4_linear_write vga_h_std vga_h_std_ok chain4_state 1 0x11 0x22
           0x33 0x44 15 8 0xA0000 0xAFFFF 2);
    try exact chain4_state_ok; try reflexivity; try lia.
Defined.

Lemma VgaWriteMemory_VgaReadMemory_witness :
  exists s',
    VgaWriteMemory 0xA0000 [0x11; 0x22; 0x33; 0x44]
      (Z.of_nat (length [0x11; 0x22; 0x33; 0x44])) chain4_state = Some s'
    /\ VgaReadMemory 0xA0000 [0; 0; 0; 0]
         (Z.of_nat (length [0x11; 0x22; 0x33; 0x44])) s'
       = Some [0x11; 0x22; 0x33; 0x44].
Proof.
  apply (@VgaWriteMemory_VgaReadMemory vga_h_std vga_h_std_ok chain4_state
           0xA0000 [0x11; 0x22; 0x33; 0x44] [0; 0; 0; 0] 15 0xA0000 0xAFFFF);
    try exact chain4_state_ok; try reflexivity; try lia.
  - vm_compute. congruence.
  - intros i V Hi.
    assert (i = 0 \/ i = 1 \/ i = 2 \/ i = 3) as Hc
      by (change (Z.of_nat (length [17; 34; 51; 68])) with 4 in Hi; lia).
    destruct Hc as [->|[->|[->| ->]]];
      match goal with
      | |- VgaTranslateWriteAddress ?A ?s = _ -> _ =>
          assert (VgaTranslateWriteAddress A s = Some 0) as HV
            by (vm_compute; reflexivity);
          rewrite HV; intros [= <-]; reflexivity
      end.
Defined.

End MemoryStd.

Section DisplayStd.
#[local] Existing Instance vga_h_std.

Lemma text_state_ok : vga_ok text_state.
Proof.
  apply (vga_ok_registers vga_reset); [reflexivity|exact vga_reset_std_ok].
Defined.


Lemma VgaMarkForUpdate_bounding_box_witness :
  NeedsUpdate (marks [(3, 5); (1, 7)] vga_reset) = true
  /\ forall q, q ∈ [(3, 5); (1, 7)] ->
       in_rect (UpdateRectangle (marks [(3, 5); (1, 7)] vga_reset)) q.1 q.2.
Proof.
  destruct (VgaMarkForUpdate_bounding_box vga_reset (3, 5) [(1, 7)])
    as (Hn & Hin & _).
  - reflexivity.
  - vm_compute. split; congruence.
  - vm_compute. split; congruence.
  - exact (conj Hn Hin).
Defined.

Lemma VgaUpdateFramebuffer_text_witness :
  exists s',
    VgaUpdateFramebuffer text_state = Some s'
    /\ registers s' = registers text_state.
Proof.
  destruct (@VgaUpdateFramebuffer_text vga_h_std vga_h_std_ok text_state
              {| X := 1; Y := 1 |} 2 0 0 0 0
              [{| AsciiChar := 65; Attributes := 7 |}])
    as (s' & Hs' & Hregs & _).
  - exact text_state_ok.
  - vm_compute. congruence.
  - vm_compute. congruence.
  - vm_compute. reflexivity.
  - vm_compute. reflexivity.
  - vm_compute. reflexivity.
  - vm_compute. reflexivity.
  - vm_compute. reflexivity.
  - vm_compute. reflexivity.
  - vm_compute. reflexivity.
  - reflexivity.
  - reflexivity.
  - exact (ex_intro _ s' (conj Hs' Hregs)).
Defined.


Lemma VgaRefreshDisplay_flags_witness :
  exists s',
    VgaRefreshDisplay host_ok vga_reset = Some s'
    /\ ModeChanged s' = false /\ CursorMoved s' = false
    /\ NeedsUpdate s' = false /\ InVerticalRetrace s' = true.
Proof.
  destruct (VgaRefreshDisplay host_ok vga_reset) as [s'|] eqn:Hr;
    [|vm_compute in Hr; discriminate Hr].
  destruct (@VgaRefreshDisplay_flags vga_h_std vga_h_std_ok host_ok vga_reset
              s' Hr) as (_ & Hm & Hc & Hn & Hv & _).
  exact (ex_intro _ s' (conj eq_refl (conj Hm (conj Hc (conj Hn Hv))))).
Defined.

Lemma VgaRefreshDisplay_twice_witness :
  exists s1,
    VgaRefreshDisplay host_ok vga_reset = Some s1
    /\ VgaRefreshDisplay host_ok s1
       = Some (set_HostCalls
                 (HostCalls s1
                  ++ (if bits 0 VGA_GC_MISC_NOALPHA
                      then [WaitForSingleObject; ReleaseMutex] else [])) s1).
Proof.
  destruct (VgaRefreshDisplay host_ok vga_reset) as [s1|] eqn:Hr;
    [|vm_compute in Hr; discriminate Hr].
  exists s1. split; [reflexivity|].
  apply (@VgaRefreshDisplay_twice vga_h_std vga_h_std_ok host_ok host_ok
           vga_reset s1 0).
  - exact vga_reset_std_ok.
  - vm_compute. reflexivity.
  - exact Hr.
Defined.

Lemma port_access_defined_witness :
  is_Some (VgaReadPort VGA_SEQ_DATA vga_reset)
  /\ is_Some (VgaWritePort VGA_SEQ_DATA 1 vga_reset).
Proof.
  apply (@port_access_defined vga_h_std vga_h_std_ok vga_reset VGA_SEQ_DATA 1).
  - apply rtc_refl.
  - vm_compute. congruence.
Defined.

Lemma VgaUpdateMode_cases_witness :
  exists s',
    VgaUpdateMode host_ok vga_reset = Some s'
    /\ registers s' = registers vga_reset.
Proof.
  destruct (@VgaUpdateMode_cases vga_h_std vga_h_std_ok host_ok vga_reset
              vga_reset_std_ok)
    as (Resolution & misc & s' & _ & _ & Hs' & Hregs & _).
  exact (ex_intro _ s' (conj Hs' Hregs)).
Defined.

Lemma VgaUpdateTextCursor_position_witness :
  VgaUpdateTextCursor vga_reset = None.
Proof.
  destruct (@VgaUpdateTextCursor_position vga_h_std vga_h_std_ok vga_reset
              vga_reset_std_ok)
    as (start & end_ & offset & msl & low & high
        & _ & _ & Hoffset & _ & _ & _ & Hzero & _).
  apply Hzero. vm_compute in Hoffset. by injection Hoffset as <-.
Defined.


End DisplayStd.
